(** * Session coordination engine: a shallow embedding of [session.py]
      and of the store operations of [database.py] it relies on.

    Python strings are sequences of Unicode code points, the two SQL tables
    are lists of rows in row order, [time.time()] and [random.randint] read
    from oracles kept in the world, and every operation is a computation in
    a state-and-exception monad over that world. *)

From Stdlib Require Import ZArith NArith List Bool Lia String Ascii.
From stdpp Require Import gmap strings list fin_maps.

Import ListNotations.
Open Scope Z_scope.

(** ** Python strings *)

(** A Python [str] is a list of code points. *)
Abbreviation pystr := (list N).

(** An ASCII literal as a Python string. *)
Fixpoint py (s : string) : pystr :=
  match s with
  | EmptyString => []
  | String a s' => N_of_ascii a :: py s'
  end.

Definition in_range (lo hi c : N) : bool := ((lo <=? c) && (c <=? hi))%N.

(** The characters [str.isspace], [str.strip()] and the regex class [\s]
    treat as whitespace (CPython's [_PyUnicode_IsWhitespace]). *)
Definition is_space (c : N) : bool :=
  in_range 9 13 c || in_range 28 32 c || (c =? 133)%N || (c =? 160)%N
  || (c =? 5760)%N || in_range 8192 8202 c || (c =? 8232)%N || (c =? 8233)%N
  || (c =? 8239)%N || (c =? 8287)%N || (c =? 12288)%N.

(** The regex class [[a-zA-Z0-9]]. *)
Definition is_ascii_alnum (c : N) : bool :=
  in_range 97 122 c || in_range 65 90 c || in_range 48 57 c.

(** The regex class [[a-z0-9]]. *)
Definition is_lower_or_digit (c : N) : bool :=
  in_range 97 122 c || in_range 48 57 c.

(** [str.isascii] on one code point: the characters U+0000 to U+007F. *)
Definition is_ascii (c : N) : bool := (c <? 128)%N.

(** [re.sub(cls+, "", s)] and [re.sub(cls, "", s)] for a one-character
    class [cls]: every character of the class is deleted. *)
Definition re_sub_delete (cls : N -> bool) (s : pystr) : pystr :=
  List.filter (fun c => negb (cls c)) s.

(** [str.lower()] on one code point of the ASCII range.  [normalize_item]
    only lower-cases strings of ASCII letters and digits (see
    [lower_input_is_ascii_alnum]), the only place [lower] is used. *)
Definition ascii_lower (c : N) : N :=
  if in_range 65 90 c then (c + 32)%N else c.

Definition str_lower (s : pystr) : pystr := map ascii_lower s.

Fixpoint str_lstrip (s : pystr) : pystr :=
  match s with
  | [] => []
  | c :: s' => if is_space c then str_lstrip s' else s
  end.

Definition str_rstrip (s : pystr) : pystr := rev (str_lstrip (rev s)).

(** [str.strip()]: leading and trailing whitespace removed. *)
Definition str_strip (s : pystr) : pystr := str_rstrip (str_lstrip s).

Definition str_eqb (a b : pystr) : bool := bool_decide (a = b).

(** [not s] / [if s] on a string or a list. *)
Definition is_empty {A} (l : list A) : bool :=
  match l with [] => true | _ => false end.

(** ** Normalizer (session.py, lines 41-67) *)

Definition normalize_item (item : pystr) : pystr :=
  let normalized := re_sub_delete is_space item in
  let normalized := re_sub_delete (fun c => negb (is_ascii_alnum c)) normalized in
  str_lower normalized.

Definition items_equal (item1 item2 : pystr) : bool :=
  str_eqb (normalize_item item1) (normalize_item item2).

Definition is_duplicate_item (new_item : pystr) (existing_items : list pystr) : bool :=
  let new_normalized := normalize_item new_item in
  if is_empty new_normalized then true
  else existsb (fun item => str_eqb (normalize_item item) new_normalized) existing_items.

(** "Döner": D, o-umlaut (U+00F6), n, e, r. *)
Definition doener : pystr := [68; 246; 110; 101; 114]%N.

(** ** The store (database.py) *)

(** A row of the [sessions] table.  The JSON text columns hold lists of
    strings and are kept decoded. *)
Record Session := mkSession {
  session_id : string;
  creator_id : string;
  phase : string;
  created_at : Z;
  last_activity : Z;
  excluded_items : list pystr;
  restart_votes : list string
}.

(** A row of the [members] table. *)
Record Member := mkMember {
  member_session : string;
  member_id : string;
  items : list pystr;
  is_ready : bool;
  accepted_items : list pystr;
  is_observer : bool;
  last_seen : Z
}.

(** The two tables, rows in row order. *)
Record Database := mkDatabase {
  sessions : list Session;
  members : list Member
}.

(** The world an operation runs in: the store, the readings [time.time()]
    will return (timestamps in whole seconds) and the raw values behind
    [random.randint], each with the number of readings consumed. *)
Record World := mkWorld {
  db : Database;
  clock : nat -> Z;
  ticks : nat;
  entropy : nat -> Z;
  draws : nat
}.

Inductive exn := ValueError | IndexError.

Inductive result (A : Type) :=
| Ok (a : A)
| Raise (e : exn).
Arguments Ok {A} a.
Arguments Raise {A} e.

(** Computations: read and change the world, return or raise. *)
Definition M (A : Type) : Type := World -> result A * World.

Definition ret {A} (a : A) : M A := fun w => (Ok a, w).

Definition bind {A B} (m : M A) (f : A -> M B) : M B :=
  fun w => match m w with
           | (Ok a, w') => f a w'
           | (Raise e, w') => (Raise e, w')
           end.

Definition raise {A} (e : exn) : M A := fun w => (Raise e, w).

Declare Scope py_scope.
Delimit Scope py_scope with py.
Notation "x <- m ;; k" := (bind m (fun x => k))
  (at level 100, m at next level, right associativity) : py_scope.
Notation "m ;;; k" := (bind m (fun _ => k))
  (at level 100, right associativity) : py_scope.
Open Scope py_scope.

Definition get_db : M Database := fun w => (Ok (db w), w).

Definition put_db (d : Database) : M unit :=
  fun w => (Ok tt, mkWorld d (clock w) (ticks w) (entropy w) (draws w)).

(** [time.time()]. *)
Definition time_time : M Z :=
  fun w => (Ok (clock w (ticks w)),
            mkWorld (db w) (clock w) (S (ticks w)) (entropy w) (draws w)).

(** [random.randint(a, b)]: an integer of the closed range [a, b];
    [ValueError] on an empty range. *)
Definition random_randint (a b : Z) : M Z :=
  fun w => if b <? a then (Raise ValueError, w)
           else (Ok (a + entropy w (draws w) mod (b - a + 1)),
                 mkWorld (db w) (clock w) (ticks w) (entropy w) (S (draws w))).

Fixpoint foldM {A S} (body : S -> A -> M S) (l : list A) (s : S) : M S :=
  match l with
  | [] => ret s
  | x :: l' => s' <- body s x ;; foldM body l' s'
  end.

(** [l[i]], negative indices counted from the end. *)
Definition list_getitem {A} (l : list A) (i : Z) : M A :=
  let j := if i <? 0 then i + Z.of_nat (length l) else i in
  if j <? 0 then raise IndexError
  else match nth_error l (Z.to_nat j) with
       | Some x => ret x
       | None => raise IndexError
       end.

(** [l.pop(i)] on a copy, for an index already checked to be in range. *)
Fixpoint list_pop {A} (i : nat) (l : list A) : list A :=
  match l, i with
  | [], _ => []
  | _ :: l', O => l'
  | x :: l', S i' => x :: list_pop i' l'
  end.

(** [x in l] for a list of identifiers. *)
Definition id_in (x : string) (l : list string) : bool :=
  existsb (String.eqb x) l.

(** [UPDATE t SET ... WHERE cond]. *)
Definition update_where {R} (cond : R -> bool) (upd : R -> R) (rows : list R) : list R :=
  map (fun r => if cond r then upd r else r) rows.

Definition session_is (sid : string) (s : Session) : bool :=
  String.eqb (session_id s) sid.

Definition in_session (sid : string) (m : Member) : bool :=
  String.eqb (member_session m) sid.

Definition member_is (sid mid : string) (m : Member) : bool :=
  String.eqb (member_session m) sid && String.eqb (member_id m) mid.

Definition with_phase (p : string) (now : Z) (s : Session) : Session :=
  mkSession (session_id s) (creator_id s) p (created_at s) now
            (excluded_items s) (restart_votes s).

Definition with_last_activity (now : Z) (s : Session) : Session :=
  mkSession (session_id s) (creator_id s) (phase s) (created_at s) now
            (excluded_items s) (restart_votes s).

Definition with_excluded_items (ex : list pystr) (s : Session) : Session :=
  mkSession (session_id s) (creator_id s) (phase s) (created_at s)
            (last_activity s) ex (restart_votes s).

Definition with_restart_votes (v : list string) (s : Session) : Session :=
  mkSession (session_id s) (creator_id s) (phase s) (created_at s)
            (last_activity s) (excluded_items s) v.

Definition with_items (l : list pystr) (now : Z) (m : Member) : Member :=
  mkMember (member_session m) (member_id m) l (is_ready m) (accepted_items m)
           (is_observer m) now.

Definition with_ready (r : bool) (now : Z) (m : Member) : Member :=
  mkMember (member_session m) (member_id m) (items m) r (accepted_items m)
           (is_observer m) now.

Definition with_accepted_items (l : list pystr) (now : Z) (m : Member) : Member :=
  mkMember (member_session m) (member_id m) (items m) (is_ready m) l
           (is_observer m) now.

Definition reset_ready (m : Member) : Member :=
  mkMember (member_session m) (member_id m) (items m) false (accepted_items m)
           (is_observer m) (last_seen m).

Definition reset_accepted (m : Member) : Member :=
  mkMember (member_session m) (member_id m) (items m) (is_ready m) []
           (is_observer m) (last_seen m).

Definition reset_items (m : Member) : Member :=
  mkMember (member_session m) (member_id m) [] (is_ready m) (accepted_items m)
           (is_observer m) (last_seen m).

Definition reset_observer (m : Member) : Member :=
  mkMember (member_session m) (member_id m) (items m) (is_ready m)
           (accepted_items m) false (last_seen m).

Definition update_sessions (cond : Session -> bool) (upd : Session -> Session) : M unit :=
  d <- get_db ;;
  put_db (mkDatabase (update_where cond upd (sessions d)) (members d)).

Definition update_members (cond : Member -> bool) (upd : Member -> Member) : M unit :=
  d <- get_db ;;
  put_db (mkDatabase (sessions d) (update_where cond upd (members d))).

Definition get_session (sid : string) : M (option Session) :=
  d <- get_db ;;
  ret (find (session_is sid) (sessions d)).

Definition set_session_phase (sid : string) (p : string) : M unit :=
  now <- time_time ;;
  update_sessions (session_is sid) (with_phase p now).

Definition get_member (sid mid : string) : M (option Member) :=
  d <- get_db ;;
  ret (find (member_is sid mid) (members d)).

Definition get_all_members (sid : string) : M (list Member) :=
  d <- get_db ;;
  ret (List.filter (in_session sid) (members d)).

Definition get_active_members (sid : string) : M (list Member) :=
  ms <- get_all_members sid ;;
  ret (List.filter (fun m => negb (is_observer m)) ms).

Definition update_member_items (sid mid : string) (l : list pystr) : M unit :=
  t1 <- time_time ;;
  update_members (member_is sid mid) (with_items l t1) ;;;
  t2 <- time_time ;;
  update_sessions (session_is sid) (with_last_activity t2).

Definition set_member_ready (sid mid : string) (r : bool) : M unit :=
  t1 <- time_time ;;
  update_members (member_is sid mid) (with_ready r t1) ;;;
  t2 <- time_time ;;
  update_sessions (session_is sid) (with_last_activity t2).

Definition update_member_accepted_items (sid mid : string) (l : list pystr) : M unit :=
  t1 <- time_time ;;
  update_members (member_is sid mid) (with_accepted_items l t1) ;;;
  t2 <- time_time ;;
  update_sessions (session_is sid) (with_last_activity t2).

Definition reset_all_ready_status (sid : string) : M unit :=
  update_members (in_session sid) reset_ready.

Definition reset_all_accepted_items (sid : string) : M unit :=
  update_members (in_session sid) reset_accepted.

Definition clear_all_items (sid : string) : M unit :=
  update_members (in_session sid) reset_items.

Definition promote_observers (sid : string) : M unit :=
  update_members (in_session sid) reset_observer.

Definition get_excluded_items (sid : string) : M (list pystr) :=
  d <- get_db ;;
  ret (match find (session_is sid) (sessions d) with
       | Some row => excluded_items row
       | None => []
       end).

Definition set_excluded_items (sid : string) (ex : list pystr) : M unit :=
  update_sessions (session_is sid) (with_excluded_items ex).

Definition clear_excluded_items (sid : string) : M unit :=
  set_excluded_items sid [].

Definition get_restart_votes (sid : string) : M (list string) :=
  d <- get_db ;;
  ret (match find (session_is sid) (sessions d) with
       | Some row => restart_votes row
       | None => []
       end).

Definition add_restart_vote (sid mid : string) : M unit :=
  votes <- get_restart_votes sid ;;
  if negb (id_in mid votes)
  then update_sessions (session_is sid) (with_restart_votes (votes ++ [mid]))
  else ret tt.

Definition clear_restart_votes (sid : string) : M unit :=
  update_sessions (session_is sid) (with_restart_votes []).

(** ** Session logic (session.py) *)

Definition AUTO_READY_TIMEOUT : Z := 2 * 60.

Definition PHASE_ADDING : string := "adding".
Definition PHASE_ACCEPTING : string := "accepting".
Definition PHASE_RESULT : string := "result".

(** The replies of [add_item] and [remove_item]: the dictionaries
    [{"success": False, "error": msg}] and [{"success": True, "items": l}]. *)
Inductive item_reply :=
| ItemError (error : string)
| ItemOk (new_items : list pystr).

Definition add_item (sid mid : string) (item : pystr) : M item_reply :=
  let item := str_strip item in
  if is_empty item then ret (ItemError "Item cannot be empty") else
  member <- get_member sid mid ;;
  match member with
  | None => ret (ItemError "Member not found")
  | Some member =>
      if is_observer member then ret (ItemError "Observers cannot add items")
      else if is_ready member
      then ret (ItemError "Cannot add items after marking ready")
      else if is_duplicate_item item (items member)
      then ret (ItemError "Duplicate item")
      else
        let new_items := items member ++ [item] in
        update_member_items sid mid new_items ;;;
        ret (ItemOk new_items)
  end.

Definition remove_item (sid mid : string) (item_index : Z) : M item_reply :=
  member <- get_member sid mid ;;
  match member with
  | None => ret (ItemError "Member not found")
  | Some member =>
      if is_ready member
      then ret (ItemError "Cannot remove items after marking ready")
      else if (item_index <? 0) || (item_index >=? Z.of_nat (length (items member)))
      then ret (ItemError "Invalid item index")
      else
        let new_items := list_pop (Z.to_nat item_index) (items member) in
        update_member_items sid mid new_items ;;;
        ret (ItemOk new_items)
  end.

(** [set_ready]: [None] is [{"success": True}], [Some msg] an error. *)
Definition set_ready (sid mid : string) (r : bool) : M (option string) :=
  member <- get_member sid mid ;;
  match member with
  | None => ret (Some "Member not found"%string)
  | Some member =>
      if is_observer member
      then ret (Some "Observers cannot set ready status"%string)
      else set_member_ready sid mid r ;;; ret None
  end.

Record ReadyStatus := mkReadyStatus {
  ready : nat;
  total : nat;
  all_ready : bool
}.

(** The body of the loop of [get_ready_status]; [member] is a row of the
    list read before the loop. *)
Definition ready_step (sid : string) (now : Z) (ready_count : nat) (member : Member) : M nat :=
  if is_ready member then ret (ready_count + 1)%nat
  else if now - last_seen member >? AUTO_READY_TIMEOUT
  then set_member_ready sid (member_id member) true ;;; ret (ready_count + 1)%nat
  else ret ready_count.

Definition get_ready_status (sid : string) : M ReadyStatus :=
  ms <- get_active_members sid ;;
  now <- time_time ;;
  let total_count := length ms in
  ready_count <- foldM (ready_step sid now) ms 0%nat ;;
  ret (mkReadyStatus ready_count total_count
         ((ready_count =? total_count)%nat && (0 <? total_count)%nat)).

Definition check_and_advance_phase (sid : string) : M (option string) :=
  session <- get_session sid ;;
  match session with
  | None => ret None
  | Some session =>
      status <- get_ready_status sid ;;
      if negb (all_ready status) then ret None else
      let current_phase := phase session in
      if String.eqb current_phase PHASE_ADDING then
        reset_all_ready_status sid ;;;
        set_session_phase sid PHASE_ACCEPTING ;;;
        ret (Some PHASE_ACCEPTING)
      else if String.eqb current_phase PHASE_ACCEPTING then
        set_session_phase sid PHASE_RESULT ;;;
        ret (Some PHASE_RESULT)
      else ret None
  end.

Definition fair_random_select (length : Z) : M Z :=
  if length <=? 0 then ret 0 else
  rnd <- random_randint (length * 10000) (length * 90000) ;;
  ret (rnd mod length).

(** The two dictionaries [group_items_by_acceptance] builds:
    [normalized_to_original], a dict in insertion order, and
    [item_acceptances], a [defaultdict(set)]. *)
Record Acceptances := mkAcceptances {
  normalized_to_original : list (pystr * pystr);
  item_acceptances : gmap pystr (gset string)
}.

(** [norm in normalized_to_original]. *)
Definition has_key (norm : pystr) (d : list (pystr * pystr)) : bool :=
  existsb (fun kv => str_eqb (fst kv) norm) d.

(** [item_acceptances[norm].add(member_id)]. *)
Definition add_acceptor (norm : pystr) (mid : string)
    (acc : gmap pystr (gset string)) : gmap pystr (gset string) :=
  <[norm := (acc !!! norm) ∪ {[mid]}]> acc.

(** One of the member's own items. *)
Definition own_item_step (mid : string) (st : Acceptances) (item : pystr) : Acceptances :=
  let norm := normalize_item item in
  let n2o := if negb (has_key norm (normalized_to_original st))
             then normalized_to_original st ++ [(norm, item)]
             else normalized_to_original st in
  mkAcceptances n2o (add_acceptor norm mid (item_acceptances st)).

(** One of the member's explicitly accepted items. *)
Definition accepted_item_step (mid : string) (st : Acceptances) (item : pystr) : Acceptances :=
  let norm := normalize_item item in
  if has_key norm (normalized_to_original st)
  then mkAcceptances (normalized_to_original st)
                     (add_acceptor norm mid (item_acceptances st))
  else st.

Definition member_step (st : Acceptances) (member : Member) : Acceptances :=
  let mid := member_id member in
  let st := fold_left (own_item_step mid) (items member) st in
  fold_left (accepted_item_step mid) (accepted_items member) st.

(** [groups[acceptors].append(original)] on the [defaultdict(list)] keyed
    by frozensets, in insertion order. *)
Fixpoint groups_append (groups : list (gset string * list pystr))
    (acceptors : gset string) (original : pystr) : list (gset string * list pystr) :=
  match groups with
  | [] => [(acceptors, [original])]
  | (k, l) :: rest =>
      if bool_decide (k = acceptors) then (k, l ++ [original]) :: rest
      else (k, l) :: groups_append rest acceptors original
  end.

Definition group_step (excluded : list pystr) (acc : gmap pystr (gset string))
    (groups : list (gset string * list pystr)) (entry : pystr * pystr)
    : list (gset string * list pystr) :=
  let '(norm, original) := entry in
  if existsb (fun ex => items_equal original ex) excluded then groups
  else
    let acceptors := acc !!! norm in
    if bool_decide (acceptors ≠ ∅) then groups_append groups acceptors original
    else groups.

(** The computation of [group_items_by_acceptance] on the rows read. *)
Definition group_items (ms : list Member) (excluded : list pystr)
    : list (gset string * list pystr) :=
  let st := fold_left member_step ms (mkAcceptances [] ∅) in
  fold_left (group_step excluded (item_acceptances st))
            (normalized_to_original st) [].

Definition group_items_by_acceptance (sid : string)
    : M (list (gset string * list pystr)) :=
  ms <- get_active_members sid ;;
  excluded <- get_excluded_items sid ;;
  ret (group_items ms excluded).

(** The draw of [select_item], once [groups] is not empty. *)
Definition pick_item (groups : list (gset string * list pystr)) : M (option pystr) :=
  let group_list := map snd groups in
  group_index <- fair_random_select (Z.of_nat (length group_list)) ;;
  selected_group <- list_getitem group_list group_index ;;
  item_index <- fair_random_select (Z.of_nat (length selected_group)) ;;
  item <- list_getitem selected_group item_index ;;
  ret (Some item).

Definition select_item (sid : string) : M (option pystr) :=
  groups <- group_items_by_acceptance sid ;;
  if is_empty groups then
    clear_excluded_items sid ;;;
    groups <- group_items_by_acceptance sid ;;
    if is_empty groups then ret None else pick_item groups
  else pick_item groups.

Definition reroll (sid : string) : M (option pystr) := select_item sid.

(** The first statement of [roll_next]: exclude the current item. *)
Definition exclude_current (sid : string) (current_item : pystr) : M unit :=
  excluded <- get_excluded_items sid ;;
  if negb (existsb (fun ex => items_equal current_item ex) excluded)
  then set_excluded_items sid (excluded ++ [current_item])
  else ret tt.

Definition roll_next (sid : string) (current_item : pystr) : M (option pystr) :=
  exclude_current sid current_item ;;;
  select_item sid.

Record VoteStatus := mkVoteStatus {
  votes : nat;
  vote_total : nat;
  all_voted : bool
}.

Definition vote_restart (sid mid : string) : M VoteStatus :=
  add_restart_vote sid mid ;;;
  vs <- get_restart_votes sid ;;
  ms <- get_active_members sid ;;
  let all_voted := forallb (fun m => id_in (member_id m) vs) ms in
  ret (mkVoteStatus (length vs) (length ms) all_voted).

Definition start_fresh (sid : string) : M unit :=
  clear_all_items sid ;;;
  reset_all_ready_status sid ;;;
  reset_all_accepted_items sid ;;;
  clear_excluded_items sid ;;;
  clear_restart_votes sid ;;;
  promote_observers sid ;;;
  set_session_phase sid PHASE_ADDING.

(** The closed range [a, b] of [random.randint(a, b)], as a list. *)
Definition randint_range (a b : Z) : list Z :=
  map (fun k => a + Z.of_nat k) (seq 0 (Z.to_nat (b - a + 1))).

(** How many draws of [fair_random_select n] give the index [i]. *)
Definition hits (n i : Z) : Z :=
  Z.of_nat (length (List.filter (fun r => r mod n =? i)
                      (randint_range (n * 10000) (n * 90000)))).

(** The same count over the [len] integers from [lo] on. *)
Definition count_in (n i lo : Z) (len : nat) : nat :=
  length (List.filter (fun r => r mod n =? i)
            (map (fun k => lo + Z.of_nat k) (seq 0 len))).

(** The world after one more draw, and a world with another source of
    randomness. *)
Definition after_draw (w : World) : World :=
  mkWorld (db w) (clock w) (ticks w) (entropy w) (S (draws w)).

Definition with_entropy (e : nat -> Z) (w : World) : World :=
  mkWorld (db w) (clock w) (ticks w) e (draws w).

Definition with_sessions (ss : list Session) (w : World) : World :=
  mkWorld (mkDatabase ss (members (db w))) (clock w) (ticks w) (entropy w) (draws w).

(** What [update_member_items] leaves behind. *)
Definition after_update_items (sid mid : string) (l : list pystr) (w : World) : World :=
  mkWorld
    (mkDatabase
       (update_where (session_is sid) (with_last_activity (clock w (S (ticks w))))
          (sessions (db w)))
       (update_where (member_is sid mid) (with_items l (clock w (ticks w)))
          (members (db w))))
    (clock w) (S (S (ticks w))) (entropy w) (draws w).

Definition demo_session (p : string) : Session :=
  mkSession "S" "A" p 0 0 [] [].

Definition demo_member (mid : string) (own accepted : list pystr) : Member :=
  mkMember "S" mid own false accepted false 0.

Definition demo_world (p : string) (ms : list Member) : World :=
  mkWorld (mkDatabase [demo_session p] ms) (fun t => 1000 + Z.of_nat t) 0
          (fun k => Z.of_nat k) 0.

(** The member is counted ready by [get_ready_status] at time [now]. *)
Definition counted_ready (now : Z) (m : Member) : bool :=
  is_ready m || (now - last_seen m >? AUTO_READY_TIMEOUT).

(** The member is marked ready by [get_ready_status] at time [now]. *)
Definition auto_readied (now : Z) (m : Member) : bool :=
  negb (is_ready m) && (now - last_seen m >? AUTO_READY_TIMEOUT).

(** The rows of session [sid] that are not observers, in row order. *)
Definition active_members (sid : string) (d : Database) : list Member :=
  List.filter (fun m => negb (is_observer m)) (List.filter (in_session sid) (members d)).

(** The session row is the same up to its activity stamp. *)
Definition session_touched (s s' : Session) : Prop :=
  s' = with_last_activity (last_activity s') s.

(** The member row [r'] is [r] after the readiness loop over the list
    [ms]: marked ready if it is a row of one of the members marked, the
    other columns the same up to the [last_seen] stamp. *)
Definition member_after_loop (sid : string) (now : Z) (ms : list Member)
    (r r' : Member) : Prop :=
  r' = with_ready
         (is_ready r
          || existsb (fun m => auto_readied now m && member_is sid (member_id m) r) ms)
         (last_seen r') r.

(** The world [w'] is [w] after the readiness loop over [ms]. *)
Definition after_ready_loop (sid : string) (now : Z) (ms : list Member)
    (w w' : World) : Prop :=
  clock w' = clock w /\ entropy w' = entropy w /\ draws w' = draws w /\
  Forall2 session_touched (sessions (db w)) (sessions (db w')) /\
  Forall2 (member_after_loop sid now ms) (members (db w)) (members (db w')).

Definition demo_member_seen (mid : string) (r : bool) (seen : Z) : Member :=
  mkMember "S" mid [] r [] false seen.

(** A world in phase [p] at time 1000: A was last seen at 0 and is not
    ready, B was last seen at 990 and is ready or not. *)
Definition stale_world (p : string) (b_ready : bool) : World :=
  demo_world p [demo_member_seen "A" false 0; demo_member_seen "B" b_ready 990].

(** What [reset_all_ready_status] followed by [set_session_phase] leave
    behind, and [set_session_phase] alone. *)
Definition after_set_phase (sid p : string) (w : World) : World :=
  mkWorld
    (mkDatabase
       (update_where (session_is sid) (with_phase p (clock w (ticks w)))
          (sessions (db w)))
       (members (db w)))
    (clock w) (S (ticks w)) (entropy w) (draws w).

Definition after_reset_ready (sid : string) (w : World) : World :=
  mkWorld
    (mkDatabase (sessions (db w))
       (update_where (in_session sid) reset_ready (members (db w))))
    (clock w) (ticks w) (entropy w) (draws w).

(** The restart votes stored for the session ([get_restart_votes]). *)
Definition stored_votes (sid : string) (d : Database) : list string :=
  match find (session_is sid) (sessions d) with
  | Some row => restart_votes row
  | None => []
  end.

(** What [add_restart_vote] leaves behind. *)
Definition after_vote (sid mid : string) (w : World) : World :=
  if negb (id_in mid (stored_votes sid (db w)))
  then mkWorld
         (mkDatabase
            (update_where (session_is sid)
               (with_restart_votes (stored_votes sid (db w) ++ [mid]))
               (sessions (db w)))
            (members (db w)))
         (clock w) (ticks w) (entropy w) (draws w)
  else w.

(** A member row and a session row after [start_fresh]. *)
Definition fresh_member (m : Member) : Member :=
  mkMember (member_session m) (member_id m) [] false [] false (last_seen m).

Definition fresh_session (now : Z) (s : Session) : Session :=
  mkSession (session_id s) (creator_id s) PHASE_ADDING (created_at s) now [] [].

(** Three active members A, B and C, no vote yet. *)
Definition three_members : World :=
  demo_world PHASE_RESULT
    [demo_member "A" [py "Tea"] []; demo_member "B" [py "Coffee"] [py "Tea"];
     demo_member "C" [] []].

(** ** The rest of the store (database.py) *)

Definition SESSION_EXPIRY_DAYS : Z := 7.
Definition SESSION_EXPIRY_SECONDS : Z := SESSION_EXPIRY_DAYS * 24 * 60 * 60.

Definition with_last_seen (now : Z) (m : Member) : Member :=
  mkMember (member_session m) (member_id m) (items m) (is_ready m)
           (accepted_items m) (is_observer m) now.

(** [DELETE FROM t WHERE cond]. *)
Definition delete_where {R} (cond : R -> bool) (rows : list R) : list R :=
  List.filter (fun r => negb (cond r)) rows.

Definition session_exists (sid : string) : M bool :=
  d <- get_db ;;
  ret (match find (session_is sid) (sessions d) with
       | Some _ => true
       | None => false
       end).

(** [database.create_session].  The two INSERTs run in one transaction:
    the PRIMARY KEY of [sessions] or the UNIQUE(session_id, member_id) of
    [members] raises [IntegrityError], the transaction is rolled back and the
    result is [False]. *)
Definition db_create_session (sid creator : string) : M bool :=
  now <- time_time ;;
  d <- get_db ;;
  if existsb (session_is sid) (sessions d)
     || existsb (member_is sid creator) (members d)
  then ret false
  else
    put_db (mkDatabase
              (sessions d ++ [mkSession sid creator "adding" now now [] []])
              (members d ++ [mkMember sid creator [] false [] false now])) ;;;
    ret true.

Definition update_session_activity (sid : string) : M unit :=
  now <- time_time ;;
  update_sessions (session_is sid) (with_last_activity now).

Definition get_session_creator (sid : string) : M (option string) :=
  d <- get_db ;;
  ret (match find (session_is sid) (sessions d) with
       | Some row => Some (creator_id row)
       | None => None
       end).

(** [database.add_member]: the INSERT fails on an existing
    (session_id, member_id) pair.  SQLite enforces the FOREIGN KEY clause
    only under [PRAGMA foreign_keys], which is never set: the session row
    is not looked up. *)
Definition add_member (sid mid : string) (observer : bool) : M bool :=
  now <- time_time ;;
  d <- get_db ;;
  if existsb (member_is sid mid) (members d) then ret false
  else
    put_db (mkDatabase
              (update_where (session_is sid) (with_last_activity now) (sessions d))
              (members d ++ [mkMember sid mid [] false [] observer now])) ;;;
    ret true.

Definition update_member_last_seen (sid mid : string) : M unit :=
  now <- time_time ;;
  update_members (member_is sid mid) (with_last_seen now).

Definition remove_member (sid mid : string) : M unit :=
  d <- get_db ;;
  put_db (mkDatabase (sessions d) (delete_where (member_is sid mid) (members d))).

Definition delete_session (sid : string) : M unit :=
  d <- get_db ;;
  put_db (mkDatabase (sessions d) (delete_where (in_session sid) (members d))) ;;;
  d <- get_db ;;
  put_db (mkDatabase (delete_where (session_is sid) (sessions d)) (members d)).

Definition cleanup_expired_sessions : M unit :=
  now <- time_time ;;
  let cutoff := now - SESSION_EXPIRY_SECONDS in
  d <- get_db ;;
  let expired :=
    map session_id (List.filter (fun s => last_activity s <? cutoff) (sessions d)) in
  put_db (mkDatabase (sessions d)
            (delete_where (fun m => id_in (member_session m) expired) (members d))) ;;;
  d <- get_db ;;
  put_db (mkDatabase (delete_where (fun s => last_activity s <? cutoff) (sessions d))
            (members d)).

(** ** The rest of the session logic (session.py) *)

Definition SESSION_CODE_CHARS : string := "23456789ABCDEFGHJKMNPQRSTUVWXYZ".
Definition SESSION_CODE_LENGTH : nat := 6.

(** [random.choices(population, k=k)] joined into a string: [k] picks,
    each at an index of the population read from the source of
    randomness. *)
Fixpoint random_choices (population : string) (k : nat) : M string :=
  match k with
  | O => ret EmptyString
  | S k' =>
      fun w =>
        let i := Z.to_nat (entropy w (draws w) mod Z.of_nat (String.length population)) in
        match String.get i population with
        | Some c =>
            (c' <- random_choices population k' ;; ret (String c c'))
              (after_draw w)
        | None => (Raise IndexError, w)
        end
  end.

(** [generate_session_code]: the [while True] loop, run for at most
    [fuel] candidates; [None] when none of them was free. *)
Fixpoint generate_session_code (fuel : nat) : M (option string) :=
  match fuel with
  | O => ret None
  | S fuel' =>
      code <- random_choices SESSION_CODE_CHARS SESSION_CODE_LENGTH ;;
      taken <- session_exists code ;;
      if negb taken then ret (Some code) else generate_session_code fuel'
  end.

(** [session.create_session], the loop of [generate_session_code] bounded
    by [fuel]; the outer [None] says the loop did not end. *)
Definition create_session (fuel : nat) (creator : string) : M (option (option string)) :=
  code <- generate_session_code fuel ;;
  match code with
  | None => ret None
  | Some session_code =>
      created <- db_create_session session_code creator ;;
      if created then ret (Some (Some session_code)) else ret (Some None)
  end.

(** The replies of [join_session]. *)
Inductive join_reply :=
| JoinError (error : string)
| Joined (rejoined : bool) (observer : bool) (current_phase : string).

(** [join_session]; [upper] is [str.upper]. *)
Definition join_session (upper : string -> string) (session_code mid : string)
    : M join_reply :=
  let session_code := upper session_code in
  session <- get_session session_code ;;
  match session with
  | None => ret (JoinError "Session not found")
  | Some session =>
      existing_member <- get_member session_code mid ;;
      match existing_member with
      | Some existing_member =>
          update_member_last_seen session_code mid ;;;
          ret (Joined true (is_observer existing_member) (phase session))
      | None =>
          let observer := negb (String.eqb (phase session) PHASE_ADDING) in
          added <- add_member session_code mid observer ;;
          if added then ret (Joined false observer (phase session))
          else ret (JoinError "Could not join session")
      end
  end.

(** One step of the display lists: append the item unless an equal one
    is there. *)
Definition add_unique (shown : list pystr) (item : pystr) : list pystr :=
  if negb (existsb (fun existing => items_equal item existing) shown)
  then shown ++ [item] else shown.

Definition get_items_for_acceptance (sid mid : string) : M (list pystr) :=
  ms <- get_active_members sid ;;
  ret (fold_left
         (fun shown member =>
            if negb (String.eqb (member_id member) mid)
            then fold_left add_unique (items member) shown
            else shown)
         ms []).

Definition get_all_items (sid : string) : M (list pystr) :=
  ms <- get_active_members sid ;;
  ret (fold_left (fun shown member => fold_left add_unique (items member) shown)
         ms []).

(** [set_accepted_items]: [None] is [{"success": True}]. *)
Definition set_accepted_items (sid mid : string) (accepted : list pystr)
    : M (option string) :=
  member <- get_member sid mid ;;
  match member with
  | None => ret (Some "Member not found"%string)
  | Some member =>
      if is_observer member
      then ret (Some "Observers cannot accept items"%string)
      else update_member_accepted_items sid mid accepted ;;; ret None
  end.

Definition leave_session (sid mid : string) : M unit := ret tt.

Definition is_creator (sid mid : string) : M bool :=
  creator <- get_session_creator sid ;;
  ret (match creator with
       | Some c => String.eqb c mid
       | None => false
       end).

Definition is_creator_connected (sid : string) : M bool :=
  session <- get_session sid ;;
  match session with
  | None => ret false
  | Some session =>
      member <- get_member sid (creator_id session) ;;
      match member with
      | None => ret false
      | Some member =>
          now <- time_time ;;
          ret (now - last_seen member <? 30)
      end
  end.

Record SessionState := mkSessionState {
  st_session_id : string;
  st_phase : string;
  st_is_creator : bool;
  st_creator_connected : bool;
  st_is_observer : bool;
  st_my_items : list pystr;
  st_my_accepted_items : list pystr;
  st_is_ready : bool;
  st_ready_count : nat;
  st_total_members : nat;
  st_all_ready : bool;
  st_restart_votes : nat;
  st_all_items : list pystr
}.

(** [get_session_state]: [inl msg] is [{"error": msg}]. *)
Definition get_session_state (sid mid : string) : M (string + SessionState) :=
  session <- get_session sid ;;
  match session with
  | None => ret (inl "Session not found"%string)
  | Some session =>
      member <- get_member sid mid ;;
      match member with
      | None => ret (inl "Member not found"%string)
      | Some member =>
          _ms <- get_active_members sid ;;
          ready_status <- get_ready_status sid ;;
          creator <- is_creator sid mid ;;
          connected <- is_creator_connected sid ;;
          vs <- get_restart_votes sid ;;
          all_items <- (if String.eqb (phase session) PHASE_RESULT
                        then get_all_items sid else ret []) ;;
          ret (inr (mkSessionState sid (phase session) creator connected
                      (is_observer member) (items member) (accepted_items member)
                      (is_ready member) (ready ready_status) (total ready_status)
                      (all_ready ready_status) (length vs) all_items))
      end
  end.

(** What a first join and a later join leave behind. *)
Definition after_join (sid mid : string) (observer : bool) (w : World) : World :=
  mkWorld
    (mkDatabase
       (update_where (session_is sid) (with_last_activity (clock w (ticks w)))
          (sessions (db w)))
       (members (db w) ++ [mkMember sid mid [] false [] observer (clock w (ticks w))]))
    (clock w) (S (ticks w)) (entropy w) (draws w).

Definition after_rejoin (sid mid : string) (w : World) : World :=
  mkWorld
    (mkDatabase (sessions (db w))
       (update_where (member_is sid mid) (with_last_seen (clock w (ticks w)))
          (members (db w))))
    (clock w) (S (ticks w)) (entropy w) (draws w).

(** [str.upper] on ASCII strings. *)
Fixpoint ascii_upper (s : string) : string :=
  match s with
  | EmptyString => EmptyString
  | String c s' =>
      String (if ((97 <=? nat_of_ascii c) && (nat_of_ascii c <=? 122))%nat
              then ascii_of_nat (nat_of_ascii c - 32) else c)
             (ascii_upper s')
  end.

(** ** Flags and lists of one member: definitions *)

(** What [set_member_ready] and [update_member_accepted_items] leave
    behind. *)
Definition after_set_ready (sid mid : string) (r : bool) (w : World) : World :=
  mkWorld
    (mkDatabase
       (update_where (session_is sid) (with_last_activity (clock w (S (ticks w))))
          (sessions (db w)))
       (update_where (member_is sid mid) (with_ready r (clock w (ticks w)))
          (members (db w))))
    (clock w) (S (S (ticks w))) (entropy w) (draws w).

Definition after_set_accepted (sid mid : string) (l : list pystr) (w : World) : World :=
  mkWorld
    (mkDatabase
       (update_where (session_is sid) (with_last_activity (clock w (S (ticks w))))
          (sessions (db w)))
       (update_where (member_is sid mid) (with_accepted_items l (clock w (ticks w)))
          (members (db w))))
    (clock w) (S (S (ticks w))) (entropy w) (draws w).

(** ** The display lists: definitions *)

(** [shown] lists the items of [pool] once per normalized key: no two
    entries have the same key, every entry is the first item of the pool
    with its key, every item of the pool has an entry with its key, and
    the entries come in the order of the pool. *)
Record first_seen (pool shown : list pystr) : Prop := mkFirstSeen {
  fs_nodup : List.NoDup (map normalize_item shown);
  fs_first : forall r, In r shown ->
    exists pre post, pool = pre ++ r :: post /\
      forall x, In x pre -> normalize_item x <> normalize_item r;
  fs_cover : forall x, In x pool -> exists r, In r shown /\ items_equal r x = true;
  fs_order : sublist shown pool
}.

(** The items of the members of [ms], in row order. *)
Definition pooled_items (ms : list Member) : list pystr := concat (map items ms).

(** The first occurrences of a pool: an item is kept exactly when no item
    before it in the pool ([earlier] holds the items gone through) is equal
    to it after normalization, and the items kept stay in the order of the
    pool. *)
Fixpoint first_occurrences (earlier pool : list pystr) : list pystr :=
  match pool with
  | [] => []
  | x :: rest =>
      if existsb (fun e => items_equal x e) earlier
      then first_occurrences (earlier ++ [x]) rest
      else x :: first_occurrences (earlier ++ [x]) rest
  end.

(** ** Drawing again: definitions *)

(** [excluded] holds an entry equal to the item after normalization. *)
Definition is_excluded (excluded : list pystr) (item : pystr) : bool :=
  existsb (fun ex => items_equal item ex) excluded.

(** The excluded items stored for the session ([get_excluded_items]). *)
Definition stored_excluded (sid : string) (d : Database) : list pystr :=
  match find (session_is sid) (sessions d) with
  | Some row => excluded_items row
  | None => []
  end.

(** The invariant of the first loop of [group_items_by_acceptance] once
    the items [seen] have been gone through: every entry of the dictionary
    is the normalized key of one of them with that item, every key has an
    acceptor, and every item gone through has its key. *)
Record registered (seen : list pystr) (st : Acceptances) : Prop := mkRegistered {
  reg_original : forall norm original,
    In (norm, original) (normalized_to_original st) ->
    norm = normalize_item original /\ In original seen;
  reg_acceptor : forall norm original,
    In (norm, original) (normalized_to_original st) ->
    item_acceptances st !!! norm <> ∅;
  reg_key : forall item, In item seen ->
    has_key (normalize_item item) (normalized_to_original st) = true
}.

(** What holds of the groups built by the second loop: no group is
    empty, and every item grouped is an original of the dictionary that is
    not excluded. *)
Definition grouped (excluded : list pystr) (d : list (pystr * pystr))
    (groups : list (gset string * list pystr)) : Prop :=
  forall K L, In (K, L) groups ->
    L <> [] /\
    forall o, In o L -> is_excluded excluded o = false /\ exists norm, In (norm, o) d.

(** The world after [clear_excluded_items]. *)
Definition after_clear_excluded (sid : string) (w : World) : World :=
  mkWorld
    (mkDatabase
       (update_where (session_is sid) (with_excluded_items []) (sessions (db w)))
       (members (db w)))
    (clock w) (ticks w) (entropy w) (draws w).

(** ** Session codes: definitions *)

(** The characters of a string. *)
Fixpoint chars_of (s : string) : list ascii :=
  match s with
  | EmptyString => []
  | String c s' => c :: chars_of s'
  end.

(** The world after [k] more draws. *)
Fixpoint after_draws (k : nat) (w : World) : World :=
  match k with
  | O => w
  | S k' => after_draws k' (after_draw w)
  end.

(** The character [random.choices] picks from [SESSION_CODE_CHARS] for
    the raw value [z]. *)
Definition code_char (z : Z) : ascii :=
  match String.get (Z.to_nat (z mod Z.of_nat (String.length SESSION_CODE_CHARS)))
                   SESSION_CODE_CHARS with
  | Some c => c
  | None => "2"%char
  end.

(** The code made of the [k] raw values from position [start] on. *)
Fixpoint code_from (e : nat -> Z) (start k : nat) : string :=
  match k with
  | O => EmptyString
  | S k' => String (code_char (e start)) (code_from e (S start) k')
  end.

(** The [j]-th code the loop of [generate_session_code] draws from the
    world [w], and whether it is the id of a session. *)
Definition candidate (w : World) (j : nat) : string :=
  code_from (entropy w) (draws w + j * SESSION_CODE_LENGTH) SESSION_CODE_LENGTH.

Definition taken (w : World) (code : string) : bool :=
  existsb (session_is code) (sessions (db w)).

(** A store where the code "222222" is in use, and a source of randomness
    that gives "222222" first and "333333" next. *)
Definition collision_world : World :=
  mkWorld (mkDatabase [mkSession "222222" "bob" "adding" 0 0 [] []]
                      [mkMember "222222" "bob" [] false [] false 0])
          (fun t => 1000 + Z.of_nat t) 0
          (fun k => Z.of_nat k / 6) 0.

(** ** The keys of the store: definitions *)

(** The key of a member row. *)
Definition member_key (m : Member) : string * string := (member_session m, member_id m).

(** The constraints of the schema: one row per session id, one row per
    (session id, member id) pair. *)
Definition keys_unique (d : Database) : Prop :=
  List.NoDup (map session_id (sessions d)) /\ List.NoDup (map member_key (members d)).

(** The store [d'] has the keys of [d], row by row. *)
Definition same_keys (d d' : Database) : Prop :=
  map session_id (sessions d') = map session_id (sessions d) /\
  map member_key (members d') = map member_key (members d).

(** ** Rolling on: definitions *)

(** What the first statement of [roll_next] leaves behind. *)
Definition after_exclude (sid : string) (cur : pystr) (w : World) : World :=
  if is_excluded (stored_excluded sid (db w)) cur then w
  else mkWorld
         (mkDatabase
            (update_where (session_is sid)
               (with_excluded_items (stored_excluded sid (db w) ++ [cur]))
               (sessions (db w)))
            (members (db w)))
         (clock w) (ticks w) (entropy w) (draws w).

(** [n] calls of [select_item] one after the other. *)
Fixpoint select_items (sid : string) (n : nat) : M (list (option pystr)) :=
  match n with
  | O => ret []
  | S n' => r <- select_item sid ;; rs <- select_items sid n' ;; ret (r :: rs)
  end.

(** A pool of two items: A proposed "Tea", B proposed "Coffee". *)
Definition tea_and_coffee : World :=
  demo_world PHASE_RESULT
    [demo_member "A" [py "Tea"] [py "Coffee"]; demo_member "B" [py "Coffee"] [py "Tea"]].

(** ** Acceptances and the order of the rows: definitions *)

(** A store without rows. *)
Definition empty_world : World :=
  mkWorld (mkDatabase [] []) (fun t => 1000 + Z.of_nat t) 0 (fun k => Z.of_nat k) 0.

(** A round played through the operations: B creates the session and
    proposes "Coffee", A joins and proposes "Tea", both mark ready, B accepts
    "Tea" and A accepts "Coffee", both mark ready again, and the groups are
    computed in the result phase. *)
Definition mutual_acceptance : M (list (gset string * list pystr)) :=
  db_create_session "K7QM2X" "B" ;;;
  join_session ascii_upper "k7qm2x" "A" ;;;
  add_item "K7QM2X" "B" (py "Coffee") ;;;
  add_item "K7QM2X" "A" (py "Tea") ;;;
  set_ready "K7QM2X" "B" true ;;;
  set_ready "K7QM2X" "A" true ;;;
  check_and_advance_phase "K7QM2X" ;;;
  set_accepted_items "K7QM2X" "B" [py "Tea"] ;;;
  set_accepted_items "K7QM2X" "A" [py "Coffee"] ;;;
  set_ready "K7QM2X" "B" true ;;;
  set_ready "K7QM2X" "A" true ;;;
  check_and_advance_phase "K7QM2X" ;;;
  group_items_by_acceptance "K7QM2X".

(** The rows of the example: A proposed "Tea", B proposed "Coffee" and
    accepts "Tea"; B's row first, and A's row first. *)
Definition b_then_a : list Member :=
  [demo_member "B" [py "Coffee"] [py "Tea"]; demo_member "A" [py "Tea"] []].

Definition a_then_b : list Member :=
  [demo_member "A" [py "Tea"] []; demo_member "B" [py "Coffee"] [py "Tea"]].

(** ** Facts about the normalizer *)

Lemma space_not_alnum c : is_space c = true -> is_ascii_alnum c = false.
Proof.
  unfold is_space, is_ascii_alnum, in_range. intros H.
  repeat (apply orb_true_iff in H; destruct H as [H|H]);
    repeat match goal with
    | H : (_ && _)%bool = true |- _ => apply andb_true_iff in H; destruct H
    | H : (_ <=? _)%N = true |- _ => apply N.leb_le in H
    | H : (_ =? _)%N = true |- _ => apply N.eqb_eq in H
    end;
    repeat (apply orb_false_iff; split); apply andb_false_iff;
    rewrite !N.leb_gt; lia.
Qed.

Lemma normalize_item_filter x :
  normalize_item x = map ascii_lower (List.filter is_ascii_alnum x).
Proof.
  unfold normalize_item, str_lower, re_sub_delete. f_equal.
  induction x as [|c x IH]; simpl; [reflexivity|].
  destruct (is_space c) eqn:Hs; simpl.
  - rewrite (space_not_alnum _ Hs). exact IH.
  - rewrite negb_involutive. destruct (is_ascii_alnum c); simpl; congruence.
Qed.

Lemma ascii_lower_alnum c :
  is_ascii_alnum c = true -> is_lower_or_digit (ascii_lower c) = true.
Proof.
  unfold is_ascii_alnum, is_lower_or_digit, ascii_lower, in_range. intros H.
  destruct ((65 <=? c)%N && (c <=? 90)%N) eqn:Hu.
  - apply andb_true_iff in Hu as [H1 H2]. apply N.leb_le in H1, H2.
    apply orb_true_iff. left. apply andb_true_iff.
    split; apply N.leb_le; lia.
  - rewrite orb_false_r in H. exact H.
Qed.

Lemma lower_or_digit_alnum c :
  is_lower_or_digit c = true -> is_ascii_alnum c = true.
Proof.
  unfold is_ascii_alnum, is_lower_or_digit. intros H.
  apply orb_true_iff in H as [H|H]; rewrite H; simpl;
    [reflexivity | apply orb_true_r].
Qed.

Lemma lower_or_digit_fixed c :
  is_lower_or_digit c = true -> ascii_lower c = c.
Proof.
  unfold is_lower_or_digit, ascii_lower, in_range. intros H.
  destruct ((65 <=? c)%N && (c <=? 90)%N) eqn:Hu; [|reflexivity].
  apply andb_true_iff in Hu as [H1 H2]. apply N.leb_le in H1, H2.
  apply orb_true_iff in H as [H|H]; apply andb_true_iff in H as [H3 H4];
    apply N.leb_le in H3, H4; lia.
Qed.

(** [lower()] is only ever applied to ASCII letters and digits. *)
Lemma lower_input_is_ascii_alnum x :
  Forall (fun c => is_ascii_alnum c = true)
    (re_sub_delete (fun c => negb (is_ascii_alnum c)) (re_sub_delete is_space x)).
Proof.
  apply List.Forall_forall. intros c Hc. unfold re_sub_delete in Hc.
  apply filter_In in Hc as [_ Hc]. rewrite negb_involutive in Hc. exact Hc.
Qed.

Lemma normalize_item_chars x :
  Forall (fun c => is_lower_or_digit c = true) (normalize_item x).
Proof.
  rewrite normalize_item_filter. apply List.Forall_forall. intros c Hc.
  apply in_map_iff in Hc as (d & <- & Hd). apply filter_In in Hd as [_ Hd].
  now apply ascii_lower_alnum.
Qed.

Lemma normalize_item_fixed x :
  Forall (fun c => is_lower_or_digit c = true) x -> normalize_item x = x.
Proof.
  rewrite normalize_item_filter. induction 1 as [|c x Hc _ IH]; simpl; [reflexivity|].
  rewrite (lower_or_digit_alnum _ Hc). simpl.
  rewrite (lower_or_digit_fixed _ Hc). congruence.
Qed.

Lemma normalize_item_idempotent x :
  normalize_item (normalize_item x) = normalize_item x.
Proof. apply normalize_item_fixed, normalize_item_chars. Qed.

Lemma normalize_item_app x y :
  normalize_item (x ++ y) = normalize_item x ++ normalize_item y.
Proof. rewrite !normalize_item_filter, List.filter_app, map_app. reflexivity. Qed.

Lemma str_eqb_eq a b : str_eqb a b = true <-> a = b.
Proof. unfold str_eqb. apply bool_decide_eq_true. Qed.

Lemma str_eqb_refl a : str_eqb a a = true.
Proof. now apply str_eqb_eq. Qed.

Lemma str_eqb_sym a b : str_eqb a b = str_eqb b a.
Proof.
  destruct (str_eqb a b) eqn:E1, (str_eqb b a) eqn:E2; try reflexivity.
  - apply str_eqb_eq in E1. subst. rewrite str_eqb_refl in E2. discriminate.
  - apply str_eqb_eq in E2. subst. rewrite str_eqb_refl in E1. discriminate.
Qed.

(** C8: [normalize_item] is idempotent; it ignores ASCII case, whitespace
    and punctuation (it is a homomorphism for concatenation that deletes
    every non-alphanumeric character and lower-cases the others), with
    normalize("Pizza!") = normalize(" pizza ") = "pizza"; [items_equal] is
    reflexive and symmetric. *)
Theorem normalize_item_idempotent_insensitive :
  (forall x, normalize_item (normalize_item x) = normalize_item x) /\
  (forall x y, normalize_item (x ++ y) = normalize_item x ++ normalize_item y) /\
  (forall c, normalize_item [c] = if is_ascii_alnum c then [ascii_lower c] else []) /\
  (forall c, is_space c && is_ascii_alnum c = false) /\
  (forall c, normalize_item [ascii_lower c] = normalize_item [c]) /\
  normalize_item (py "Pizza!") = py "pizza" /\
  normalize_item (py " pizza ") = py "pizza" /\
  (forall a, items_equal a a = true) /\
  (forall a b, items_equal a b = items_equal b a).
Proof.
  split; [exact normalize_item_idempotent|].
  split; [exact normalize_item_app|].
  assert (H1 : forall c, normalize_item [c]
                         = if is_ascii_alnum c then [ascii_lower c] else []).
  { intros c. rewrite normalize_item_filter. simpl.
    destruct (is_ascii_alnum c); reflexivity. }
  split; [exact H1|].
  split.
  { intros c. destruct (is_space c) eqn:Hc; [|reflexivity].
    apply (space_not_alnum _ Hc). }
  split.
  { intros c. rewrite !H1. destruct (is_ascii_alnum c) eqn:Hc.
    - pose proof (ascii_lower_alnum _ Hc) as Hl.
      rewrite (lower_or_digit_alnum _ Hl), (lower_or_digit_fixed _ Hl). reflexivity.
    - unfold ascii_lower. destruct (in_range 65 90 c) eqn:Hu.
      + unfold is_ascii_alnum in Hc. rewrite Hu in Hc. simpl in Hc.
        rewrite orb_true_r in Hc. discriminate.
      + rewrite Hc. reflexivity. }
  split; [reflexivity|]. split; [reflexivity|].
  split.
  - intros a. unfold items_equal. apply str_eqb_refl.
  - intros a b. unfold items_equal. apply str_eqb_sym.
Qed.

Lemma alnum_is_ascii c : is_ascii_alnum c = true -> is_ascii c = true.
Proof.
  unfold is_ascii_alnum, is_ascii, in_range. intros H. apply N.ltb_lt.
  repeat (apply orb_true_iff in H; destruct H as [H|H]);
    apply andb_true_iff in H as [_ H]; apply N.leb_le in H; lia.
Qed.

Lemma filter_alnum_ascii x :
  List.filter is_ascii_alnum (List.filter is_ascii x) = List.filter is_ascii_alnum x.
Proof.
  induction x as [|c x IH]; [reflexivity|]. cbn [List.filter].
  destruct (is_ascii c) eqn:Ha; cbn [List.filter].
  - now rewrite IH.
  - destruct (is_ascii_alnum c) eqn:Hc; [|exact IH].
    rewrite (alnum_is_ascii _ Hc) in Ha. discriminate.
Qed.

Lemma normalize_item_ascii_part x :
  normalize_item (List.filter is_ascii x) = normalize_item x.
Proof. now rewrite !normalize_item_filter, filter_alnum_ascii. Qed.

Lemma same_key_duplicate a b l :
  normalize_item a = normalize_item b -> In b l -> is_duplicate_item a l = true.
Proof.
  intros E Hin. unfold is_duplicate_item.
  destruct (is_empty (normalize_item a)); [reflexivity|].
  apply existsb_exists. exists b. split; [exact Hin|]. now apply str_eqb_eq.
Qed.

(** C10: the output of [normalize_item] consists of ASCII lowercase
    letters and digits only; every character outside [a-zA-Z0-9], so every
    non-ASCII character, is deleted (nothing is transliterated): two items
    that are the same once their non-ASCII characters are left out have the
    same key, and each is a duplicate of the other, alone or among other
    items.  "Döner" and "Dner" are such a pair, with the key "dner". *)
Theorem normalize_item_ascii_only :
  (forall x, Forall (fun c => is_lower_or_digit c = true) (normalize_item x)) /\
  (forall x, normalize_item x = map ascii_lower (List.filter is_ascii_alnum x)) /\
  normalize_item doener = py "dner" /\
  normalize_item (py "Dner") = py "dner" /\
  is_duplicate_item doener [py "Dner"] = true /\
  is_duplicate_item (py "Dner") [doener] = true /\
  (forall c, is_ascii c = false -> is_ascii_alnum c = false) /\
  (forall x c y, is_ascii_alnum c = false ->
     normalize_item (x ++ c :: y) = normalize_item (x ++ y)) /\
  (forall a b, List.filter is_ascii a = List.filter is_ascii b ->
     normalize_item a = normalize_item b) /\
  (forall a b l, List.filter is_ascii a = List.filter is_ascii b ->
     (In b l -> is_duplicate_item a l = true) /\
     (In a l -> is_duplicate_item b l = true)) /\
  List.filter is_ascii doener = List.filter is_ascii (py "Dner").
Proof.
  split; [exact normalize_item_chars|].
  split; [exact normalize_item_filter|].
  do 4 (split; [reflexivity|]).
  assert (Hkey : forall a b, List.filter is_ascii a = List.filter is_ascii b ->
                             normalize_item a = normalize_item b).
  { intros a b E.
    rewrite <- (normalize_item_ascii_part a), <- (normalize_item_ascii_part b).
    now rewrite E. }
  split.
  { intros c Hc. destruct (is_ascii_alnum c) eqn:E; [|reflexivity].
    rewrite (alnum_is_ascii _ E) in Hc. discriminate. }
  split.
  { intros x c y Hc. rewrite !normalize_item_app.
    change (c :: y) with ([c] ++ y). rewrite normalize_item_app. f_equal.
    rewrite (normalize_item_filter [c]). cbn [List.filter]. now rewrite Hc. }
  split; [exact Hkey|]. split; [|reflexivity].
  intros a b l E. split; intros Hin.
  - exact (same_key_duplicate a b l (Hkey a b E) Hin).
  - exact (same_key_duplicate b a l (eq_sym (Hkey a b E)) Hin).
Qed.

(** ** Counting the draws of [fair_random_select] *)

Lemma count_seq_eq (j s len : nat) :
  length (List.filter (fun k => (k =? j)%nat) (seq s len))
  = if decide (s <= j < s + len)%nat then 1%nat else 0%nat.
Proof.
  revert s. induction len as [|len IH]; intros s.
  - simpl. case_decide; [lia|reflexivity].
  - cbn [seq List.filter]. destruct (Nat.eqb_spec s j) as [->|Hne].
    + cbn [length]. rewrite IH. repeat case_decide; lia.
    + rewrite IH. repeat case_decide; lia.
Qed.

Lemma range_shift lo s len :
  map (fun k => lo + Z.of_nat k) (seq s len)
  = map (fun k => lo + Z.of_nat s + Z.of_nat k) (seq 0 len).
Proof.
  revert lo s. induction len as [|len IH]; intros lo s; [reflexivity|].
  cbn [seq map]. f_equal; [lia|].
  rewrite (IH lo (S s)), (IH (lo + Z.of_nat s) 1%nat).
  apply map_ext. intros k. lia.
Qed.

Lemma count_in_app n i lo len1 len2 :
  count_in n i lo (len1 + len2)
  = (count_in n i lo len1 + count_in n i (lo + Z.of_nat len1) len2)%nat.
Proof.
  unfold count_in.
  rewrite seq_app, map_app, List.filter_app, length_app, Nat.add_0_l.
  now rewrite (range_shift lo len1 len2).
Qed.

Lemma count_in_block n i q :
  0 <= i < n -> count_in n i (q * n) (Z.to_nat n) = 1%nat.
Proof.
  intros Hi. unfold count_in.
  assert (E : forall l, Forall (fun k => (k < Z.to_nat n)%nat) l ->
    length (List.filter (fun r => r mod n =? i) (map (fun k => q * n + Z.of_nat k) l))
    = length (List.filter (fun k => (k =? Z.to_nat i)%nat) l)).
  { induction 1 as [|k l Hk _ IH]; [reflexivity|]. cbn [map List.filter].
    replace ((q * n + Z.of_nat k) mod n) with (Z.of_nat k).
    - destruct (Z.eqb_spec (Z.of_nat k) i), (Nat.eqb_spec k (Z.to_nat i));
        cbn [length]; try lia; congruence.
    - rewrite Z.add_comm, Z_mod_plus_full. symmetry. apply Z.mod_small. lia. }
  rewrite E.
  - rewrite count_seq_eq. case_decide; [reflexivity|lia].
  - apply List.Forall_forall. intros k Hk. apply in_seq in Hk. lia.
Qed.

Lemma count_in_blocks n i q (m : nat) :
  0 <= i < n -> count_in n i (q * n) (m * Z.to_nat n) = m.
Proof.
  intros Hi. induction m as [|m IH]; [reflexivity|].
  replace (S m * Z.to_nat n)%nat with (m * Z.to_nat n + Z.to_nat n)%nat by lia.
  rewrite count_in_app, IH.
  replace (q * n + Z.of_nat (m * Z.to_nat n)) with ((q + Z.of_nat m) * n) by nia.
  rewrite count_in_block by exact Hi. lia.
Qed.

Lemma hits_count n i :
  0 <= i < n -> hits n i = if i =? 0 then 80001 else 80000.
Proof.
  intros Hi. unfold hits, randint_range.
  replace (n * 90000 - n * 10000 + 1) with (80000 * n + 1) by lia.
  rewrite Z2Nat.inj_add, Z2Nat.inj_mul by lia.
  remember (Z.to_nat 80000) as m eqn:Hm.
  change (length _) with (count_in n i (n * 10000) (m * Z.to_nat n + Z.to_nat 1)).
  rewrite count_in_app, (Z.mul_comm n 10000), count_in_blocks by exact Hi.
  replace (10000 * n + Z.of_nat (m * Z.to_nat n)) with (90000 * n).
  2:{ rewrite Nat2Z.inj_mul, Hm, !Z2Nat.id by lia. lia. }
  unfold count_in. change (Z.to_nat 1) with 1%nat. cbn [seq map List.filter].
  replace ((90000 * n + Z.of_nat 0) mod n) with 0.
  - rewrite Nat2Z.inj_add, Hm, Z2Nat.id by lia.
    destruct (Z.eqb_spec 0 i), (Z.eqb_spec i 0); cbn [length]; lia.
  - rewrite Z.add_0_r. symmetry. apply Z_mod_mult.
Qed.

Lemma fair_random_select_draw n w :
  1 <= n ->
  let r := n * 10000 + entropy w (draws w) mod (n * 90000 - n * 10000 + 1) in
  n * 10000 <= r <= n * 90000 /\
  fair_random_select n w = (Ok (r mod n), after_draw w).
Proof.
  intros Hn r. split.
  - subst r. pose proof (Z.mod_pos_bound (entropy w (draws w))
                           (n * 90000 - n * 10000 + 1)). lia.
  - unfold fair_random_select, bind, random_randint, ret.
    destruct (Z.leb_spec n 0); [lia|].
    destruct (Z.ltb_spec (n * 90000) (n * 10000)); [lia|]. reflexivity.
Qed.

(** C3, as the code has it: for n <= 0 the result is 0 and nothing is
    drawn; for n >= 1 the result is r mod n, in [0, n), for the integer r
    drawn from the closed range [10000 n, 90000 n], every r of the range
    being a possible draw; of the 80000 n + 1 values of the range exactly
    80001 give the index 0 and exactly 80000 give each other index. *)
Theorem fair_random_select_distribution :
  (forall n w, n <= 0 -> fair_random_select n w = (Ok 0, w)) /\
  (forall n w, 1 <= n ->
     exists r, n * 10000 <= r <= n * 90000 /\ 0 <= r mod n < n /\
               fair_random_select n w = (Ok (r mod n), after_draw w)) /\
  (forall n r w, 1 <= n -> n * 10000 <= r <= n * 90000 ->
     fair_random_select n (with_entropy (fun _ => r - n * 10000) w)
     = (Ok (r mod n), after_draw (with_entropy (fun _ => r - n * 10000) w))) /\
  (forall n i, 0 <= i < n ->
     hits n i = if i =? 0 then 80001 else 80000).
Proof.
  split; [|split; [|split]].
  - intros n w Hn. unfold fair_random_select.
    destruct (Z.leb_spec n 0); [reflexivity|lia].
  - intros n w Hn. destruct (fair_random_select_draw n w Hn) as [Hr Hs].
    eexists. split; [exact Hr|]. split; [|exact Hs].
    apply Z.mod_pos_bound. lia.
  - intros n r w Hn Hr.
    destruct (fair_random_select_draw n (with_entropy (fun _ => r - n * 10000) w) Hn)
      as [_ Hs].
    rewrite Hs. cbn [entropy with_entropy].
    rewrite (Z.mod_small (r - n * 10000)) by lia.
    replace (n * 10000 + (r - n * 10000)) with r by lia. reflexivity.
  - exact hits_count.
Qed.

Lemma fair_random_select_distribution_witness :
  hits 3 0 = 80001 /\ hits 3 2 = 80000 /\
  (exists r, 3 * 10000 <= r <= 3 * 90000 /\ 0 <= r mod 3 < 3 /\
     fair_random_select 3 (mkWorld (mkDatabase [] []) (fun _ => 0) 0 (fun _ => 7) 0)
     = (Ok (r mod 3),
        after_draw (mkWorld (mkDatabase [] []) (fun _ => 0) 0 (fun _ => 7) 0))).
Proof.
  destruct fair_random_select_distribution as (_ & H2 & _ & H4).
  split; [apply (H4 3 0); lia|]. split; [apply (H4 3 2); lia|].
  apply (H2 3); lia.
Defined.

(** The indices 0 and 1 of a two-element list are not hit equally often:
    the draws of [fair_random_select] are not uniform. *)
Lemma fair_random_select_not_uniform :
  ~ (forall n, 1 <= n -> forall i j, 0 <= i < n -> 0 <= j < n -> hits n i = hits n j).
Proof.
  intros H. specialize (H 2 ltac:(lia) 0 1 ltac:(lia) ltac:(lia)).
  rewrite !hits_count in H by lia. discriminate H.
Qed.

(*---- facts ----*)

Lemma str_lstrip_split s :
  exists pre, s = pre ++ str_lstrip s /\ Forall (fun c => is_space c = true) pre.
Proof.
  induction s as [|c s (pre & E & F)]; [exists []; split; [reflexivity|constructor]|].
  cbn [str_lstrip]. destruct (is_space c) eqn:Hc.
  - exists (c :: pre). split; [cbn; congruence|now constructor].
  - exists []. split; [reflexivity|constructor].
Qed.

Lemma str_rstrip_split s :
  exists post, s = str_rstrip s ++ post /\ Forall (fun c => is_space c = true) post.
Proof.
  unfold str_rstrip. destruct (str_lstrip_split (rev s)) as (pre & E & F).
  exists (rev pre). split.
  - rewrite <- rev_app_distr, <- E, rev_involutive. reflexivity.
  - apply List.Forall_forall. intros c Hc. apply in_rev in Hc.
    revert c Hc. now apply List.Forall_forall.
Qed.

Lemma str_strip_split s :
  exists pre post, s = pre ++ str_strip s ++ post /\
    Forall (fun c => is_space c = true) pre /\
    Forall (fun c => is_space c = true) post.
Proof.
  destruct (str_lstrip_split s) as (pre & E1 & F1).
  destruct (str_rstrip_split (str_lstrip s)) as (post & E2 & F2).
  exists pre, post. unfold str_strip. rewrite <- E2. auto.
Qed.

Lemma normalize_item_spaces s :
  Forall (fun c => is_space c = true) s -> normalize_item s = [].
Proof.
  rewrite normalize_item_filter. induction 1 as [|c s Hc _ IH]; [reflexivity|].
  cbn [List.filter]. now rewrite (space_not_alnum _ Hc).
Qed.

Lemma normalize_item_strip s : normalize_item (str_strip s) = normalize_item s.
Proof.
  destruct (str_strip_split s) as (pre & post & E & F1 & F2).
  rewrite E at 2. rewrite !normalize_item_app.
  rewrite (normalize_item_spaces _ F1), (normalize_item_spaces _ F2).
  now rewrite app_nil_r.
Qed.

Lemma is_empty_nil {A} (l : list A) : is_empty l = true <-> l = [].
Proof. destruct l; split; intros H; try reflexivity; discriminate. Qed.

Lemma existsb_dup item l :
  existsb (fun it => str_eqb (normalize_item it) (normalize_item item)) l = true
  <-> exists it, In it l /\ normalize_item it = normalize_item item.
Proof.
  rewrite existsb_exists. split; intros (it & Hin & H); exists it; split; auto;
    now apply str_eqb_eq.
Qed.

Lemma update_member_items_run sid mid l w :
  update_member_items sid mid l w = (Ok tt, after_update_items sid mid l w).
Proof. reflexivity. Qed.

Lemma add_item_run sid mid item w :
  add_item sid mid item w =
  if is_empty (str_strip item) then (Ok (ItemError "Item cannot be empty"), w)
  else match find (member_is sid mid) (members (db w)) with
       | None => (Ok (ItemError "Member not found"), w)
       | Some m =>
           if is_observer m then (Ok (ItemError "Observers cannot add items"), w)
           else if is_ready m
           then (Ok (ItemError "Cannot add items after marking ready"), w)
           else if is_duplicate_item (str_strip item) (items m)
           then (Ok (ItemError "Duplicate item"), w)
           else (Ok (ItemOk (items m ++ [str_strip item])),
                 after_update_items sid mid (items m ++ [str_strip item]) w)
       end.
Proof.
  unfold add_item. destruct (is_empty (str_strip item)); [reflexivity|].
  unfold bind at 1. unfold get_member, bind, get_db, ret.
  destruct (find (member_is sid mid) (members (db w))) as [m|]; [|reflexivity].
  destruct (is_observer m); [reflexivity|].
  destruct (is_ready m); [reflexivity|].
  destruct (is_duplicate_item (str_strip item) (items m)); reflexivity.
Qed.

Lemma remove_item_run sid mid i w :
  remove_item sid mid i w =
  match find (member_is sid mid) (members (db w)) with
  | None => (Ok (ItemError "Member not found"), w)
  | Some m =>
      if is_ready m
      then (Ok (ItemError "Cannot remove items after marking ready"), w)
      else if (i <? 0) || (i >=? Z.of_nat (length (items m)))
      then (Ok (ItemError "Invalid item index"), w)
      else (Ok (ItemOk (list_pop (Z.to_nat i) (items m))),
            after_update_items sid mid (list_pop (Z.to_nat i) (items m)) w)
  end.
Proof.
  unfold remove_item. unfold bind at 1. unfold get_member, bind, get_db, ret.
  destruct (find (member_is sid mid) (members (db w))) as [m|]; [|reflexivity].
  destruct (is_ready m); [reflexivity|].
  destruct ((i <? 0) || (i >=? Z.of_nat (length (items m)))); reflexivity.
Qed.

Lemma is_duplicate_item_strip item l :
  is_duplicate_item (str_strip item) l = true <->
  normalize_item item = [] \/
  exists it, In it l /\ normalize_item it = normalize_item item.
Proof.
  unfold is_duplicate_item. rewrite normalize_item_strip.
  destruct (is_empty (normalize_item item)) eqn:E.
  - apply is_empty_nil in E. tauto.
  - rewrite existsb_dup. split; [tauto|]. intros [H|H]; [|exact H].
    apply is_empty_nil in H. congruence.
Qed.

Lemma find_update_where {R} (cond : R -> bool) (upd : R -> R) rows :
  (forall r, cond (upd r) = cond r) ->
  find cond (update_where cond upd rows) = option_map upd (find cond rows).
Proof.
  intros Hc. induction rows as [|r rows IH]; [reflexivity|].
  cbn [update_where map find]. destruct (cond r) eqn:E.
  - rewrite Hc, E. reflexivity.
  - rewrite E. exact IH.
Qed.

Lemma nth_error_update_where {R} (cond : R -> bool) (upd : R -> R) rows k :
  nth_error (update_where cond upd rows) k
  = option_map (fun r => if cond r then upd r else r) (nth_error rows k).
Proof. unfold update_where. apply nth_error_map. Qed.

Lemma phases_update_activity (cond : Session -> bool) now ss :
  map phase (update_where cond (with_last_activity now) ss) = map phase ss.
Proof.
  unfold update_where. rewrite map_map. apply map_ext. intros x.
  destruct (cond x); reflexivity.
Qed.

Lemma add_item_members sid mid item w ss :
  fst (add_item sid mid item (with_sessions ss w)) = fst (add_item sid mid item w) /\
  members (db (snd (add_item sid mid item (with_sessions ss w))))
  = members (db (snd (add_item sid mid item w))) /\
  map phase (sessions (db (snd (add_item sid mid item (with_sessions ss w)))))
  = map phase ss.
Proof.
  rewrite !add_item_run. cbn [with_sessions db members clock ticks].
  destruct (is_empty (str_strip item)); [now repeat split|].
  destruct (find (member_is sid mid) (members (db w))) as [m|]; [|now repeat split].
  destruct (is_observer m); [now repeat split|].
  destruct (is_ready m); [now repeat split|].
  destruct (is_duplicate_item (str_strip item) (items m)); [now repeat split|].
  split; [reflexivity|]. split; [reflexivity|].
  cbn [snd after_update_items db sessions]. apply phases_update_activity.
Qed.

Lemma remove_item_members sid mid i w ss :
  fst (remove_item sid mid i (with_sessions ss w)) = fst (remove_item sid mid i w) /\
  members (db (snd (remove_item sid mid i (with_sessions ss w))))
  = members (db (snd (remove_item sid mid i w))) /\
  map phase (sessions (db (snd (remove_item sid mid i (with_sessions ss w)))))
  = map phase ss.
Proof.
  rewrite !remove_item_run. cbn [with_sessions db members clock ticks].
  destruct (find (member_is sid mid) (members (db w))) as [m|]; [|now repeat split].
  destruct (is_ready m); [now repeat split|].
  destruct ((i <? 0) || (i >=? Z.of_nat (length (items m)))); [now repeat split|].
  split; [reflexivity|]. split; [reflexivity|].
  cbn [snd after_update_items db sessions]. apply phases_update_activity.
Qed.

(** C9: [add_item] always returns, and it fails exactly when the member
    row is missing, the member is an observer, the member is marked ready,
    or the normalized key of the item is empty or equal to the normalized key
    of one of the member's items; a failure leaves the store as it was, a
    success stores the list with the item appended in the member's row.  The
    sessions table, hence the phase, is never consulted by [add_item] nor by
    [remove_item]: whatever the table holds, the reply and the member rows
    written are the same and no phase changes, so a non-ready active member
    with a new key adds the item and finds it stored, in the ACCEPTING and
    RESULT phases as in any other. *)
Theorem add_item_failure_conditions :
  (forall sid mid item w,
     exists reply w', add_item sid mid item w = (Ok reply, w') /\
     ((exists e, reply = ItemError e) <->
      match find (member_is sid mid) (members (db w)) with
      | None => True
      | Some m =>
          is_observer m = true \/ is_ready m = true \/
          normalize_item item = [] \/
          exists it, In it (items m) /\ normalize_item it = normalize_item item
      end \/ normalize_item item = []) /\
     ((exists e, reply = ItemError e) -> w' = w) /\
     (forall l, reply = ItemOk l ->
        exists m,
          find (member_is sid mid) (members (db w)) = Some m /\
          l = items m ++ [str_strip item] /\
          find (member_is sid mid) (members (db w'))
          = Some (with_items l (clock w (ticks w)) m))) /\
  (forall sid mid item w m ss,
     find (member_is sid mid) (members (db w)) = Some m ->
     is_observer m = false -> is_ready m = false ->
     normalize_item item <> [] ->
     (forall it, In it (items m) -> normalize_item it <> normalize_item item) ->
     exists w',
       add_item sid mid item (with_sessions ss w)
       = (Ok (ItemOk (items m ++ [str_strip item])), w') /\
       find (member_is sid mid) (members (db w'))
       = Some (with_items (items m ++ [str_strip item]) (clock w (ticks w)) m) /\
       map phase (sessions (db w')) = map phase ss) /\
  (forall sid mid item w ss,
     fst (add_item sid mid item (with_sessions ss w))
     = fst (add_item sid mid item w) /\
     members (db (snd (add_item sid mid item (with_sessions ss w))))
     = members (db (snd (add_item sid mid item w))) /\
     map phase (sessions (db (snd (add_item sid mid item (with_sessions ss w)))))
     = map phase ss) /\
  (forall sid mid i w ss,
     fst (remove_item sid mid i (with_sessions ss w))
     = fst (remove_item sid mid i w) /\
     members (db (snd (remove_item sid mid i (with_sessions ss w))))
     = members (db (snd (remove_item sid mid i w))) /\
     map phase (sessions (db (snd (remove_item sid mid i (with_sessions ss w)))))
     = map phase ss) /\
  (forall p, exists w',
     add_item "S" "A" (py "Tea") (demo_world p [demo_member "A" [] []])
     = (Ok (ItemOk [py "Tea"]), w') /\
     option_map items (find (member_is "S" "A") (members (db w'))) = Some [py "Tea"] /\
     map phase (sessions (db w')) = [p]) /\
  (forall p, exists w',
     remove_item "S" "A" 0 (demo_world p [demo_member "A" [py "Tea"] []])
     = (Ok (ItemOk []), w') /\
     option_map items (find (member_is "S" "A") (members (db w'))) = Some [] /\
     map phase (sessions (db w')) = [p]).
Proof.
  split; [|split; [|split; [|split; [|split]]]].
  - intros sid mid item w. rewrite add_item_run.
    destruct (is_empty (str_strip item)) eqn:E.
    { eexists. eexists. split; [reflexivity|]. split; [|split; [reflexivity|]].
      - split; [|eauto]. intros _. right. apply is_empty_nil in E.
        rewrite <- normalize_item_strip, E. reflexivity.
      - intros l [=]. }
    destruct (find (member_is sid mid) (members (db w))) as [m|] eqn:Hf.
    2:{ eexists. eexists. split; [reflexivity|].
        split; [split; eauto|]. split; [reflexivity|]. intros l [=]. }
    destruct (is_observer m) eqn:Ho.
    { eexists. eexists. split; [reflexivity|].
      split; [split; eauto|]. split; [reflexivity|]. intros l [=]. }
    destruct (is_ready m) eqn:Hr.
    { eexists. eexists. split; [reflexivity|].
      split; [split; eauto|]. split; [reflexivity|]. intros l [=]. }
    destruct (is_duplicate_item (str_strip item) (items m)) eqn:Hd.
    { eexists. eexists. split; [reflexivity|]. split; [|split; [reflexivity|]].
      - split; [|eauto]. intros _. apply is_duplicate_item_strip in Hd. tauto.
      - intros l [=]. }
    eexists. eexists. split; [reflexivity|]. split; [|split].
    + split.
      * intros (e & He). discriminate He.
      * intros H. assert (Hd' : is_duplicate_item (str_strip item) (items m) = true).
        { apply is_duplicate_item_strip.
          destruct H as [[H|[H|H]]|H]; try discriminate; tauto. }
        congruence.
    + intros (e & He). discriminate He.
    + intros l [= <-]. exists m. split; [reflexivity|]. split; [reflexivity|].
      cbn [after_update_items db members].
      rewrite find_update_where by reflexivity. now rewrite Hf.
  - intros sid mid item w m ss Hf Ho Hr Hne Hnew. rewrite add_item_run.
    cbn [with_sessions db members clock ticks]. rewrite Hf, Ho, Hr.
    assert (Hd : is_duplicate_item (str_strip item) (items m) = false).
    { destruct (is_duplicate_item (str_strip item) (items m)) eqn:Hd; [|reflexivity].
      apply is_duplicate_item_strip in Hd as [Hd|(it & Hin & Hd)];
        [contradiction|destruct (Hnew it Hin Hd)]. }
    rewrite Hd.
    destruct (is_empty (str_strip item)) eqn:E.
    { apply is_empty_nil in E. rewrite <- normalize_item_strip, E in Hne.
      now destruct Hne. }
    eexists. split; [reflexivity|].
    cbn [after_update_items with_sessions db members sessions clock ticks]. split.
    + rewrite find_update_where by reflexivity. now rewrite Hf.
    + apply phases_update_activity.
  - exact add_item_members.
  - exact remove_item_members.
  - intros p.
    exists (after_update_items "S" "A" [py "Tea"] (demo_world p [demo_member "A" [] []])).
    repeat split.
  - intros p.
    exists (after_update_items "S" "A" [] (demo_world p [demo_member "A" [py "Tea"] []])).
    repeat split.
Qed.

(** C7, as the code has it: a successful [add_item] appends the text
    with its leading and trailing whitespace stripped (casing and the
    characters in between are kept as passed in) to the member's list, the
    stored list is that list, and the rows of the other members are the
    same as before. *)
Theorem add_item_appends_stripped sid mid text w l w' :
  add_item sid mid text w = (Ok (ItemOk l), w') ->
  exists m,
    find (member_is sid mid) (members (db w)) = Some m /\
    l = items m ++ [str_strip text] /\
    (exists pre post, text = pre ++ str_strip text ++ post /\
       Forall (fun c => is_space c = true) pre /\
       Forall (fun c => is_space c = true) post) /\
    (exists m', fst (get_member sid mid w') = Ok (Some m') /\ items m' = l) /\
    (forall k r, nth_error (members (db w)) k = Some r ->
       nth_error (members (db w')) k
       = Some (if member_is sid mid r then with_items l (clock w (ticks w)) r else r)).
Proof.
  rewrite add_item_run. intros H.
  destruct (is_empty (str_strip text)); [discriminate|].
  destruct (find (member_is sid mid) (members (db w))) as [m|] eqn:Hf; [|discriminate].
  destruct (is_observer m); [discriminate|].
  destruct (is_ready m); [discriminate|].
  destruct (is_duplicate_item (str_strip text) (items m)); [discriminate|].
  injection H as <- <-. exists m. split; [reflexivity|]. split; [reflexivity|].
  split; [apply str_strip_split|]. split.
  - unfold get_member, bind, get_db, ret. cbn [fst after_update_items db members].
    rewrite find_update_where by reflexivity. rewrite Hf. cbn [option_map].
    eexists. split; reflexivity.
  - intros k r Hk. cbn [after_update_items db members].
    rewrite nth_error_update_where, Hk. reflexivity.
Qed.

Lemma add_item_appends_stripped_witness :
  exists m,
    find (member_is "S" "A") (members (db (demo_world "adding" [demo_member "A" [py "Tea"] []])))
    = Some m /\ [py "Tea"; py "Pizza"] = items m ++ [str_strip (py " Pizza ")].
Proof.
  destruct (add_item_appends_stripped "S" "A" (py " Pizza ")
              (demo_world "adding" [demo_member "A" [py "Tea"] []])
              [py "Tea"; py "Pizza"]
              (after_update_items "S" "A" [py "Tea"; py "Pizza"]
                 (demo_world "adding" [demo_member "A" [py "Tea"] []]))
              eq_refl) as (m & H1 & H2 & _).
  exists m. split; assumption.
Defined.

(** The text " Pizza " is stored as "Pizza": not verbatim. *)
Lemma add_item_not_verbatim :
  ~ (forall sid mid text w l w',
       add_item sid mid text w = (Ok (ItemOk l), w') ->
       forall m, find (member_is sid mid) (members (db w)) = Some m ->
                 l = items m ++ [text]).
Proof.
  intros H.
  specialize (H "S"%string "A"%string (py " Pizza ")
                (demo_world "adding" [demo_member "A" [] []]) _ _ eq_refl _ eq_refl).
  discriminate H.
Qed.

Lemma Forall2_update_where {R} (P : R -> R -> Prop) (cond : R -> bool) (upd : R -> R)
    (rows : list R) :
  (forall r, P r (if cond r then upd r else r)) ->
  Forall2 P rows (update_where cond upd rows).
Proof.
  intros H. induction rows as [|r rows IH]; cbn; constructor; auto.
Qed.

Lemma Forall2_compose {R} (P Q T : R -> R -> Prop) l1 l2 l3 :
  (forall x y z, P x y -> Q y z -> T x z) ->
  Forall2 P l1 l2 -> Forall2 Q l2 l3 -> Forall2 T l1 l3.
Proof.
  intros H H12. revert l3. induction H12 as [|x y l1 l2 Hxy _ IH]; intros l3 H23;
    inversion H23; subst; constructor; eauto.
Qed.

Lemma Forall2_same {R} (P : R -> R -> Prop) (l : list R) :
  (forall x, P x x) -> Forall2 P l l.
Proof. intros H. induction l; constructor; auto. Qed.

Lemma set_member_ready_run sid mid r w :
  set_member_ready sid mid r w =
  (Ok tt,
   mkWorld
     (mkDatabase
        (update_where (session_is sid) (with_last_activity (clock w (S (ticks w))))
           (sessions (db w)))
        (update_where (member_is sid mid) (with_ready r (clock w (ticks w)))
           (members (db w))))
     (clock w) (S (S (ticks w))) (entropy w) (draws w)).
Proof. reflexivity. Qed.

Lemma session_touched_refl s : session_touched s s.
Proof. destruct s; reflexivity. Qed.

Lemma session_touched_trans s1 s2 s3 :
  session_touched s1 s2 -> session_touched s2 s3 -> session_touched s1 s3.
Proof. unfold session_touched. intros -> ->. destruct s1; reflexivity. Qed.

Lemma ready_loop sid now ms : forall w rc,
  exists w',
    foldM (ready_step sid now) ms rc w
    = (Ok (rc + length (List.filter (counted_ready now) ms))%nat, w') /\
    after_ready_loop sid now ms w w'.
Proof.
  induction ms as [|m ms IH]; intros w rc.
  - exists w. split; [cbn; unfold ret; f_equal; f_equal; lia|].
    repeat split; try reflexivity.
    + apply Forall2_same, session_touched_refl.
    + apply Forall2_same. intros r. unfold member_after_loop. cbn.
      rewrite orb_false_r. destruct r; reflexivity.
  - cbn [foldM]. unfold bind at 1. unfold ready_step at 1.
    cbn [List.filter]. unfold counted_ready at 1.
    destruct (is_ready m) eqn:Hr.
    + cbn [orb]. unfold ret at 1.
      destruct (IH w (rc + 1)%nat) as (w' & E & Hc & He & Hd & Hs & Hm).
      exists w'. split; [rewrite E; cbn [length]; do 2 f_equal; lia|].
      repeat split; try assumption.
      eapply Forall2_impl; [exact Hm|]. intros r r' H. unfold member_after_loop in *.
      cbn [existsb]. unfold auto_readied at 1. rewrite Hr. exact H.
    + cbn [orb]. destruct (now - last_seen m >? AUTO_READY_TIMEOUT) eqn:Ht.
      * unfold bind at 1. rewrite set_member_ready_run. unfold ret at 1.
        match goal with |- context [foldM _ ms _ ?w1] =>
          destruct (IH w1 (rc + 1)%nat) as (w' & E & Hc & He & Hd & Hs & Hm) end.
        cbn [db clock entropy draws sessions members] in *.
        exists w'. split; [rewrite E; cbn [length]; do 2 f_equal; lia|].
        repeat split; try assumption.
        -- eapply (Forall2_compose session_touched session_touched);
             [|apply Forall2_update_where|exact Hs].
           ++ intros x y z Hxy Hyz. exact (session_touched_trans _ _ _ Hxy Hyz).
           ++ intros s. destruct (session_is sid s); [|apply session_touched_refl].
              destruct s; reflexivity.
        -- eapply (Forall2_compose
                     (fun x y => y = if member_is sid (member_id m) x
                                     then with_ready true (clock w (ticks w)) x else x));
             [|apply Forall2_update_where|exact Hm]; [|intros r; reflexivity].
           intros x y z -> Hyz. unfold member_after_loop in *.
           cbn [existsb]. unfold auto_readied at 1. rewrite Hr, Ht. cbn [negb andb].
           rewrite Hyz at 1.
           destruct (member_is sid (member_id m) x) eqn:Hk.
           ++ cbn [orb]. rewrite orb_true_r. destruct x; reflexivity.
           ++ cbn [orb]. reflexivity.
      * unfold ret at 1.
        destruct (IH w rc) as (w' & E & Hc & He & Hd & Hs & Hm).
        exists w'. split; [rewrite E; do 2 f_equal|].
        repeat split; try assumption.
        eapply Forall2_impl; [exact Hm|]. intros r r' H. unfold member_after_loop in *.
        cbn [existsb]. unfold auto_readied at 1. rewrite Hr, Ht. exact H.
Qed.

Lemma get_ready_status_run sid w :
  exists w',
    get_ready_status sid w
    = (Ok (mkReadyStatus
             (length (List.filter (counted_ready (clock w (ticks w)))
                        (active_members sid (db w))))
             (length (active_members sid (db w)))
             ((length (List.filter (counted_ready (clock w (ticks w)))
                         (active_members sid (db w)))
               =? length (active_members sid (db w)))%nat
              && (0 <? length (active_members sid (db w)))%nat)), w') /\
    after_ready_loop sid (clock w (ticks w)) (active_members sid (db w)) w w'.
Proof.
  unfold get_ready_status, get_active_members, get_all_members.
  unfold bind at 1 2 3. unfold get_db at 1. unfold ret at 1 2. unfold bind at 1.
  unfold time_time at 1. unfold bind at 1.
  fold (active_members sid (db w)).
  match goal with |- context [foldM _ _ _ ?w1] =>
    destruct (ready_loop sid (clock w (ticks w)) (active_members sid (db w)) w1 0%nat)
      as (w' & E & H) end.
  exists w'. rewrite E. split; [reflexivity|exact H].
Qed.

Lemma find_Forall2 {R} (P : R -> R -> Prop) (cond : R -> bool) l l' r :
  (forall x y, P x y -> cond y = cond x) ->
  Forall2 P l l' -> find cond l = Some r ->
  exists r', find cond l' = Some r' /\ P r r'.
Proof.
  intros Hc H. induction H as [|x y l l' Hxy _ IH]; [discriminate|].
  cbn [find]. rewrite (Hc _ _ Hxy). destruct (cond x).
  - intros [= <-]. eauto.
  - exact IH.
Qed.

Lemma filter_Forall2 {R} (P : R -> R -> Prop) (cond : R -> bool) l l' :
  (forall x y, P x y -> cond y = cond x) ->
  Forall2 P l l' -> Forall2 P (List.filter cond l) (List.filter cond l').
Proof.
  intros Hc H. induction H as [|x y l l' Hxy _ IH]; [constructor|].
  cbn [List.filter]. rewrite (Hc _ _ Hxy). destruct (cond x); [constructor|]; auto.
Qed.

Lemma Forall2_In_r {R} (P : R -> R -> Prop) l l' y :
  Forall2 P l l' -> In y l' -> exists x, In x l /\ P x y.
Proof.
  induction 1 as [|x y' l l' Hxy _ IH]; [intros []|].
  intros [->|Hin]; [exists x; split; [now left|exact Hxy]|].
  destruct (IH Hin) as (x' & Hx & Hp). exists x'. split; [now right|exact Hp].
Qed.

Lemma filter_length_all {R} (f : R -> bool) (l : list R) :
  length (List.filter f l) = length l -> forall x, In x l -> f x = true.
Proof.
  induction l as [|a l IH]; [intros _ x []|].
  cbn [List.filter]. pose proof (List.filter_length_le f l) as Hle.
  destruct (f a) eqn:E; cbn [length]; intros Hlen x [->|Hin];
    try lia; try assumption.
  apply IH; [lia|exact Hin].
Qed.

Lemma active_members_In sid d m :
  In m (active_members sid d) <->
  In m (members d) /\ in_session sid m = true /\ is_observer m = false.
Proof.
  unfold active_members. rewrite !filter_In, negb_true_iff. tauto.
Qed.

Lemma member_after_loop_keys sid now ms r r' :
  member_after_loop sid now ms r r' ->
  member_session r' = member_session r /\ member_id r' = member_id r /\
  is_observer r' = is_observer r /\ items r' = items r /\
  accepted_items r' = accepted_items r.
Proof. intros ->. repeat split. Qed.

Lemma after_ready_loop_active sid now ms w w' :
  after_ready_loop sid now ms w w' ->
  Forall2 (member_after_loop sid now ms)
          (active_members sid (db w)) (active_members sid (db w')).
Proof.
  intros (_ & _ & _ & _ & Hm). unfold active_members.
  apply filter_Forall2.
  { intros x y H. apply member_after_loop_keys in H as (_ & _ & -> & _). reflexivity. }
  apply filter_Forall2; [|exact Hm].
  intros x y H. apply member_after_loop_keys in H as (E & _). unfold in_session.
  now rewrite E.
Qed.

Lemma auto_readied_stored sid now w w' m :
  after_ready_loop sid now (active_members sid (db w)) w w' ->
  In m (active_members sid (db w)) ->
  auto_readied now m = true ->
  exists m', fst (get_member sid (member_id m) w') = Ok (Some m') /\
             is_ready m' = true.
Proof.
  intros (_ & _ & _ & _ & Hm) Hin Hauto.
  pose proof Hin as Hin'. apply active_members_In in Hin' as (Hmem & Hs & _).
  assert (Hkey : member_is sid (member_id m) m = true).
  { unfold member_is. unfold in_session in Hs. now rewrite Hs, String.eqb_refl. }
  destruct (find (member_is sid (member_id m)) (members (db w))) as [r0|] eqn:Hf.
  2:{ pose proof (find_none _ _ Hf _ Hmem). congruence. }
  destruct (find_Forall2 (member_after_loop sid now (active_members sid (db w)))
              (member_is sid (member_id m)) (members (db w)) (members (db w')) r0)
    as (r' & Hf' & Hr');
    [intros x y ->; reflexivity|exact Hm|exact Hf|].
  exists r'. split.
  - unfold get_member, bind, get_db, ret. cbn [fst]. now rewrite Hf'.
  - rewrite Hr'. cbn [is_ready with_ready]. apply orb_true_iff. right.
    apply existsb_exists. exists m. split; [exact Hin|].
    apply find_some in Hf as [_ Hf]. now rewrite Hauto.
Qed.

(** C4: over the active members, a member marked ready is counted; a
    member not marked ready and last seen more than 2 minutes before the
    reading of the clock is counted and is marked ready in the store;
    [all_ready] holds exactly when the two counts agree and there is at
    least one active member. *)
Theorem get_ready_status_auto_ready sid w :
  exists st w',
    get_ready_status sid w = (Ok st, w') /\
    AUTO_READY_TIMEOUT = 120 /\
    total st = length (active_members sid (db w)) /\
    ready st = length (List.filter (counted_ready (clock w (ticks w)))
                         (active_members sid (db w))) /\
    (forall m, counted_ready (clock w (ticks w)) m
               = is_ready m || (clock w (ticks w) - last_seen m >? 120)) /\
    (forall m, In m (active_members sid (db w)) -> is_ready m = false ->
               clock w (ticks w) - last_seen m > 120 ->
               exists m', fst (get_member sid (member_id m) w') = Ok (Some m') /\
                          is_ready m' = true) /\
    after_ready_loop sid (clock w (ticks w)) (active_members sid (db w)) w w' /\
    (all_ready st = true <-> ready st = total st /\ (0 < total st)%nat) /\
    (active_members sid (db w) = [] -> all_ready st = false).
Proof.
  destruct (get_ready_status_run sid w) as (w' & E & H).
  eexists. exists w'. split; [exact E|]. cbn [total ready all_ready].
  split; [reflexivity|]. split; [reflexivity|]. split; [reflexivity|].
  split; [reflexivity|]. split.
  { intros m Hin Hr Ht. apply (auto_readied_stored sid _ w w' m H Hin).
    unfold auto_readied. rewrite Hr. cbn [negb andb]. apply Z.gtb_lt.
    change AUTO_READY_TIMEOUT with 120. lia. }
  split; [exact H|]. split.
  - rewrite andb_true_iff, Nat.eqb_eq, Nat.ltb_lt. reflexivity.
  - intros ->. reflexivity.
Qed.

Lemma get_ready_status_auto_ready_witness :
  exists m', fst (get_member "S" "A" (snd (get_ready_status "S" (stale_world "adding" false))))
             = Ok (Some m') /\ is_ready m' = true.
Proof.
  destruct (get_ready_status_auto_ready "S" (stale_world "adding" false))
    as (st & w' & E & _ & _ & _ & _ & H & _).
  rewrite E. cbn [snd].
  apply (H (demo_member_seen "A" false 0)).
  - left. reflexivity.
  - reflexivity.
  - vm_compute. reflexivity.
Defined.

Lemma check_and_advance_phase_run sid w st w1 :
  get_ready_status sid w = (Ok st, w1) ->
  check_and_advance_phase sid w =
  match find (session_is sid) (sessions (db w)) with
  | None => (Ok None, w)
  | Some s =>
      if negb (all_ready st) then (Ok None, w1)
      else if String.eqb (phase s) PHASE_ADDING
      then (Ok (Some PHASE_ACCEPTING),
            after_set_phase sid PHASE_ACCEPTING (after_reset_ready sid w1))
      else if String.eqb (phase s) PHASE_ACCEPTING
      then (Ok (Some PHASE_RESULT), after_set_phase sid PHASE_RESULT w1)
      else (Ok None, w1)
  end.
Proof.
  intros E. unfold check_and_advance_phase. unfold bind at 1.
  unfold get_session, bind at 1, get_db, ret at 1.
  destruct (find (session_is sid) (sessions (db w))) as [s|]; [|reflexivity].
  unfold bind at 1. rewrite E.
  destruct (all_ready st); cbn [negb]; [|reflexivity].
  destruct (String.eqb (phase s) PHASE_ADDING); [reflexivity|].
  destruct (String.eqb (phase s) PHASE_ACCEPTING); reflexivity.
Qed.

Lemma after_ready_loop_phases sid now ms w w' :
  after_ready_loop sid now ms w w' ->
  map phase (sessions (db w')) = map phase (sessions (db w)) /\
  map session_id (sessions (db w')) = map session_id (sessions (db w)).
Proof.
  intros (_ & _ & _ & Hs & _).
  induction Hs as [|s s' l l' H _ [IH1 IH2]]; [split; reflexivity|].
  cbn [map]. rewrite IH1, IH2, H. split; reflexivity.
Qed.

Lemma find_set_phase sid p t ss s :
  find (session_is sid) ss = Some s ->
  find (session_is sid) (update_where (session_is sid) (with_phase p t) ss)
  = Some (with_phase p t s).
Proof.
  intros H. rewrite find_update_where by reflexivity. now rewrite H.
Qed.

Lemma all_ready_active_ready sid w st w1 :
  get_ready_status sid w = (Ok st, w1) -> all_ready st = true ->
  forall m, In m (active_members sid (db w1)) -> is_ready m = true.
Proof.
  intros E Hall m Hin.
  destruct (get_ready_status_run sid w) as (w' & E' & H).
  rewrite E in E'. injection E' as -> <-. cbn [all_ready] in Hall.
  apply andb_true_iff in Hall as [Hall _]. apply Nat.eqb_eq in Hall.
  pose proof (filter_length_all _ _ Hall) as Hc.
  destruct (Forall2_In_r _ _ _ _ (after_ready_loop_active _ _ _ _ _ H) Hin)
    as (r & Hr & Hrel).
  rewrite Hrel. cbn [is_ready with_ready].
  specialize (Hc r Hr). unfold counted_ready in Hc.
  destruct (is_ready r) eqn:Hrr; [reflexivity|]. cbn [orb] in *.
  apply existsb_exists. exists r. split; [exact Hr|].
  unfold auto_readied. rewrite Hrr, Hc. cbn [negb andb].
  apply active_members_In in Hr as (_ & Hs & _). unfold member_is.
  unfold in_session in Hs. now rewrite Hs, String.eqb_refl.
Qed.

Lemma reset_ready_session sid ms m :
  In m (update_where (in_session sid) reset_ready ms) ->
  in_session sid m = true -> is_ready m = false.
Proof.
  unfold update_where. intros Hin Hs. apply in_map_iff in Hin as (r & <- & _).
  destruct (in_session sid r) eqn:E; [reflexivity|congruence].
Qed.

(** C2, as the code has it: without a session row nothing happens; when
    readiness is not all-ready the result is none and the store is the one
    [get_ready_status] left (its auto-ready marks and time stamps apart, the
    same store: in particular every phase is the same); when all are ready
    in phase ADDING every member row of the session has its ready flag
    reset and the phase becomes ACCEPTING; in phase ACCEPTING the phase
    becomes RESULT, no flag is reset and every active member is ready; in
    phase RESULT the result is none and no phase changes. *)
Theorem check_and_advance_phase_transitions sid w :
  exists st w1,
    get_ready_status sid w = (Ok st, w1) /\
    after_ready_loop sid (clock w (ticks w)) (active_members sid (db w)) w w1 /\
    map phase (sessions (db w1)) = map phase (sessions (db w)) /\
    match find (session_is sid) (sessions (db w)) with
    | None => check_and_advance_phase sid w = (Ok None, w)
    | Some s =>
        if negb (all_ready st)
        then check_and_advance_phase sid w = (Ok None, w1)
        else if String.eqb (phase s) PHASE_ADDING then
          let w2 := after_set_phase sid PHASE_ACCEPTING (after_reset_ready sid w1) in
          check_and_advance_phase sid w = (Ok (Some PHASE_ACCEPTING), w2) /\
          (forall m, In m (active_members sid (db w2)) -> is_ready m = false) /\
          (exists s', fst (get_session sid w2) = Ok (Some s') /\
                      phase s' = PHASE_ACCEPTING)
        else if String.eqb (phase s) PHASE_ACCEPTING then
          let w2 := after_set_phase sid PHASE_RESULT w1 in
          check_and_advance_phase sid w = (Ok (Some PHASE_RESULT), w2) /\
          members (db w2) = members (db w1) /\
          (forall m, In m (active_members sid (db w2)) -> is_ready m = true) /\
          (exists s', fst (get_session sid w2) = Ok (Some s') /\
                      phase s' = PHASE_RESULT)
        else check_and_advance_phase sid w = (Ok None, w1)
    end /\
    (forall s, find (session_is sid) (sessions (db w)) = Some s ->
               phase s = PHASE_RESULT ->
               check_and_advance_phase sid w = (Ok None, w1)).
Proof.
  destruct (get_ready_status_run sid w) as (w1 & E & H).
  eexists. exists w1. split; [exact E|]. split; [exact H|].
  destruct (after_ready_loop_phases _ _ _ _ _ H) as [Hp Hid].
  split; [exact Hp|]. rewrite (check_and_advance_phase_run _ _ _ _ E).
  split.
  - destruct (find (session_is sid) (sessions (db w))) as [s|] eqn:Hf; [|reflexivity].
    match goal with |- context [negb (all_ready ?st)] =>
      destruct (all_ready st) eqn:Hall end; cbn [negb]; [|reflexivity].
    assert (Hf1 : exists s1, find (session_is sid) (sessions (db w1)) = Some s1).
    { destruct H as (_ & _ & _ & Hs & _).
      destruct (find_Forall2 session_touched (session_is sid)
                  (sessions (db w)) (sessions (db w1)) s) as (s1 & Hs1 & _);
        [intros x y ->; reflexivity|exact Hs|exact Hf|eauto]. }
    destruct Hf1 as (s1 & Hf1).
    destruct (String.eqb (phase s) PHASE_ADDING).
    { split; [reflexivity|]. split.
      - intros m Hin. apply active_members_In in Hin as (Hin & Hs & _).
        cbn [after_set_phase after_reset_ready db members] in Hin.
        exact (reset_ready_session _ _ _ Hin Hs).
      - exists (with_phase PHASE_ACCEPTING (clock w1 (ticks w1)) s1).
        split; [|reflexivity].
        unfold get_session, bind, get_db, ret.
        cbn [fst after_set_phase after_reset_ready db sessions clock ticks].
        now rewrite (find_set_phase _ _ _ _ _ Hf1). }
    destruct (String.eqb (phase s) PHASE_ACCEPTING); [|reflexivity].
    split; [reflexivity|]. split; [reflexivity|]. split.
    + intros m Hin. apply (all_ready_active_ready sid w _ w1 E Hall m).
      exact Hin.
    + exists (with_phase PHASE_RESULT (clock w1 (ticks w1)) s1).
      split; [|reflexivity].
      unfold get_session, bind, get_db, ret.
      cbn [fst after_set_phase db sessions clock ticks].
      now rewrite (find_set_phase _ _ _ _ _ Hf1).
  - intros s Hf Hph. rewrite Hf, Hph. cbn [String.eqb PHASE_RESULT PHASE_ADDING].
    destruct (negb _); reflexivity.
Qed.

Lemma check_and_advance_phase_transitions_witness :
  exists w1,
    check_and_advance_phase "S" (stale_world PHASE_RESULT true) = (Ok None, w1) /\
    map phase (sessions (db w1)) = [PHASE_RESULT].
Proof.
  destruct (check_and_advance_phase_transitions "S" (stale_world PHASE_RESULT true))
    as (st & w1 & _ & _ & Hp & _ & H).
  exists w1. split; [|exact Hp].
  apply (H (demo_session PHASE_RESULT)); reflexivity.
Defined.

(** With A unready and long unseen and B unready and present, readiness
    is not all-ready and the result is none, yet the session is not as it
    was: A is now marked ready and the activity stamp of the session row has
    moved. *)
Lemma check_and_advance_phase_mutates :
  exists st w1 w',
    get_ready_status "S" (stale_world PHASE_ADDING false) = (Ok st, w1) /\
    all_ready st = false /\
    check_and_advance_phase "S" (stale_world PHASE_ADDING false) = (Ok None, w') /\
    option_map last_activity
      (find (session_is "S") (sessions (db (stale_world PHASE_ADDING false))))
    = Some 0 /\
    option_map last_activity (find (session_is "S") (sessions (db w'))) = Some 1002 /\
    option_map is_ready
      (find (member_is "S" "A") (members (db (stale_world PHASE_ADDING false))))
    = Some false /\
    option_map is_ready (find (member_is "S" "A") (members (db w'))) = Some true /\
    db w' <> db (stale_world PHASE_ADDING false).
Proof.
  do 3 eexists. split; [vm_compute; reflexivity|]. split; [reflexivity|].
  split; [vm_compute; reflexivity|]. split; [reflexivity|].
  split; [vm_compute; reflexivity|].
  split; [reflexivity|]. split; [vm_compute; reflexivity|].
  intros H. apply (f_equal members) in H. vm_compute in H. discriminate H.
Qed.

Lemma add_restart_vote_run sid mid w :
  add_restart_vote sid mid w = (Ok tt, after_vote sid mid w).
Proof.
  cbv beta iota delta [add_restart_vote bind get_restart_votes get_db ret].
  unfold after_vote, stored_votes.
  destruct (negb (id_in mid _)); reflexivity.
Qed.

Lemma vote_restart_run sid mid w :
  vote_restart sid mid w =
  (Ok (mkVoteStatus
         (length (stored_votes sid (db (after_vote sid mid w))))
         (length (active_members sid (db w)))
         (forallb (fun m => id_in (member_id m)
                              (stored_votes sid (db (after_vote sid mid w))))
            (active_members sid (db w)))),
   after_vote sid mid w).
Proof.
  unfold vote_restart. unfold bind at 1. rewrite add_restart_vote_run.
  cbv beta iota delta [bind get_restart_votes get_active_members get_all_members
                         get_db ret].
  fold (stored_votes sid (db (after_vote sid mid w))).
  assert (E : members (db (after_vote sid mid w)) = members (db w)).
  { unfold after_vote. destruct (negb _); reflexivity. }
  unfold active_members. rewrite E. reflexivity.
Qed.

Lemma update_where_none {R} (cond : R -> bool) (upd : R -> R) rows :
  find cond rows = None -> update_where cond upd rows = rows.
Proof.
  induction rows as [|r rows IH]; [reflexivity|]. cbn [find update_where map].
  destruct (cond r); [discriminate|]. intros H. f_equal. exact (IH H).
Qed.

Lemma id_in_app x l1 l2 : id_in x (l1 ++ l2) = id_in x l1 || id_in x l2.
Proof. unfold id_in. apply existsb_app. Qed.

Lemma id_in_In x l : id_in x l = true <-> In x l.
Proof.
  unfold id_in. rewrite existsb_exists. split.
  - intros (y & Hy & E). apply String.eqb_eq in E. now subst.
  - intros H. exists x. split; [exact H|apply String.eqb_refl].
Qed.

Lemma stored_votes_after_vote sid mid w :
  stored_votes sid (db (after_vote sid mid w)) =
  match find (session_is sid) (sessions (db w)) with
  | Some _ => if id_in mid (stored_votes sid (db w)) then stored_votes sid (db w)
              else stored_votes sid (db w) ++ [mid]
  | None => []
  end.
Proof.
  unfold after_vote.
  destruct (id_in mid (stored_votes sid (db w))) eqn:Hin; cbn [negb].
  - unfold stored_votes in *.
    destruct (find (session_is sid) (sessions (db w))); [reflexivity|discriminate].
  - unfold stored_votes at 1. cbn [db sessions].
    rewrite find_update_where by reflexivity.
    destruct (find (session_is sid) (sessions (db w))); reflexivity.
Qed.

Lemma after_vote_idempotent sid mid w :
  after_vote sid mid (after_vote sid mid w) = after_vote sid mid w.
Proof.
  unfold after_vote at 1. rewrite stored_votes_after_vote.
  destruct (find (session_is sid) (sessions (db w))) as [s|] eqn:Hf.
  - destruct (id_in mid (stored_votes sid (db w))) eqn:Hin.
    + rewrite Hin. reflexivity.
    + rewrite id_in_app. cbn [id_in existsb]. rewrite String.eqb_refl.
      rewrite orb_true_r. reflexivity.
  - cbn [id_in existsb negb app].
    unfold after_vote. unfold stored_votes. rewrite Hf. cbn [id_in existsb negb app].
    cbn [db sessions members clock ticks entropy draws].
    rewrite !(update_where_none _ _ _ Hf). reflexivity.
Qed.

Lemma update_where_map {R} (cond : R -> bool) (upd : R -> R) rows :
  update_where cond upd rows = map (fun r => if cond r then upd r else r) rows.
Proof. reflexivity. Qed.

Lemma start_fresh_run sid w :
  start_fresh sid w =
  (Ok tt,
   mkWorld
     (mkDatabase
        (map (fun s => if session_is sid s then fresh_session (clock w (ticks w)) s
                       else s) (sessions (db w)))
        (map (fun m => if in_session sid m then fresh_member m else m)
           (members (db w))))
     (clock w) (S (ticks w)) (entropy w) (draws w)).
Proof.
  cbv beta iota delta [start_fresh bind clear_all_items reset_all_ready_status
    reset_all_accepted_items clear_excluded_items set_excluded_items
    clear_restart_votes promote_observers set_session_phase update_members
    update_sessions get_db put_db time_time ret db sessions members clock ticks
    entropy draws].
  rewrite !update_where_map, !map_map. do 3 f_equal.
  - apply map_ext. intros s. unfold session_is.
    destruct s as [i c p ca la ex rv]. cbn.
    destruct (String.eqb i sid) eqn:E; cbn; rewrite ?E; cbn; rewrite ?E; reflexivity.
  - apply map_ext. intros m. unfold in_session.
    destruct m as [s i it r a o l]. cbn.
    destruct (String.eqb s sid) eqn:E; cbn; rewrite ?E; cbn; rewrite ?E; cbn;
      rewrite ?E; reflexivity.
Qed.

Lemma forallb_member_ids vs ms :
  forallb (fun m => id_in (member_id m) vs) ms
  = forallb (fun i => id_in i vs) (map member_id ms).
Proof. induction ms as [|m ms IH]; [reflexivity|]. cbn. now rewrite IH. Qed.

(** C6: [vote_restart] returns, the second vote of a member changes
    neither the store nor the reply, [all_voted] holds exactly when the id of
    every active member is among the stored votes (so with three active
    members and no vote yet, the first two votes give false and the third
    true); [start_fresh] clears the items, the ready flag, the accepted
    items and the observer flag of every member of the session, clears the
    excluded items and the restart votes and sets the phase to ADDING. *)
Theorem restart_unanimity_and_reset :
  (forall sid mid w,
     exists r w1, vote_restart sid mid w = (Ok r, w1) /\
       vote_restart sid mid w1 = (Ok r, w1) /\
       members (db w1) = members (db w) /\
       (all_voted r = true <->
        forall m, In m (active_members sid (db w)) ->
                  In (member_id m) (stored_votes sid (db w1))) /\
       vote_total r = length (active_members sid (db w)) /\
       votes r = length (stored_votes sid (db w1)) /\
       stored_votes sid (db w1) =
       match find (session_is sid) (sessions (db w)) with
       | Some _ => if id_in mid (stored_votes sid (db w))
                   then stored_votes sid (db w)
                   else stored_votes sid (db w) ++ [mid]
       | None => []
       end) /\
  (forall sid a b c w s,
     find (session_is sid) (sessions (db w)) = Some s ->
     restart_votes s = [] ->
     map member_id (active_members sid (db w)) = [a; b; c] ->
     NoDup [a; b; c] ->
     exists r1 w1 r2 w2 r3 w3,
       vote_restart sid a w = (Ok r1, w1) /\ all_voted r1 = false /\
       vote_restart sid b w1 = (Ok r2, w2) /\ all_voted r2 = false /\
       vote_restart sid c w2 = (Ok r3, w3) /\ all_voted r3 = true) /\
  (forall sid w,
     exists w', start_fresh sid w = (Ok tt, w') /\
       members (db w')
       = map (fun m => if in_session sid m then fresh_member m else m)
           (members (db w)) /\
       sessions (db w')
       = map (fun s => if session_is sid s
                       then fresh_session (clock w (ticks w)) s else s)
           (sessions (db w)) /\
       (forall m, In m (members (db w')) -> in_session sid m = true ->
          items m = [] /\ is_ready m = false /\ accepted_items m = [] /\
          is_observer m = false) /\
       (forall s, In s (sessions (db w')) -> session_is sid s = true ->
          excluded_items s = [] /\ restart_votes s = [] /\
          phase s = PHASE_ADDING)).
Proof.
  split; [|split].
  - intros sid mid w. rewrite vote_restart_run. eexists. eexists.
    split; [reflexivity|]. cbn [all_voted vote_total votes].
    assert (E : members (db (after_vote sid mid w)) = members (db w)).
    { unfold after_vote. destruct (negb _); reflexivity. }
    split.
    { rewrite vote_restart_run, after_vote_idempotent.
      unfold active_members. rewrite E. reflexivity. }
    split; [exact E|]. split.
    { rewrite forallb_forall. split; intros H m Hm; apply id_in_In, H, Hm. }
    split; [reflexivity|]. split; [reflexivity|].
    apply stored_votes_after_vote.
  - intros sid a b c w s Hf Hv Hms Hnd.
    assert (Hab : String.eqb b a = false /\ String.eqb c a = false /\
                  String.eqb c b = false).
    { inversion Hnd as [|? ? Ha Hnd']. inversion Hnd' as [|? ? Hb _]. subst.
      repeat split; apply String.eqb_neq; intros ->; set_solver. }
    destruct Hab as (Hba & Hca & Hcb).
    assert (Hall : forall w' vs,
      members (db w') = members (db w) ->
      forallb (fun m => id_in (member_id m) vs) (active_members sid (db w'))
      = id_in a vs && (id_in b vs && (id_in c vs && true))).
    { intros w' vs E. unfold active_members in *. rewrite E.
      rewrite forallb_member_ids, Hms. reflexivity. }
    assert (Hfind : forall w' mid, is_Some (find (session_is sid) (sessions (db w'))) ->
      is_Some (find (session_is sid) (sessions (db (after_vote sid mid w'))))).
    { intros w' mid [s' Hs']. unfold after_vote. destruct (negb _); [|eauto].
      cbn [db sessions]. rewrite find_update_where by reflexivity.
      rewrite Hs'. eauto. }
    assert (Hmem : forall w' mid,
      members (db (after_vote sid mid w')) = members (db w')).
    { intros w' mid. unfold after_vote. destruct (negb _); reflexivity. }
    assert (V0 : stored_votes sid (db w) = []).
    { unfold stored_votes. now rewrite Hf. }
    assert (V1 : stored_votes sid (db (after_vote sid a w)) = [a]).
    { rewrite stored_votes_after_vote, Hf, V0. reflexivity. }
    pose proof (Hfind w a (ex_intro _ s Hf)) as [s1 Hf1].
    assert (V2 : stored_votes sid (db (after_vote sid b (after_vote sid a w)))
                 = [a; b]).
    { rewrite stored_votes_after_vote, Hf1, V1. cbn [id_in existsb].
      rewrite Hba. reflexivity. }
    pose proof (Hfind _ b (ex_intro _ s1 Hf1)) as [s2 Hf2].
    assert (V3 : stored_votes sid
                   (db (after_vote sid c (after_vote sid b (after_vote sid a w))))
                 = [a; b; c]).
    { rewrite stored_votes_after_vote, Hf2, V2. cbn [id_in existsb].
      rewrite Hca, Hcb. reflexivity. }
    do 6 eexists.
    rewrite !vote_restart_run. cbn [all_voted].
    rewrite V1, V2, V3.
    rewrite (Hall w), (Hall (after_vote sid a w)),
      (Hall (after_vote sid b (after_vote sid a w)))
      by (rewrite ?Hmem; reflexivity).
    cbn [id_in existsb]. rewrite !String.eqb_refl, Hba, Hca, Hcb.
    repeat split; reflexivity.
  - intros sid w. rewrite start_fresh_run. eexists. split; [reflexivity|].
    cbn [db members sessions]. split; [reflexivity|]. split; [reflexivity|]. split.
    + intros m Hin Hs. apply in_map_iff in Hin as (r & <- & _).
      destruct (in_session sid r) eqn:E; [repeat split|congruence].
    + intros s Hin Hs. apply in_map_iff in Hin as (r & <- & _).
      destruct (session_is sid r) eqn:E; [repeat split|congruence].
Qed.

Lemma restart_unanimity_and_reset_witness :
  exists r1 w1 r2 w2 r3 w3,
    vote_restart "S" "A" three_members = (Ok r1, w1) /\ all_voted r1 = false /\
    vote_restart "S" "B" w1 = (Ok r2, w2) /\ all_voted r2 = false /\
    vote_restart "S" "C" w2 = (Ok r3, w3) /\ all_voted r3 = true.
Proof.
  destruct restart_unanimity_and_reset as (_ & H & _).
  apply (H "S" "A" "B" "C" three_members (demo_session PHASE_RESULT))%string.
  - reflexivity.
  - reflexivity.
  - reflexivity.
  - apply (bool_decide_unpack (NoDup ["A"; "B"; "C"]%string)). vm_compute. exact I.
Defined.

(** ** Creating and joining sessions *)

Lemma existsb_find {R} (cond : R -> bool) (l : list R) :
  existsb cond l = match find cond l with Some _ => true | None => false end.
Proof.
  induction l as [|x l IH]; [reflexivity|]. cbn. destruct (cond x); [reflexivity|exact IH].
Qed.

Lemma find_snoc {R} (cond : R -> bool) (l : list R) (x : R) :
  find cond (l ++ [x])
  = match find cond l with
    | Some y => Some y
    | None => if cond x then Some x else None
    end.
Proof.
  induction l as [|y l IH]; [reflexivity|]. cbn. destruct (cond y); [reflexivity|exact IH].
Qed.

Lemma find_update_other {R} (cond cond' : R -> bool) (upd : R -> R) rows :
  (forall r, cond (upd r) = cond r) ->
  (forall r, cond' r = true -> cond r = true -> False) ->
  find cond (update_where cond' upd rows) = find cond rows.
Proof.
  intros Hk Hd. induction rows as [|r rows IH]; [reflexivity|].
  cbn [update_where map find]. destruct (cond' r) eqn:E'.
  - rewrite Hk. destruct (cond r) eqn:E; [destruct (Hd r E' E)|exact IH].
  - destruct (cond r); [reflexivity|exact IH].
Qed.

Lemma db_create_session_run sid creator w :
  db_create_session sid creator w =
  if existsb (session_is sid) (sessions (db w))
     || existsb (member_is sid creator) (members (db w))
  then (Ok false, mkWorld (db w) (clock w) (S (ticks w)) (entropy w) (draws w))
  else (Ok true,
        mkWorld
          (mkDatabase
             (sessions (db w)
              ++ [mkSession sid creator "adding" (clock w (ticks w))
                    (clock w (ticks w)) [] []])
             (members (db w)
              ++ [mkMember sid creator [] false [] false (clock w (ticks w))]))
          (clock w) (S (ticks w)) (entropy w) (draws w)).
Proof.
  cbv beta iota delta [db_create_session bind time_time get_db ret db].
  destruct (existsb _ _ || existsb _ _); reflexivity.
Qed.

Lemma session_is_refl sid c p ca la ex rv :
  session_is sid (mkSession sid c p ca la ex rv) = true.
Proof. unfold session_is. cbn. apply String.eqb_refl. Qed.

Lemma member_is_refl sid mid it r a o l :
  member_is sid mid (mkMember sid mid it r a o l) = true.
Proof. unfold member_is. cbn. now rewrite !String.eqb_refl. Qed.

Lemma db_create_session_cases sid creator w :
  exists created w',
    db_create_session sid creator w = (Ok created, w') /\
    (created = true <->
     find (session_is sid) (sessions (db w)) = None /\
     find (member_is sid creator) (members (db w)) = None) /\
    (created = false -> db w' = db w) /\
    (created = true ->
     let now := clock w (ticks w) in
     sessions (db w') = sessions (db w) ++ [mkSession sid creator "adding" now now [] []] /\
     members (db w') = members (db w) ++ [mkMember sid creator [] false [] false now] /\
     fst (get_session sid w') = Ok (Some (mkSession sid creator "adding" now now [] [])) /\
     fst (get_member sid creator w')
     = Ok (Some (mkMember sid creator [] false [] false now)) /\
     fst (is_creator sid creator w') = Ok true).
Proof.
  rewrite db_create_session_run, !existsb_find.
  destruct (find (session_is sid) (sessions (db w))) as [s|] eqn:Hs;
    [|destruct (find (member_is sid creator) (members (db w))) as [m|] eqn:Hm];
    cbn [orb]; eexists; eexists; (split; [reflexivity|]).
  - split; [intuition congruence|]. split; [reflexivity|intros [=]].
  - split; [intuition congruence|]. split; [reflexivity|intros [=]].
  - split; [tauto|]. split; [intros [=]|]. intros _.
    cbn [db sessions members]. split; [reflexivity|]. split; [reflexivity|].
    cbv beta iota delta [get_session get_member is_creator get_session_creator
                           bind get_db ret].
    cbn [fst db sessions members].
    rewrite !find_snoc, Hs, Hm, session_is_refl, member_is_refl.
    cbn [creator_id]. rewrite String.eqb_refl. repeat split.
Qed.


Lemma join_session_run upper code mid w :
  join_session upper code mid w =
  match find (session_is (upper code)) (sessions (db w)) with
  | None => (Ok (JoinError "Session not found"), w)
  | Some s =>
      match find (member_is (upper code) mid) (members (db w)) with
      | Some m => (Ok (Joined true (is_observer m) (phase s)),
                   after_rejoin (upper code) mid w)
      | None => (Ok (Joined false (negb (String.eqb (phase s) PHASE_ADDING)) (phase s)),
                 after_join (upper code) mid
                   (negb (String.eqb (phase s) PHASE_ADDING)) w)
      end
  end.
Proof.
  cbv beta iota zeta delta [join_session bind get_session get_member get_db ret].
  destruct (find (session_is (upper code)) (sessions (db w))) as [s|]; [|reflexivity].
  destruct (find (member_is (upper code) mid) (members (db w))) as [m|] eqn:Hm;
    [reflexivity|].
  cbv beta iota delta [add_member bind time_time get_db put_db ret].
  cbn [db]. rewrite existsb_find, Hm. reflexivity.
Qed.

(** X2: [join_session] looks the session up under the upper-cased code.
    Without a session row it reports "Session not found" and changes
    nothing.  A member that has a row rejoins: the reply carries the stored
    observer flag, only that member's [last_seen] changes and no row is
    added.  Any other member gets a new row at the end, without items, not
    ready, an observer exactly when the phase is not "adding".  Within one
    call, no other writer coming in between, the reply "Could not join
    session" is never given. *)
Theorem join_session_outcome upper code mid w :
  match find (session_is (upper code)) (sessions (db w)) with
  | None =>
      join_session upper code mid w = (Ok (JoinError "Session not found"), w)
  | Some s =>
      match find (member_is (upper code) mid) (members (db w)) with
      | Some m =>
          exists w',
            join_session upper code mid w
            = (Ok (Joined true (is_observer m) (phase s)), w') /\
            sessions (db w') = sessions (db w) /\
            members (db w')
            = update_where (member_is (upper code) mid)
                (with_last_seen (clock w (ticks w))) (members (db w)) /\
            length (members (db w')) = length (members (db w))
      | None =>
          exists w',
            let observer := negb (String.eqb (phase s) PHASE_ADDING) in
            let row := mkMember (upper code) mid [] false [] observer
                         (clock w (ticks w)) in
            join_session upper code mid w
            = (Ok (Joined false observer (phase s)), w') /\
            members (db w') = members (db w) ++ [row] /\
            fst (get_member (upper code) mid w') = Ok (Some row) /\
            Forall2 session_touched (sessions (db w)) (sessions (db w'))
      end
  end /\
  (forall w', join_session upper code mid w
              <> (Ok (JoinError "Could not join session"), w')).
Proof.
  rewrite join_session_run.
  destruct (find (session_is (upper code)) (sessions (db w))) as [s|] eqn:Hs.
  2:{ split; [reflexivity|]. intros w'. intros [=]. }
  destruct (find (member_is (upper code) mid) (members (db w))) as [m|] eqn:Hm.
  - split; [|intros w'; intros [=]]. eexists. split; [reflexivity|].
    cbn [after_rejoin db sessions members]. split; [reflexivity|].
    split; [reflexivity|]. unfold update_where. apply length_map.
  - split; [|intros w'; intros [=]]. eexists. cbv zeta. split; [reflexivity|].
    cbn [after_join db sessions members]. split; [reflexivity|]. split.
    + cbv beta iota delta [get_member bind get_db ret after_join].
      cbn [fst db members].
      now rewrite find_snoc, Hm, member_is_refl.
    + apply Forall2_update_where. intros r.
      destruct (session_is (upper code) r); [|apply session_touched_refl].
      destruct r; reflexivity.
Qed.

Lemma set_session_phase_run sid p w :
  set_session_phase sid p w = (Ok tt, after_set_phase sid p w).
Proof. reflexivity. Qed.

Lemma find_some_update {R} (cond : R -> bool) (upd : R -> R) rows r :
  (forall x, cond (upd x) = cond x) ->
  find cond rows = Some r ->
  find cond (update_where cond upd rows) = Some (upd r).
Proof. intros Hk H. rewrite find_update_where by exact Hk. now rewrite H. Qed.

(** X3: the observer flag given at the first join sticks.  Whatever
    phase the session is moved to afterwards, a later join of the same
    member is a rejoin that reports the same observer flag, together with
    the phase of that moment, and adds no row. *)
Theorem join_session_observer_sticks upper code mid w rejoined observer p w1 :
  join_session upper code mid w = (Ok (Joined rejoined observer p), w1) ->
  forall p',
    exists w3,
      join_session upper code mid (snd (set_session_phase (upper code) p' w1))
      = (Ok (Joined true observer p'), w3) /\
      length (members (db w3)) = length (members (db w1)).
Proof.
  rewrite join_session_run.
  destruct (find (session_is (upper code)) (sessions (db w))) as [s|] eqn:Hs;
    [|intros [=]].
  intros H p'. rewrite set_session_phase_run. cbn [snd]. rewrite join_session_run.
  assert (Hs1 : exists s1, find (session_is (upper code)) (sessions (db w1)) = Some s1 /\
                  exists m1, find (member_is (upper code) mid) (members (db w1)) = Some m1 /\
                    is_observer m1 = observer).
  { destruct (find (member_is (upper code) mid) (members (db w))) as [m|] eqn:Hm;
      injection H as <- <- <- <-; cbn [after_rejoin after_join db sessions members].
    - exists s. split; [exact Hs|]. exists (with_last_seen (clock w (ticks w)) m).
      split; [|reflexivity]. now apply find_some_update.
    - eexists. split; [apply find_some_update; [reflexivity|exact Hs]|].
      eexists. split; [rewrite find_snoc, Hm, member_is_refl; reflexivity|reflexivity]. }
  destruct Hs1 as (s1 & Hs1 & m1 & Hm1 & Ho).
  cbn [after_set_phase db sessions members].
  erewrite find_some_update; [|reflexivity|exact Hs1]. rewrite Hm1, Ho.
  eexists. split; [reflexivity|].
  cbn [after_rejoin after_set_phase db members]. unfold update_where. apply length_map.
Qed.

Lemma join_session_observer_sticks_witness :
  exists w3,
    join_session ascii_upper "s" "B"
      (snd (set_session_phase (ascii_upper "s") PHASE_ADDING
              (after_join "S" "B" true (demo_world PHASE_RESULT [demo_member "A" [] []]))))
    = (Ok (Joined true true PHASE_ADDING), w3) /\
    length (members (db w3)) = 2%nat.
Proof.
  apply (join_session_observer_sticks ascii_upper "s" "B"
           (demo_world PHASE_RESULT [demo_member "A" [] []]) false true PHASE_RESULT).
  reflexivity.
Defined.

Lemma active_members_snoc sid ss ms r :
  active_members sid (mkDatabase ss (ms ++ [r]))
  = active_members sid (mkDatabase ss ms)
    ++ (if in_session sid r && negb (is_observer r) then [r] else []).
Proof.
  unfold active_members. cbn [members]. rewrite List.filter_app.
  cbn [List.filter]. destruct (in_session sid r); rewrite List.filter_app;
    [|reflexivity].
  cbn [List.filter andb]. destruct (negb (is_observer r)); reflexivity.
Qed.

Lemma set_ready_run sid mid r w :
  set_ready sid mid r w =
  match find (member_is sid mid) (members (db w)) with
  | None => (Ok (Some "Member not found"%string), w)
  | Some m =>
      if is_observer m then (Ok (Some "Observers cannot set ready status"%string), w)
      else (Ok None, snd (set_member_ready sid mid r w))
  end.
Proof.
  cbv beta iota delta [set_ready bind get_member get_db ret].
  destruct (find (member_is sid mid) (members (db w))) as [m|]; [|reflexivity].
  destruct (is_observer m); reflexivity.
Qed.

Lemma set_accepted_items_run sid mid l w :
  set_accepted_items sid mid l w =
  match find (member_is sid mid) (members (db w)) with
  | None => (Ok (Some "Member not found"%string), w)
  | Some m =>
      if is_observer m then (Ok (Some "Observers cannot accept items"%string), w)
      else (Ok None, snd (update_member_accepted_items sid mid l w))
  end.
Proof.
  cbv beta iota delta [set_accepted_items bind get_member get_db ret].
  destruct (find (member_is sid mid) (members (db w))) as [m|]; [|reflexivity].
  destruct (is_observer m); reflexivity.
Qed.

(** X4: a member whose first join comes when the phase is not "adding"
    is an observer: [add_item], [set_ready] and [set_accepted_items] all
    answer with an error and leave the store exactly as it is, and the list
    of active members is the one before the join. *)
Theorem late_joiner_is_locked_out upper code mid w p w1 :
  join_session upper code mid w = (Ok (Joined false true p), w1) ->
  p <> PHASE_ADDING /\
  active_members (upper code) (db w1) = active_members (upper code) (db w) /\
  (forall item, exists e, add_item (upper code) mid item w1 = (Ok (ItemError e), w1)) /\
  (forall r, exists e, set_ready (upper code) mid r w1 = (Ok (Some e), w1)) /\
  (forall l, exists e, set_accepted_items (upper code) mid l w1 = (Ok (Some e), w1)).
Proof.
  rewrite join_session_run.
  destruct (find (session_is (upper code)) (sessions (db w))) as [s|] eqn:Hs;
    [|intros [=]].
  destruct (find (member_is (upper code) mid) (members (db w))) as [m|] eqn:Hm;
    [intros [=]|].
  intros H. injection H as Ho <- <-.
  assert (Hf : find (member_is (upper code) mid)
                 (members (db (after_join (upper code) mid true w)))
               = Some (mkMember (upper code) mid [] false [] true (clock w (ticks w)))).
  { cbn [after_join db members]. now rewrite find_snoc, Hm, member_is_refl. }
  rewrite Ho. split.
  { intros Hp. rewrite Hp in Ho. discriminate Ho. }
  split.
  { cbn [after_join db]. rewrite active_members_snoc. cbn [is_observer negb].
    rewrite andb_false_r, app_nil_r. reflexivity. }
  split; [|split].
  - intros item. rewrite add_item_run, Hf. cbn [is_observer].
    destruct (is_empty (str_strip item)); eauto.
  - intros r. rewrite set_ready_run, Hf. cbn [is_observer]. eauto.
  - intros l. rewrite set_accepted_items_run, Hf. cbn [is_observer]. eauto.
Qed.

Lemma late_joiner_is_locked_out_witness :
  PHASE_RESULT <> PHASE_ADDING /\
  exists e, add_item "S" "B" (py "Tea")
              (after_join "S" "B" true (demo_world PHASE_RESULT [demo_member "A" [] []]))
            = (Ok (ItemError e),
               after_join "S" "B" true (demo_world PHASE_RESULT [demo_member "A" [] []])).
Proof.
  destruct (late_joiner_is_locked_out ascii_upper "s" "B"
              (demo_world PHASE_RESULT [demo_member "A" [] []]) PHASE_RESULT
              (after_join "S" "B" true (demo_world PHASE_RESULT [demo_member "A" [] []]))
              eq_refl) as (H1 & _ & H2 & _).
  split; [exact H1|apply H2].
Defined.

(** ** Flags and lists of one member *)

(** X5: [set_ready] fails exactly for a missing member and for an
    observer, and then changes nothing.  Otherwise it stores the flag given,
    true or false, in any phase and whatever the member's items: reading the
    member back gives that flag with the items and accepted items as before,
    every other member's row is untouched and no phase changes. *)
Theorem set_ready_outcome sid mid r w :
  match find (member_is sid mid) (members (db w)) with
  | None => exists e, set_ready sid mid r w = (Ok (Some e), w)
  | Some m =>
      if is_observer m then exists e, set_ready sid mid r w = (Ok (Some e), w)
      else
        set_ready sid mid r w = (Ok None, after_set_ready sid mid r w) /\
        fst (get_member sid mid (after_set_ready sid mid r w))
        = Ok (Some (with_ready r (clock w (ticks w)) m)) /\
        (forall k row, nth_error (members (db w)) k = Some row ->
           nth_error (members (db (after_set_ready sid mid r w))) k
           = Some (if member_is sid mid row
                   then with_ready r (clock w (ticks w)) row else row)) /\
        map phase (sessions (db (after_set_ready sid mid r w)))
        = map phase (sessions (db w))
  end.
Proof.
  rewrite set_ready_run.
  destruct (find (member_is sid mid) (members (db w))) as [m|] eqn:Hm; [|eauto].
  destruct (is_observer m); [eauto|].
  split; [reflexivity|]. split; [|split].
  - cbv beta iota delta [get_member bind get_db ret after_set_ready].
    cbn [fst db members]. erewrite find_some_update; [reflexivity|reflexivity|exact Hm].
  - intros k row Hk. cbn [after_set_ready db members].
    now rewrite nth_error_update_where, Hk.
  - cbn [after_set_ready db sessions]. unfold update_where. rewrite map_map.
    apply map_ext. intros s. destruct (session_is sid s); reflexivity.
Qed.

(** X6: [set_accepted_items] fails exactly for a missing member and for
    an observer, and then changes nothing.  Otherwise the list is stored as
    given: it is not compared with any member's items, it may name the
    member's own items or items nobody proposed, and the ready flag is
    neither consulted nor changed.  Every other row is untouched. *)
Theorem set_accepted_items_outcome sid mid l w :
  match find (member_is sid mid) (members (db w)) with
  | None => exists e, set_accepted_items sid mid l w = (Ok (Some e), w)
  | Some m =>
      if is_observer m
      then exists e, set_accepted_items sid mid l w = (Ok (Some e), w)
      else
        set_accepted_items sid mid l w = (Ok None, after_set_accepted sid mid l w) /\
        (exists m', fst (get_member sid mid (after_set_accepted sid mid l w))
                    = Ok (Some m') /\
                    accepted_items m' = l /\ is_ready m' = is_ready m /\
                    items m' = items m) /\
        (forall k row, nth_error (members (db w)) k = Some row ->
           nth_error (members (db (after_set_accepted sid mid l w))) k
           = Some (if member_is sid mid row
                   then with_accepted_items l (clock w (ticks w)) row else row))
  end.
Proof.
  rewrite set_accepted_items_run.
  destruct (find (member_is sid mid) (members (db w))) as [m|] eqn:Hm; [|eauto].
  destruct (is_observer m); [eauto|].
  split; [reflexivity|]. split.
  - exists (with_accepted_items l (clock w (ticks w)) m). split; [|repeat split].
    cbv beta iota delta [get_member bind get_db ret after_set_accepted].
    cbn [fst db members]. erewrite find_some_update; [reflexivity|reflexivity|exact Hm].
  - intros k row Hk. cbn [after_set_accepted db members].
    now rewrite nth_error_update_where, Hk.
Qed.

Lemma list_pop_split {A} (i : nat) (l : list A) :
  list_pop i l = firstn i l ++ skipn (S i) l.
Proof.
  revert i. induction l as [|x l IH]; intros [|i]; cbn; try reflexivity.
  now rewrite IH.
Qed.

Lemma list_pop_length {A} (i : nat) (l : list A) :
  (i < length l)%nat -> S (length (list_pop i l)) = length l.
Proof.
  revert i. induction l as [|x l IH]; intros [|i] H; cbn in *; try lia.
  rewrite IH; lia.
Qed.

Lemma list_pop_last {A} (l : list A) (x : A) : list_pop (length l) (l ++ [x]) = l.
Proof. induction l as [|y l IH]; cbn; [reflexivity|now rewrite IH]. Qed.

(** X7: [remove_item] fails, changing nothing, for a missing member, for
    a member marked ready and for an index outside [0, len): a negative
    index is refused, it does not count from the end.  Observers are not
    refused.  Otherwise the item at the index is taken out, the others keep
    their order, the list is one shorter, and the list stored for the member
    is the list returned. *)
Theorem remove_item_outcome sid mid i w :
  match find (member_is sid mid) (members (db w)) with
  | None => exists e, remove_item sid mid i w = (Ok (ItemError e), w)
  | Some m =>
      if is_ready m || (i <? 0) || (Z.of_nat (length (items m)) <=? i)
      then exists e, remove_item sid mid i w = (Ok (ItemError e), w)
      else
        let l := firstn (Z.to_nat i) (items m) ++ skipn (S (Z.to_nat i)) (items m) in
        remove_item sid mid i w = (Ok (ItemOk l), after_update_items sid mid l w) /\
        S (length l) = length (items m) /\
        (exists m', fst (get_member sid mid (after_update_items sid mid l w))
                    = Ok (Some m') /\ items m' = l /\
                    is_observer m' = is_observer m)
  end.
Proof.
  rewrite remove_item_run.
  destruct (find (member_is sid mid) (members (db w))) as [m|] eqn:Hm; [|eauto].
  destruct (is_ready m); [cbn [orb]; eauto|]. cbn [orb].
  replace (i >=? Z.of_nat (length (items m))) with (Z.of_nat (length (items m)) <=? i)
    by (rewrite Z.geb_leb; reflexivity).
  destruct (i <? 0) eqn:H0; [cbn [orb]; eauto|]. cbn [orb].
  destruct (Z.of_nat (length (items m)) <=? i) eqn:H1; [eauto|].
  apply Z.ltb_ge in H0. apply Z.leb_gt in H1.
  cbv zeta. rewrite <- list_pop_split. split; [reflexivity|]. split.
  - apply list_pop_length. lia.
  - eexists. split.
    + cbv beta iota delta [get_member bind get_db ret after_update_items].
      cbn [fst db members].
      erewrite find_some_update; [reflexivity|reflexivity|exact Hm].
    + split; reflexivity.
Qed.

(** X8: removing the item just added gives the list back.  After a
    successful [add_item], [remove_item] at the index of the new item (the
    old length) succeeds and the member's stored list is the one from before
    the addition. *)
Theorem add_then_remove_restores sid mid text w l w1 :
  add_item sid mid text w = (Ok (ItemOk l), w1) ->
  exists m w2,
    find (member_is sid mid) (members (db w)) = Some m /\
    remove_item sid mid (Z.of_nat (length (items m))) w1 = (Ok (ItemOk (items m)), w2) /\
    (exists m2, fst (get_member sid mid w2) = Ok (Some m2) /\ items m2 = items m).
Proof.
  rewrite add_item_run. intros H.
  destruct (is_empty (str_strip text)); [discriminate|].
  destruct (find (member_is sid mid) (members (db w))) as [m|] eqn:Hm; [|discriminate].
  destruct (is_observer m); [discriminate|].
  destruct (is_ready m) eqn:Hr; [discriminate|].
  destruct (is_duplicate_item (str_strip text) (items m)); [discriminate|].
  injection H as <- <-. exists m.
  assert (Hf : find (member_is sid mid)
                 (members (db (after_update_items sid mid
                                 (items m ++ [str_strip text]) w)))
               = Some (with_items (items m ++ [str_strip text]) (clock w (ticks w)) m)).
  { cbn [after_update_items db members].
    erewrite find_some_update; [reflexivity|reflexivity|exact Hm]. }
  rewrite remove_item_run, Hf. cbn [is_ready with_items items]. rewrite Hr.
  rewrite length_app. cbn [length].
  replace (Z.of_nat (length (items m)) <? 0) with false
    by (symmetry; apply Z.ltb_ge; lia).
  replace (Z.of_nat (length (items m)) >=? Z.of_nat (length (items m) + 1)) with false
    by (symmetry; rewrite Z.geb_leb; apply Z.leb_gt; lia).
  cbn [orb]. rewrite Nat2Z.id, list_pop_last.
  eexists. split; [reflexivity|]. split; [reflexivity|].
  eexists. split.
  - cbv beta iota delta [get_member bind get_db ret after_update_items].
    cbn [fst db members].
    erewrite find_some_update; [reflexivity|reflexivity|].
    erewrite find_some_update; [reflexivity|reflexivity|exact Hm].
  - reflexivity.
Qed.

Lemma add_then_remove_restores_witness :
  exists m w2,
    find (member_is "S" "A")
      (members (db (demo_world PHASE_ADDING [demo_member "A" [py "Tea"] []]))) = Some m /\
    remove_item "S" "A" (Z.of_nat (length (items m)))
      (after_update_items "S" "A" [py "Tea"; py "Pizza"]
         (demo_world PHASE_ADDING [demo_member "A" [py "Tea"] []]))
    = (Ok (ItemOk (items m)), w2) /\
    (exists m2, fst (get_member "S" "A" w2) = Ok (Some m2) /\ items m2 = items m).
Proof.
  apply (add_then_remove_restores "S" "A" (py " Pizza ")
           (demo_world PHASE_ADDING [demo_member "A" [py "Tea"] []])
           [py "Tea"; py "Pizza"]).
  reflexivity.
Defined.

(** ** The display lists *)

Lemma items_equal_eq a b : items_equal a b = true <-> normalize_item a = normalize_item b.
Proof. unfold items_equal. apply str_eqb_eq. Qed.

Lemma not_shown_key item shown :
  existsb (fun existing => items_equal item existing) shown = false ->
  ~ In (normalize_item item) (map normalize_item shown).
Proof.
  intros H Hin. apply in_map_iff in Hin as (r & E & Hr).
  assert (existsb (fun existing => items_equal item existing) shown = true);
    [|congruence].
  apply existsb_exists. exists r. split; [exact Hr|]. apply items_equal_eq. congruence.
Qed.

Lemma add_unique_first_seen pool shown item :
  first_seen pool shown -> first_seen (pool ++ [item]) (add_unique shown item).
Proof.
  intros [Hn Hf Hc Ho]. unfold add_unique.
  destruct (existsb (fun existing => items_equal item existing) shown) eqn:E;
    cbn [negb]; split.
  - exact Hn.
  - intros r Hr. destruct (Hf r Hr) as (pre & post & -> & Hp).
    exists pre, (post ++ [item]). split; [|exact Hp].
    now rewrite <- app_assoc.
  - intros x Hx. apply in_app_or in Hx as [Hx|[<-|[]]]; [auto|].
    apply existsb_exists in E as (r & Hr & E). exists r. split; [exact Hr|].
    apply items_equal_eq. apply items_equal_eq in E. congruence.
  - now apply sublist_inserts_r.
  - rewrite map_app. cbn [map]. apply List.NoDup_app; [exact Hn|repeat constructor; intros []|].
    intros k Hk [<-|[]]. exact (not_shown_key _ _ E Hk).
  - intros r Hr. apply in_app_or in Hr as [Hr|[<-|[]]].
    + destruct (Hf r Hr) as (pre & post & -> & Hp).
      exists pre, (post ++ [item]). split; [|exact Hp]. now rewrite <- app_assoc.
    + exists pool, []. split; [reflexivity|].
      intros x Hx Heq. destruct (Hc x Hx) as (r & Hr & Er).
      apply items_equal_eq in Er.
      apply (not_shown_key _ _ E). apply in_map_iff. exists r. split; [congruence|exact Hr].
  - intros x Hx. apply in_app_or in Hx as [Hx|[<-|[]]].
    + destruct (Hc x Hx) as (r & Hr & Er). exists r. split; [|exact Er].
      apply in_or_app. now left.
    + exists item. split; [apply in_or_app; right; now left|].
      now apply items_equal_eq.
  - now apply sublist_app.
Qed.

Lemma fold_add_unique_first_seen pool l shown :
  first_seen pool shown -> first_seen (pool ++ l) (fold_left add_unique l shown).
Proof.
  revert pool shown. induction l as [|x l IH]; intros pool shown H.
  - now rewrite app_nil_r.
  - cbn [fold_left]. replace (pool ++ x :: l) with ((pool ++ [x]) ++ l)
      by (now rewrite <- app_assoc).
    apply IH, add_unique_first_seen, H.
Qed.

Lemma first_seen_nil : first_seen [] [].
Proof.
  split; cbn; try tauto; constructor.
Qed.

Lemma fold_members_pooled (ms : list Member) shown :
  fold_left (fun shown member => fold_left add_unique (items member) shown) ms shown
  = fold_left add_unique (pooled_items ms) shown.
Proof.
  revert shown. induction ms as [|m ms IH]; intros shown; [reflexivity|].
  cbn [fold_left]. rewrite IH. unfold pooled_items. cbn [map concat].
  now rewrite fold_left_app.
Qed.

Lemma fold_others_pooled (mid : string) (ms : list Member) shown :
  fold_left
    (fun shown member =>
       if negb (String.eqb (member_id member) mid)
       then fold_left add_unique (items member) shown else shown) ms shown
  = fold_left add_unique
      (pooled_items (List.filter (fun m => negb (String.eqb (member_id m) mid)) ms))
      shown.
Proof.
  revert shown. induction ms as [|m ms IH]; intros shown; [reflexivity|].
  cbn [fold_left List.filter]. rewrite IH.
  destruct (negb (String.eqb (member_id m) mid)); [|reflexivity].
  unfold pooled_items. cbn [map concat]. now rewrite fold_left_app.
Qed.

Lemma filter_all {R} (f : R -> bool) (l : list R) :
  forallb f l = true -> List.filter f l = l.
Proof.
  induction l as [|x l IH]; [reflexivity|]. cbn [forallb List.filter].
  intros H. apply andb_true_iff in H as [H1 H2]. rewrite H1. f_equal. exact (IH H2).
Qed.

Lemma get_all_items_run sid w :
  exists shown,
    get_all_items sid w = (Ok shown, w) /\
    first_seen (pooled_items (active_members sid (db w))) shown.
Proof.
  eexists. split.
  - cbv beta iota delta [get_all_items get_active_members get_all_members bind
                           get_db ret].
    fold (active_members sid (db w)). reflexivity.
  - rewrite fold_members_pooled.
    apply (fold_add_unique_first_seen [] _ []), first_seen_nil.
Qed.

Lemma items_equal_trans_l x y r :
  items_equal y x = true -> items_equal x r = true -> items_equal y r = true.
Proof. rewrite !items_equal_eq. congruence. Qed.

(** The list built by appending the items not yet shown is the list of
    the first occurrences: comparing with the entries shown or with every
    item gone through makes no difference. *)
Lemma fold_add_unique_occurrences l : forall earlier shown,
  (forall y, existsb (fun e => items_equal y e) earlier
             = existsb (fun e => items_equal y e) shown) ->
  fold_left add_unique l shown = shown ++ first_occurrences earlier l.
Proof.
  induction l as [|x l IH]; intros earlier shown H; [now rewrite app_nil_r|].
  cbn [fold_left first_occurrences]. unfold add_unique at 2. rewrite (H x).
  destruct (existsb (fun e => items_equal x e) shown) eqn:E; cbn [negb].
  - apply IH. intros y. rewrite existsb_app, H. cbn [existsb]. rewrite orb_false_r.
    destruct (items_equal y x) eqn:Eyx; [|apply orb_false_r].
    rewrite orb_true_r. symmetry. apply existsb_exists.
    apply existsb_exists in E as (r & Hr & Er). exists r. split; [exact Hr|].
    exact (items_equal_trans_l _ _ _ Eyx Er).
  - rewrite (IH (earlier ++ [x]) (shown ++ [x])).
    + now rewrite <- app_assoc.
    + intros y. now rewrite !existsb_app, H.
Qed.

Lemma get_all_items_occurrences sid w :
  get_all_items sid w
  = (Ok (first_occurrences [] (pooled_items (active_members sid (db w)))), w).
Proof.
  cbv beta iota delta [get_all_items get_active_members get_all_members bind
                         get_db ret].
  fold (active_members sid (db w)).
  now rewrite fold_members_pooled, (fold_add_unique_occurrences _ [] []).
Qed.

Lemma first_occurrences_first_seen pool : first_seen pool (first_occurrences [] pool).
Proof.
  rewrite <- (app_nil_l (first_occurrences [] pool)).
  rewrite <- (fold_add_unique_occurrences pool [] []) by reflexivity.
  apply (fold_add_unique_first_seen [] _ []), first_seen_nil.
Qed.

(** X10: [get_items_for_acceptance] reads only.  Its list is the list
    of the first occurrences, in row order, of the items of the active
    members whose id is not the caller's.  The caller's own rows are skipped, not the caller's keys: an
    item of another member is listed even when the caller proposed an equal
    one.  For a caller that is not an active member the list is the one of
    [get_all_items]. *)
Theorem get_items_for_acceptance_first_seen sid mid w :
  exists shown,
    get_items_for_acceptance sid mid w = (Ok shown, w) /\
    shown = first_occurrences []
              (pooled_items
                 (List.filter (fun m => negb (String.eqb (member_id m) mid))
                    (active_members sid (db w)))) /\
    first_seen
      (pooled_items
         (List.filter (fun m => negb (String.eqb (member_id m) mid))
            (active_members sid (db w))))
      shown /\
    (forall m x, In m (active_members sid (db w)) -> member_id m <> mid ->
       In x (items m) -> exists r, In r shown /\ items_equal r x = true) /\
    (forallb (fun m => negb (String.eqb (member_id m) mid)) (active_members sid (db w))
     = true -> get_all_items sid w = (Ok shown, w)).
Proof.
  eexists. split; [|split; [|split; [|split]]].
  - cbv beta iota delta [get_items_for_acceptance get_active_members get_all_members
                           bind get_db ret].
    fold (active_members sid (db w)). reflexivity.
  - now rewrite fold_others_pooled, (fold_add_unique_occurrences _ [] []).
  - rewrite fold_others_pooled.
    apply (fold_add_unique_first_seen [] _ []), first_seen_nil.
  - intros m x Hm Hne Hx. rewrite fold_others_pooled.
    apply (fs_cover _ _ (fold_add_unique_first_seen [] _ [] first_seen_nil)).
    cbn [app]. unfold pooled_items. apply in_concat. exists (items m).
    split; [|exact Hx]. apply in_map. apply filter_In. split; [exact Hm|].
    apply negb_true_iff, String.eqb_neq, Hne.
  - intros Hall.
    cbv beta iota delta [get_all_items get_active_members get_all_members bind
                           get_db ret].
    fold (active_members sid (db w)).
    rewrite fold_others_pooled, fold_members_pooled.
    now rewrite (filter_all _ _ Hall).
Qed.

(** ** Deleting sessions *)

Lemma delete_session_run sid w :
  delete_session sid w =
  (Ok tt,
   mkWorld
     (mkDatabase (delete_where (session_is sid) (sessions (db w)))
        (delete_where (in_session sid) (members (db w))))
     (clock w) (ticks w) (entropy w) (draws w)).
Proof. reflexivity. Qed.

Lemma find_delete_where_self {R} (cond : R -> bool) (rows : list R) :
  find cond (delete_where cond rows) = None.
Proof.
  induction rows as [|r rows IH]; [reflexivity|]. cbn [delete_where List.filter].
  destruct (cond r) eqn:E; cbn [negb]; [exact IH|]. cbn [find]. rewrite E. exact IH.
Qed.

Lemma filter_delete_where_self {R} (cond : R -> bool) (rows : list R) :
  List.filter cond (delete_where cond rows) = [].
Proof.
  induction rows as [|r rows IH]; [reflexivity|]. cbn [delete_where List.filter].
  destruct (cond r) eqn:E; cbn [negb]; [exact IH|]. cbn [List.filter]. rewrite E. exact IH.
Qed.

Lemma find_delete_where_other {R} (cond cond' : R -> bool) (rows : list R) :
  (forall r, cond r = true -> cond' r = false) ->
  find cond (delete_where cond' rows) = find cond rows.
Proof.
  intros Hd. induction rows as [|r rows IH]; [reflexivity|].
  cbn [delete_where List.filter find]. destruct (cond' r) eqn:E'; cbn [negb].
  - destruct (cond r) eqn:E; [rewrite (Hd r E) in E'; discriminate|exact IH].
  - cbn [find]. destruct (cond r); [reflexivity|exact IH].
Qed.

Lemma filter_delete_where_other {R} (cond cond' : R -> bool) (rows : list R) :
  (forall r, cond r = true -> cond' r = false) ->
  List.filter cond (delete_where cond' rows) = List.filter cond rows.
Proof.
  intros Hd. induction rows as [|r rows IH]; [reflexivity|].
  cbn [delete_where List.filter]. destruct (cond' r) eqn:E'; cbn [negb].
  - destruct (cond r) eqn:E; [rewrite (Hd r E) in E'; discriminate|exact IH].
  - cbn [List.filter]. destruct (cond r); [f_equal|]; exact IH.
Qed.

Lemma string_eqb_two a b c :
  b <> c -> String.eqb a b = true -> String.eqb a c = false.
Proof.
  intros Hne E. apply String.eqb_eq in E. subst. now apply String.eqb_neq.
Qed.

(** X11: after [delete_session] the session does not exist and has no
    member rows, while every other session keeps its row and its member
    rows, in the same order.  Deleting a session that does not exist
    changes nothing of the other sessions either. *)
Theorem delete_session_removes sid w :
  exists w',
    delete_session sid w = (Ok tt, w') /\
    fst (session_exists sid w') = Ok false /\
    fst (get_all_members sid w') = Ok [] /\
    (forall sid', sid' <> sid ->
       fst (get_session sid' w') = fst (get_session sid' w) /\
       fst (get_all_members sid' w') = fst (get_all_members sid' w) /\
       fst (get_active_members sid' w') = fst (get_active_members sid' w)).
Proof.
  rewrite delete_session_run. eexists. split; [reflexivity|].
  cbv beta iota delta [session_exists get_all_members get_active_members get_session
                         bind get_db ret].
  cbn [fst db sessions members].
  rewrite find_delete_where_self, filter_delete_where_self.
  split; [reflexivity|]. split; [reflexivity|].
  intros sid' Hne.
  rewrite (find_delete_where_other (session_is sid') (session_is sid)),
    (filter_delete_where_other (in_session sid') (in_session sid));
    [repeat split| |]; intros r; apply string_eqb_two; exact Hne.
Qed.

Lemma cleanup_expired_sessions_run w :
  cleanup_expired_sessions w =
  (Ok tt,
   mkWorld
     (mkDatabase
        (delete_where (fun s => last_activity s <? clock w (ticks w) - 604800)
           (sessions (db w)))
        (delete_where
           (fun m => id_in (member_session m)
              (map session_id
                 (List.filter (fun s => last_activity s <? clock w (ticks w) - 604800)
                    (sessions (db w)))))
           (members (db w))))
     (clock w) (S (ticks w)) (entropy w) (draws w)).
Proof. reflexivity. Qed.

(** X12: [cleanup_expired_sessions] reads the clock once and keeps
    exactly the session rows whose last activity is not older than 7 days
    (604800 seconds) before that reading.  A member row goes exactly when
    the id of an expired session is its session id; so, session ids being
    unique, every member row of a session that is kept is kept. *)
Theorem cleanup_expired_sessions_outcome w :
  exists w',
    cleanup_expired_sessions w = (Ok tt, w') /\
    SESSION_EXPIRY_SECONDS = 604800 /\
    (forall s, In s (sessions (db w')) <->
       In s (sessions (db w)) /\ clock w (ticks w) - 604800 <= last_activity s) /\
    (forall m, In m (members (db w')) <->
       In m (members (db w)) /\
       ~ exists s, In s (sessions (db w)) /\
                   last_activity s < clock w (ticks w) - 604800 /\
                   session_id s = member_session m) /\
    (List.NoDup (map session_id (sessions (db w))) ->
     forall s m, In s (sessions (db w')) -> In m (members (db w)) ->
                 member_session m = session_id s -> In m (members (db w'))).
Proof.
  rewrite cleanup_expired_sessions_run.
  eexists. split; [reflexivity|]. split; [reflexivity|].
  cbn [db sessions members].
  assert (Hs : forall s, In s (delete_where
                 (fun s => last_activity s <? clock w (ticks w) - 604800)
                 (sessions (db w))) <->
               In s (sessions (db w)) /\ clock w (ticks w) - 604800 <= last_activity s).
  { intros s. unfold delete_where. rewrite filter_In, negb_true_iff, Z.ltb_ge.
    reflexivity. }
  assert (Hm : forall m, In m (delete_where
                 (fun m => id_in (member_session m)
                    (map session_id
                       (List.filter
                          (fun s => last_activity s <? clock w (ticks w) - 604800)
                          (sessions (db w)))))
                 (members (db w))) <->
               In m (members (db w)) /\
               ~ exists s, In s (sessions (db w)) /\
                           last_activity s < clock w (ticks w) - 604800 /\
                           session_id s = member_session m).
  { intros m. unfold delete_where. rewrite filter_In, negb_true_iff.
    rewrite <- not_true_iff_false, id_in_In, in_map_iff.
    split; intros [H1 H2]; (split; [exact H1|]); intros (s & Ha & Hb); apply H2.
    - destruct Hb as [Hb Hc]. exists s. split; [exact Hc|].
      apply filter_In. split; [exact Ha|]. now apply Z.ltb_lt.
    - apply filter_In in Hb as [Hb Hc]. exists s. split; [exact Hb|].
      split; [now apply Z.ltb_lt|exact Ha]. }
  split; [exact Hs|]. split; [exact Hm|].
  intros Hnd s m Hin Hmem Hkey. apply Hm. split; [exact Hmem|].
  intros (s' & Hs' & Hold & Hid). apply Hs in Hin as [Hin Hnew].
  assert (s' = s); [|subst; lia].
  clear - Hnd Hs' Hin Hid Hkey. rewrite Hkey in Hid.
  induction (sessions (db w)) as [|x l IH]; [destruct Hin|].
  cbn [map] in Hnd. apply List.NoDup_cons_iff in Hnd as [Hx Hl].
  destruct Hs' as [->|Hs'], Hin as [->|Hin]; auto.
  - exfalso. apply Hx. rewrite Hid. now apply in_map.
  - exfalso. apply Hx. rewrite <- Hid. now apply in_map.
Qed.

(** ** Heartbeats and the state a member polls *)

Lemma update_where_In {R} (cond : R -> bool) (upd : R -> R) rows r' :
  (forall r, cond (upd r) = cond r) ->
  In r' (update_where cond upd rows) -> cond r' = true ->
  exists r, In r rows /\ r' = upd r.
Proof.
  intros Hk Hin Hc. unfold update_where in Hin.
  apply in_map_iff in Hin as (r & E & Hr). exists r. split; [exact Hr|].
  destruct (cond r) eqn:Er; [now symmetry|]. subst r'. congruence.
Qed.

(** X13: a heartbeat holds auto-ready off.  If a member that is not
    marked ready refreshes [last_seen] ([update_member_last_seen]) and the
    readiness check that follows reads the clock at most 2 minutes later,
    the check leaves the member unmarked. *)
Theorem heartbeat_defers_auto_ready sid mid w m :
  find (member_is sid mid) (members (db w)) = Some m ->
  is_ready m = false ->
  clock w (S (ticks w)) - clock w (ticks w) <= AUTO_READY_TIMEOUT ->
  exists st w2 m2,
    get_ready_status sid (snd (update_member_last_seen sid mid w)) = (Ok st, w2) /\
    fst (get_member sid mid w2) = Ok (Some m2) /\
    is_ready m2 = false.
Proof.
  intros Hm Hr Ht.
  set (w1 := snd (update_member_last_seen sid mid w)).
  assert (Hw1 : members (db w1)
                = update_where (member_is sid mid)
                    (with_last_seen (clock w (ticks w))) (members (db w)))
    by reflexivity.
  assert (Hnow : clock w1 (ticks w1) = clock w (S (ticks w))) by reflexivity.
  destruct (get_ready_status_run sid w1) as (w2 & E & H).
  rewrite Hnow in E, H. eexists. exists w2.
  destruct H as (_ & _ & _ & _ & Hrows).
  assert (Hf1 : find (member_is sid mid) (members (db w1))
                = Some (with_last_seen (clock w (ticks w)) m)).
  { rewrite Hw1. erewrite find_some_update; [reflexivity|reflexivity|exact Hm]. }
  destruct (find_Forall2
              (member_after_loop sid (clock w (S (ticks w)))
                 (active_members sid (db w1)))
              (member_is sid mid) (members (db w1)) (members (db w2))
              (with_last_seen (clock w (ticks w)) m))
    as (m2 & Hf2 & Hrel); [intros x y ->; reflexivity|exact Hrows|exact Hf1|].
  exists m2. split; [exact E|]. split.
  { cbv beta iota delta [get_member bind get_db ret]. cbn [fst]. now rewrite Hf2. }
  rewrite Hrel. cbn [is_ready with_ready with_last_seen]. rewrite Hr. cbn [orb].
  apply not_true_iff_false. intros Hex. apply existsb_exists in Hex as (m' & Hin & Hc).
  apply andb_true_iff in Hc as [Hauto Hkey].
  apply find_some in Hm as [_ Hmk].
  apply active_members_In in Hin as (Hin & Hs & _).
  assert (Hk' : member_is sid mid m' = true).
  { unfold member_is, in_session in *. cbn [member_session member_id with_last_seen] in Hkey.
    apply andb_true_iff in Hkey as [_ Hkey]. apply andb_true_iff in Hmk as [_ Hmk].
    apply String.eqb_eq in Hkey, Hmk. rewrite Hs. cbn [andb].
    apply String.eqb_eq. congruence. }
  rewrite Hw1 in Hin.
  destruct (update_where_In (member_is sid mid) (with_last_seen (clock w (ticks w)))
              (members (db w)) m') as (r & _ & ->);
    [reflexivity|exact Hin|exact Hk'|].
  unfold auto_readied in Hauto. cbn [last_seen with_last_seen] in Hauto.
  apply andb_true_iff in Hauto as [_ Hauto]. apply Z.gtb_lt in Hauto. lia.
Qed.

Lemma heartbeat_defers_auto_ready_witness :
  exists st w2 m2,
    get_ready_status "S" (snd (update_member_last_seen "S" "A" (stale_world PHASE_ADDING false)))
    = (Ok st, w2) /\
    fst (get_member "S" "A" w2) = Ok (Some m2) /\ is_ready m2 = false.
Proof.
  apply (heartbeat_defers_auto_ready "S" "A" (stale_world PHASE_ADDING false)
           (demo_member_seen "A" false 0)).
  - reflexivity.
  - reflexivity.
  - vm_compute. intros [=].
Defined.

Lemma after_ready_loop_pooled sid now ms w w1 :
  after_ready_loop sid now ms w w1 ->
  pooled_items (active_members sid (db w1)) = pooled_items (active_members sid (db w)).
Proof.
  intros H. apply after_ready_loop_active in H. unfold pooled_items.
  induction H as [|r r' l l' Hr _ IH]; [reflexivity|].
  cbn [map concat]. rewrite IH.
  apply member_after_loop_keys in Hr as (_ & _ & _ & -> & _). reflexivity.
Qed.

Lemma is_creator_run sid mid w :
  is_creator sid mid w =
  (Ok (match find (session_is sid) (sessions (db w)) with
       | Some row => String.eqb (creator_id row) mid
       | None => false
       end), w).
Proof.
  cbv beta iota delta [is_creator bind get_session_creator get_db ret].
  destruct (find (session_is sid) (sessions (db w))); reflexivity.
Qed.

Lemma is_creator_connected_db sid w :
  exists b w', is_creator_connected sid w = (Ok b, w') /\ db w' = db w.
Proof.
  cbv beta iota delta [is_creator_connected bind get_session get_member get_db ret
                         time_time].
  destruct (find (session_is sid) (sessions (db w))) as [s|]; [|eauto].
  destruct (find (member_is sid (creator_id s)) (members (db w))); eauto.
Qed.

Lemma get_session_state_cases sid mid w :
  exists r w' rs w1,
    get_session_state sid mid w = (Ok r, w') /\
    get_ready_status sid w = (Ok rs, w1) /\
    (db w' = db w \/ db w' = db w1).
Proof.
  destruct (get_ready_status_run sid w) as (w1 & E & _).
  destruct (find (session_is sid) (sessions (db w))) as [s|] eqn:Hs.
  2:{ eexists. exists w. eexists. exists w1. split; [|split; [exact E|now left]].
      cbv beta iota delta [get_session_state bind get_session get_db ret].
      now rewrite Hs. }
  destruct (find (member_is sid mid) (members (db w))) as [m|] eqn:Hm.
  2:{ eexists. exists w. eexists. exists w1. split; [|split; [exact E|now left]].
      cbv beta iota delta [get_session_state bind get_session get_member get_db ret].
      now rewrite Hs, Hm. }
  destruct (is_creator_connected_db sid w1) as (b & w2 & Ec & Hdb).
  remember (get_session_state sid mid w) as R eqn:ER.
  cbv beta iota delta [get_session_state bind get_session get_member get_db ret
                         get_active_members get_all_members] in ER.
  rewrite Hs, Hm, E, is_creator_run, Ec in ER.
  cbv beta iota delta [get_restart_votes bind get_db ret] in ER.
  destruct (String.eqb (phase s) PHASE_RESULT).
  - destruct (get_all_items_run sid w2) as (shown & Ea & _). rewrite Ea in ER.
    subst R. eexists. exists w2. eexists. exists w1.
    split; [reflexivity|]. split; [exact E|right; exact Hdb].
  - subst R. eexists. exists w2. eexists. exists w1.
    split; [reflexivity|]. split; [exact E|right; exact Hdb].
Qed.

(** ** Drawing again *)

Lemma has_key_In norm d :
  has_key norm d = true <-> exists original, In (norm, original) d.
Proof.
  unfold has_key. rewrite existsb_exists. split.
  - intros ([k o] & Hin & E). apply str_eqb_eq in E. cbn in E. subst. eauto.
  - intros (o & Hin). exists (norm, o). split; [exact Hin|apply str_eqb_refl].
Qed.

Lemma add_acceptor_nonempty norm mid acc k :
  acc !!! k <> ∅ \/ k = norm -> add_acceptor norm mid acc !!! k <> ∅.
Proof.
  unfold add_acceptor. rewrite lookup_total_insert.
  destruct (decide (norm = k)) as [E|E].
  - intros _ Hc. apply (not_elem_of_empty (C:=gset string) mid).
    rewrite <- Hc. apply elem_of_union_r, elem_of_singleton. reflexivity.
  - intros [H|H]; [exact H|congruence].
Qed.

Lemma registered_empty : registered [] (mkAcceptances [] ∅).
Proof. split; cbn; tauto. Qed.

Lemma own_item_step_registered mid seen st item :
  registered seen st -> registered (seen ++ [item]) (own_item_step mid st item).
Proof.
  intros [H1 H2 H3]. unfold own_item_step.
  destruct (has_key (normalize_item item) (normalized_to_original st)) eqn:Hk;
    cbn [negb]; split; cbn [normalized_to_original item_acceptances].
  - intros n o Hin. destruct (H1 n o Hin). split; [assumption|].
    apply in_or_app. now left.
  - intros n o Hin. apply add_acceptor_nonempty. left. eauto.
  - intros it Hin. apply in_app_or in Hin as [Hin|[<-|[]]]; auto.
  - intros n o Hin. apply in_app_or in Hin as [Hin|[[= <- <-]|[]]].
    + destruct (H1 n o Hin). split; [assumption|]. apply in_or_app. now left.
    + split; [reflexivity|]. apply in_or_app. right. now left.
  - intros n o Hin. apply add_acceptor_nonempty.
    apply in_app_or in Hin as [Hin|[[= <- <-]|[]]]; [left; eauto|now right].
  - intros it Hin. apply has_key_In.
    apply in_app_or in Hin as [Hin|[<-|[]]].
    + apply H3, has_key_In in Hin as (o & Ho). exists o. apply in_or_app. now left.
    + exists item. apply in_or_app. right. now left.
Qed.

Lemma accepted_item_step_registered mid seen st item :
  registered seen st -> registered seen (accepted_item_step mid st item).
Proof.
  intros [H1 H2 H3]. unfold accepted_item_step.
  destruct (has_key (normalize_item item) (normalized_to_original st)); [|now split].
  split; cbn [normalized_to_original item_acceptances]; auto.
  intros n o Hin. apply add_acceptor_nonempty. left. eauto.
Qed.

Lemma own_items_registered mid l : forall seen st,
  registered seen st -> registered (seen ++ l) (fold_left (own_item_step mid) l st).
Proof.
  induction l as [|x l IH]; intros seen st H; [now rewrite app_nil_r|].
  cbn [fold_left]. replace (seen ++ x :: l) with ((seen ++ [x]) ++ l)
    by (now rewrite <- app_assoc).
  apply IH, own_item_step_registered, H.
Qed.

Lemma accepted_items_registered mid l : forall seen st,
  registered seen st -> registered seen (fold_left (accepted_item_step mid) l st).
Proof.
  induction l as [|x l IH]; intros seen st H; [exact H|].
  cbn [fold_left]. apply IH, accepted_item_step_registered, H.
Qed.

Lemma members_registered ms : forall seen st,
  registered seen st ->
  registered (seen ++ pooled_items ms) (fold_left member_step ms st).
Proof.
  induction ms as [|m ms IH]; intros seen st H.
  - unfold pooled_items. cbn. now rewrite app_nil_r.
  - cbn [fold_left]. unfold pooled_items. cbn [map concat].
    rewrite app_assoc. apply IH. unfold member_step.
    apply accepted_items_registered, own_items_registered, H.
Qed.

Lemma groups_append_In groups acceptors original K L :
  In (K, L) (groups_append groups acceptors original) ->
  In (K, L) groups \/
  (K = acceptors /\ (L = [original] \/ exists L0, In (K, L0) groups /\ L = L0 ++ [original])).
Proof.
  induction groups as [|[k l] rest IH]; cbn [groups_append].
  - intros [[= <- <-]|[]]. right. split; [reflexivity|now left].
  - destruct (bool_decide (k = acceptors)) eqn:E.
    + apply bool_decide_eq_true in E. subst k.
      intros [[= <- <-]|Hin]; [|left; now right].
      right. split; [reflexivity|]. right. exists l. split; [now left|reflexivity].
    + intros [[= <- <-]|Hin]; [left; now left|].
      destruct (IH Hin) as [H|(-> & [->|(L0 & H0 & ->)])].
      * left. now right.
      * right. split; [reflexivity|now left].
      * right. split; [reflexivity|]. right. exists L0. split; [now right|reflexivity].
Qed.

Lemma groups_append_nonempty groups acceptors original :
  groups_append groups acceptors original <> [].
Proof.
  destruct groups as [|[k l] rest]; cbn [groups_append]; [discriminate|].
  destruct (bool_decide (k = acceptors)); discriminate.
Qed.

Lemma group_step_grouped excluded acc d groups entry :
  In entry d -> grouped excluded d groups ->
  grouped excluded d (group_step excluded acc groups entry).
Proof.
  intros Hin Hg. destruct entry as [norm original]. unfold group_step.
  fold (is_excluded excluded original).
  destruct (is_excluded excluded original) eqn:Hex; [exact Hg|].
  destruct (bool_decide (acc !!! norm ≠ ∅)); [|exact Hg].
  intros K L HKL. apply groups_append_In in HKL as [H|(-> & [->|(L0 & H0 & ->)])].
  - exact (Hg K L H).
  - split; [discriminate|]. intros o [<-|[]]. split; [exact Hex|eauto].
  - destruct (Hg _ _ H0) as [Hne Hall]. split.
    + intros E. apply app_eq_nil in E as [_ E]. discriminate E.
    + intros o Ho. apply in_app_or in Ho as [Ho|[<-|[]]]; [auto|].
      split; [exact Hex|eauto].
Qed.

Lemma group_fold_grouped excluded acc d l : forall groups,
  (forall e, In e l -> In e d) -> grouped excluded d groups ->
  grouped excluded d (fold_left (group_step excluded acc) l groups).
Proof.
  induction l as [|e l IH]; intros groups Hl Hg; [exact Hg|].
  cbn [fold_left]. apply IH; [intros e' He'; apply Hl; now right|].
  apply group_step_grouped; [apply Hl; now left|exact Hg].
Qed.

Lemma group_fold_nonempty excluded acc l : forall groups,
  groups <> [] \/
  (exists norm original, In (norm, original) l /\
     is_excluded excluded original = false /\ acc !!! norm <> ∅) ->
  fold_left (group_step excluded acc) l groups <> [].
Proof.
  induction l as [|[n o] l IH]; intros groups H.
  - destruct H as [H|(? & ? & [] & _)]. exact H.
  - cbn [fold_left]. apply IH.
    unfold group_step. fold (is_excluded excluded o).
    destruct H as [H|(norm & original & [[= -> ->]|Hin] & Hex & Hacc)].
    + left. destruct (is_excluded excluded o); [exact H|].
      destruct (bool_decide (acc !!! n ≠ ∅)); [apply groups_append_nonempty|exact H].
    + left. rewrite Hex, (bool_decide_eq_true_2 _ Hacc).
      apply groups_append_nonempty.
    + right. eauto.
Qed.

Lemma is_excluded_key excluded a b :
  normalize_item a = normalize_item b -> is_excluded excluded a = is_excluded excluded b.
Proof.
  intros E. unfold is_excluded, items_equal. now rewrite E.
Qed.

(** The groups of [group_items]: well formed, empty only when every item
    is excluded, and made of items of the members. *)
Lemma group_items_grouped ms excluded :
  grouped excluded
    (normalized_to_original (fold_left member_step ms (mkAcceptances [] ∅)))
    (group_items ms excluded) /\
  (forall K L o, In (K, L) (group_items ms excluded) -> In o L ->
     In o (pooled_items ms)) /\
  ((exists x, In x (pooled_items ms) /\ is_excluded excluded x = false) ->
   group_items ms excluded <> []) /\
  (pooled_items ms = [] -> group_items ms excluded = []).
Proof.
  pose proof (members_registered ms [] _ registered_empty) as [H1 H2 H3].
  cbn [app] in *. unfold group_items.
  set (st := fold_left member_step ms (mkAcceptances [] ∅)) in *.
  assert (Hg : grouped excluded (normalized_to_original st)
                 (fold_left (group_step excluded (item_acceptances st))
                    (normalized_to_original st) [])).
  { apply group_fold_grouped; [auto|]. intros K L []. }
  split; [exact Hg|]. split; [|split].
  - intros K L o HKL Ho. destruct (Hg K L HKL) as [_ Hall].
    destruct (Hall o Ho) as (_ & norm & Hin). now apply (H1 norm o).
  - intros (x & Hx & Hex). apply group_fold_nonempty. right.
    apply H3, has_key_In in Hx as (o & Ho).
    exists (normalize_item x), o. split; [exact Ho|]. split; [|eauto].
    destruct (H1 _ _ Ho) as [E _].
    now rewrite <- (is_excluded_key excluded x o E).
  - intros Hp. rewrite Hp in H1.
    destruct (normalized_to_original st) as [|[n o] l]; [reflexivity|].
    destruct (H1 n o (or_introl eq_refl)) as [_ []].
Qed.

Lemma list_getitem_in_range {A} (l : list A) (i : Z) (w : World) :
  0 <= i < Z.of_nat (length l) ->
  exists x, list_getitem l i w = (Ok x, w) /\ In x l.
Proof.
  intros Hi. unfold list_getitem.
  destruct (Z.ltb_spec i 0); [lia|]. destruct (Z.ltb_spec i 0); [lia|].
  destruct (nth_error l (Z.to_nat i)) as [x|] eqn:E.
  - exists x. split; [reflexivity|]. exact (nth_error_In _ _ E).
  - apply nth_error_None in E. lia.
Qed.

Lemma fair_random_select_in_range n w :
  1 <= n -> exists i, 0 <= i < n /\ fair_random_select n w = (Ok i, after_draw w).
Proof.
  intros Hn. destruct (fair_random_select_draw n w Hn) as [_ E].
  eexists. split; [|exact E]. apply Z.mod_pos_bound. lia.
Qed.

Lemma pick_item_ok groups w :
  groups <> [] -> (forall K L, In (K, L) groups -> L <> []) ->
  exists K L it,
    In (K, L) groups /\ In it L /\
    pick_item groups w = (Ok (Some it), after_draw (after_draw w)).
Proof.
  intros Hne Hall. unfold pick_item.
  assert (Hlen : 1 <= Z.of_nat (length (map snd groups))).
  { destruct groups; [congruence|]. cbn [map length]. lia. }
  destruct (fair_random_select_in_range _ w Hlen) as (gi & Hgi & Eg).
  unfold bind at 1. rewrite Eg.
  destruct (list_getitem_in_range (map snd groups) gi (after_draw w) Hgi)
    as (L & EL & HL).
  unfold bind at 1. rewrite EL.
  apply in_map_iff in HL as ([K L'] & E & HKL). cbn [snd] in E. subst L'.
  assert (HlenL : 1 <= Z.of_nat (length L)).
  { pose proof (Hall K L HKL). destruct L; [congruence|]. cbn [length]. lia. }
  destruct (fair_random_select_in_range _ (after_draw w) HlenL) as (ii & Hii & Ei).
  unfold bind at 1. rewrite Ei.
  destruct (list_getitem_in_range L ii (after_draw (after_draw w)) Hii)
    as (it & Eit & Hit).
  unfold bind at 1. rewrite Eit. exists K, L, it. repeat split; assumption.
Qed.

Lemma group_items_by_acceptance_run sid w :
  group_items_by_acceptance sid w
  = (Ok (group_items (active_members sid (db w)) (stored_excluded sid (db w))), w).
Proof. reflexivity. Qed.

Lemma select_item_run sid w :
  select_item sid w =
  if is_empty (group_items (active_members sid (db w)) (stored_excluded sid (db w)))
  then
    if is_empty (group_items (active_members sid (db w))
                   (stored_excluded sid (db (after_clear_excluded sid w))))
    then (Ok None, after_clear_excluded sid w)
    else pick_item (group_items (active_members sid (db w))
                      (stored_excluded sid (db (after_clear_excluded sid w))))
           (after_clear_excluded sid w)
  else pick_item (group_items (active_members sid (db w)) (stored_excluded sid (db w))) w.
Proof.
  unfold select_item. unfold bind at 1. rewrite group_items_by_acceptance_run.
  destruct (is_empty _); [|reflexivity].
  unfold bind at 1. unfold clear_excluded_items, set_excluded_items, update_sessions,
    bind at 1, get_db, put_db.
  fold (after_clear_excluded sid w).
  unfold bind at 1. rewrite group_items_by_acceptance_run.
  change (active_members sid (db (after_clear_excluded sid w)))
    with (active_members sid (db w)).
  destruct (is_empty _); reflexivity.
Qed.

Lemma stored_excluded_cleared sid w :
  stored_excluded sid (db (after_clear_excluded sid w)) = [].
Proof.
  unfold stored_excluded. cbn [after_clear_excluded db sessions].
  rewrite find_update_where by reflexivity.
  destruct (find (session_is sid) (sessions (db w))); reflexivity.
Qed.

Lemma is_empty_false {A} (l : list A) : is_empty l = false <-> l <> [].
Proof.
  destruct l; cbn; split; intros H; try reflexivity; try discriminate; congruence.
Qed.

Lemma reroll_cases sid w :
  exists r w',
    reroll sid w = (Ok r, w') /\
    (pooled_items (active_members sid (db w)) = [] -> r = None) /\
    (db w' = db w \/ db w' = db (after_clear_excluded sid w)).
Proof.
  unfold reroll. rewrite select_item_run, stored_excluded_cleared.
  set (ms := active_members sid (db w)). set (ex := stored_excluded sid (db w)).
  destruct (group_items_grouped ms ex) as (Hg1 & _ & _ & He1).
  destruct (group_items_grouped ms []) as (Hg2 & _ & _ & He2).
  destruct (is_empty (group_items ms ex)) eqn:E1.
  - destruct (is_empty (group_items ms [])) eqn:E2.
    + eexists. eexists. split; [reflexivity|]. split; [reflexivity|now right].
    + apply is_empty_false in E2.
      destruct (pick_item_ok _ (after_clear_excluded sid w) E2
                  (fun K L H => proj1 (Hg2 K L H))) as (K & L & it & _ & _ & Ep).
      rewrite Ep. eexists. eexists. split; [reflexivity|].
      split; [intros Hp; destruct (E2 (He2 Hp))|now right].
  - apply is_empty_false in E1.
    destruct (pick_item_ok _ w E1 (fun K L H => proj1 (Hg1 K L H)))
      as (K & L & it & _ & _ & Ep).
    rewrite Ep. eexists. eexists. split; [reflexivity|].
    split; [intros Hp; destruct (E1 (He1 Hp))|now left].
Qed.

(** ** A fresh round *)

Lemma pooled_items_fresh (ms : list Member) : pooled_items (map fresh_member ms) = [].
Proof. induction ms as [|m ms IH]; [reflexivity|exact IH]. Qed.

Lemma active_members_fresh sid ms ss :
  active_members sid
    (mkDatabase ss (map (fun m => if in_session sid m then fresh_member m else m) ms))
  = map fresh_member (List.filter (in_session sid) ms).
Proof.
  unfold active_members. cbn [members].
  induction ms as [|m ms IH]; [reflexivity|]. cbn [map List.filter].
  destruct (in_session sid m) eqn:E.
  - replace (in_session sid (fresh_member m)) with true by (symmetry; exact E).
    cbn [List.filter is_observer fresh_member negb map]. now rewrite IH.
  - rewrite E. exact IH.
Qed.

Lemma find_fresh_member sid mid ms m :
  find (member_is sid mid) ms = Some m ->
  find (member_is sid mid)
    (map (fun m => if in_session sid m then fresh_member m else m) ms)
  = Some (fresh_member m).
Proof.
  induction ms as [|x l IH]; [discriminate|]. cbn [find map].
  destruct (member_is sid mid x) eqn:Ex.
  - intros [= ->].
    assert (Hs : in_session sid m = true).
    { unfold member_is in Ex. now apply andb_true_iff in Ex as [Ex _]. }
    rewrite Hs.
    replace (member_is sid mid (fresh_member m)) with true by (symmetry; exact Ex).
    reflexivity.
  - replace (member_is sid mid (if in_session sid x then fresh_member x else x))
      with false by (destruct (in_session sid x); symmetry; exact Ex).
    exact IH.
Qed.

(** X16: after [start_fresh] every member row of the session, the
    former observers too, is an active member with an empty list:
    [get_all_items] is empty, [reroll] finds nothing, and [add_item] accepts
    from each of them any text whose normalized key is not empty. *)
Theorem start_fresh_opens_round sid w :
  exists w',
    start_fresh sid w = (Ok tt, w') /\
    active_members sid (db w')
    = map fresh_member (List.filter (in_session sid) (members (db w))) /\
    get_all_items sid w' = (Ok [], w') /\
    (exists w2, reroll sid w' = (Ok None, w2)) /\
    (forall mid m item,
       find (member_is sid mid) (members (db w)) = Some m ->
       normalize_item item <> [] ->
       exists w2, add_item sid mid item w' = (Ok (ItemOk [str_strip item]), w2)).
Proof.
  rewrite start_fresh_run. eexists. split; [reflexivity|].
  match goal with |- context [active_members sid (db ?w1)] => set (w' := w1) end.
  assert (Ha : active_members sid (db w')
               = map fresh_member (List.filter (in_session sid) (members (db w)))).
  { subst w'. cbn [db]. apply active_members_fresh. }
  assert (Hp : pooled_items (active_members sid (db w')) = []).
  { rewrite Ha. apply pooled_items_fresh. }
  split; [exact Ha|]. split; [|split].
  - destruct (get_all_items_run sid w') as (shown & E & Hfs). rewrite E.
    destruct shown as [|r l]; [reflexivity|].
    destruct (fs_first _ _ Hfs r (or_introl eq_refl)) as (pre & post & Epool & _).
    rewrite Hp in Epool. destruct pre; discriminate Epool.
  - destruct (reroll_cases sid w') as (r & w2 & E & Hnone & _).
    exists w2. rewrite E. now rewrite (Hnone Hp).
  - intros mid m item Hm Hn.
    assert (Hf : find (member_is sid mid) (members (db w')) = Some (fresh_member m)).
    { subst w'. cbn [db members]. exact (find_fresh_member _ _ _ _ Hm). }
    rewrite add_item_run, Hf. cbn [is_observer is_ready items fresh_member app].
    destruct (is_empty (str_strip item)) eqn:Ee.
    { apply is_empty_nil in Ee. destruct Hn.
      now rewrite <- normalize_item_strip, Ee. }
    destruct (is_duplicate_item (str_strip item) []) eqn:Ed.
    { apply is_duplicate_item_strip in Ed as [Ed|(it & [] & _)]. contradiction. }
    eauto.
Qed.

(** ** Session codes *)

Lemma after_draws_db k : forall w, db (after_draws k w) = db w.
Proof. induction k as [|k IH]; intros w; [reflexivity|]. cbn. now rewrite IH. Qed.

Lemma string_get_chars i s c : String.get i s = Some c -> In c (chars_of s).
Proof.
  revert i. induction s as [|a s IH]; intros i; [discriminate|].
  destruct i as [|i]; cbn.
  - intros [= ->]. now left.
  - intros H. right. exact (IH i H).
Qed.

Lemma string_get_in_range i s :
  (i < String.length s)%nat -> exists c, String.get i s = Some c.
Proof.
  revert i. induction s as [|a s IH]; intros i H; cbn in H; [lia|].
  destruct i as [|i]; cbn; [eauto|]. apply IH. lia.
Qed.

Lemma random_choices_outcome population k : forall w,
  population <> EmptyString ->
  exists code,
    random_choices population k w = (Ok code, after_draws k w) /\
    String.length code = k /\
    forall c, In c (chars_of code) -> In c (chars_of population).
Proof.
  induction k as [|k IH]; intros w Hne.
  - exists EmptyString. repeat split. intros c [].
  - cbn [random_choices after_draws].
    assert (Hlen : 0 < Z.of_nat (String.length population)).
    { destruct population; [congruence|]. cbn [String.length]. lia. }
    pose proof (Z.mod_pos_bound (entropy w (draws w)) _ Hlen) as Hi.
    destruct (string_get_in_range
                (Z.to_nat (entropy w (draws w) mod Z.of_nat (String.length population)))
                population ltac:(lia)) as (c & Hc).
    rewrite Hc. destruct (IH (after_draw w) Hne) as (code & E & Hl & Hin).
    unfold bind. rewrite E. exists (String c code). split; [reflexivity|].
    split; [cbn; now rewrite Hl|].
    intros c' [<-|Hc']; [exact (string_get_chars _ _ _ Hc)|auto].
Qed.

Lemma after_draws_clock k : forall w,
  clock (after_draws k w) = clock w /\ ticks (after_draws k w) = ticks w.
Proof.
  induction k as [|k IH]; intros w; [split; reflexivity|].
  cbn [after_draws]. destruct (IH (after_draw w)) as [-> ->]. split; reflexivity.
Qed.

Lemma after_draws_add a b w : after_draws a (after_draws b w) = after_draws (b + a) w.
Proof.
  revert w. induction b as [|b IH]; intros w; [reflexivity|]. cbn. apply IH.
Qed.

Lemma generate_session_code_outcome fuel : forall w,
  exists r k,
    generate_session_code fuel w = (Ok r, after_draws k w) /\
    forall code, r = Some code ->
      String.length code = 6%nat /\
      (forall c, In c (chars_of code) -> In c (chars_of SESSION_CODE_CHARS)) /\
      find (session_is code) (sessions (db w)) = None.
Proof.
  induction fuel as [|fuel IH]; intros w.
  - exists None, O. split; [reflexivity|]. intros c [=].
  - cbn [generate_session_code].
    destruct (random_choices_outcome SESSION_CODE_CHARS SESSION_CODE_LENGTH w
                ltac:(discriminate)) as (code & E & Hl & Hin).
    unfold bind at 1. rewrite E.
    cbv beta iota delta [session_exists bind get_db ret].
    rewrite after_draws_db.
    destruct (find (session_is code) (sessions (db w))) eqn:Hf; cbn [negb].
    + destruct (IH (after_draws SESSION_CODE_LENGTH w)) as (r & k & E' & Hr).
      exists r, (SESSION_CODE_LENGTH + k)%nat. rewrite <- after_draws_add.
      split; [exact E'|]. now rewrite after_draws_db in Hr.
    + exists (Some code), SESSION_CODE_LENGTH. split; [reflexivity|].
      intros c [= <-]. repeat split; assumption.
Qed.

Lemma after_draws_entropy k : forall w,
  entropy (after_draws k w) = entropy w /\ draws (after_draws k w) = (draws w + k)%nat.
Proof.
  induction k as [|k IH]; intros w; [split; [reflexivity|cbn; lia]|].
  cbn [after_draws]. destruct (IH (after_draw w)) as [-> ->]. split; [reflexivity|].
  cbn [after_draw draws]. lia.
Qed.

Lemma random_choices_code k : forall w,
  random_choices SESSION_CODE_CHARS k w
  = (Ok (code_from (entropy w) (draws w) k), after_draws k w).
Proof.
  induction k as [|k IH]; intros w; [reflexivity|].
  cbn [random_choices after_draws code_from]. unfold code_char.
  assert (Hlen : 0 < Z.of_nat (String.length SESSION_CODE_CHARS)) by (cbn; lia).
  pose proof (Z.mod_pos_bound (entropy w (draws w)) _ Hlen) as Hi.
  destruct (string_get_in_range
              (Z.to_nat (entropy w (draws w)
                         mod Z.of_nat (String.length SESSION_CODE_CHARS)))
              SESSION_CODE_CHARS ltac:(lia)) as (c & Hc).
  rewrite Hc. unfold bind. rewrite IH. reflexivity.
Qed.

Lemma candidate_shift w j :
  candidate (after_draws SESSION_CODE_LENGTH w) j = candidate w (S j).
Proof.
  unfold candidate. destruct (after_draws_entropy SESSION_CODE_LENGTH w) as [-> ->].
  f_equal. lia.
Qed.

Lemma generate_session_code_step fuel w :
  generate_session_code (S fuel) w =
  if taken w (candidate w 0)
  then generate_session_code fuel (after_draws SESSION_CODE_LENGTH w)
  else (Ok (Some (candidate w 0)), after_draws SESSION_CODE_LENGTH w).
Proof.
  cbn [generate_session_code]. unfold bind at 1. rewrite random_choices_code.
  cbv beta iota delta [session_exists bind get_db ret].
  rewrite after_draws_db. unfold taken, candidate.
  replace (draws w + 0 * SESSION_CODE_LENGTH)%nat with (draws w) by lia.
  rewrite existsb_find.
  destruct (find (session_is _) (sessions (db w))); reflexivity.
Qed.

(** The loop returns the first candidate that is free, after drawing the
    ones before it. *)
Lemma generate_session_code_first_free j : forall fuel w,
  (j < fuel)%nat ->
  (forall i, (i < j)%nat -> taken w (candidate w i) = true) ->
  taken w (candidate w j) = false ->
  generate_session_code fuel w
  = (Ok (Some (candidate w j)), after_draws (S j * SESSION_CODE_LENGTH) w).
Proof.
  induction j as [|j IH]; intros fuel w Hj Hbefore Hfree;
    (destruct fuel as [|fuel]; [lia|]); rewrite generate_session_code_step.
  - rewrite Hfree. reflexivity.
  - rewrite (Hbefore O) by lia.
    rewrite (IH fuel (after_draws SESSION_CODE_LENGTH w)).
    + rewrite candidate_shift, after_draws_add. reflexivity.
    + lia.
    + intros i Hi. rewrite candidate_shift. unfold taken. rewrite after_draws_db.
      apply (Hbefore (S i)). lia.
    + rewrite candidate_shift. unfold taken. rewrite after_draws_db. exact Hfree.
Qed.

Lemma generate_session_code_all_taken fuel : forall w,
  (forall i, (i < fuel)%nat -> taken w (candidate w i) = true) ->
  generate_session_code fuel w = (Ok None, after_draws (fuel * SESSION_CODE_LENGTH) w).
Proof.
  induction fuel as [|fuel IH]; intros w Hall; [reflexivity|].
  rewrite generate_session_code_step, (Hall O) by lia.
  rewrite IH.
  - rewrite after_draws_add. reflexivity.
  - intros i Hi. rewrite candidate_shift. unfold taken. rewrite after_draws_db.
    apply (Hall (S i)). lia.
Qed.

(** X17: [create_session] with the search for a code bounded by [fuel]
    candidates.  The loop draws six characters at a time and returns the
    first candidate that is not the id of a session, however many taken
    ones come before it; it gives up only when all [fuel] candidates are
    taken.  With the first free candidate the session is created, unless a
    member row of the caller under that code is already there, and then
    nothing is created.  A code returned has 6 characters of the alphabet
    "23456789ABCDEFGHJKMNPQRSTUVWXYZ", was not the id of any session, and
    now names a session in phase "adding" created by the caller, who is its
    creator and an active member of it.  When no code is returned the store
    is unchanged.  One candidate is enough when the first code drawn is
    free: in a store without rows the call succeeds for every [fuel] above
    zero. *)
Theorem create_session_outcome fuel creator w :
  exists r w',
    create_session fuel creator w = (Ok r, w') /\
    (forall code, r = Some (Some code) ->
       String.length code = 6%nat /\
       (forall c, In c (chars_of code) -> In c (chars_of SESSION_CODE_CHARS)) /\
       find (session_is code) (sessions (db w)) = None /\
       (exists s, fst (get_session code w') = Ok (Some s) /\
                  phase s = PHASE_ADDING /\ creator_id s = creator /\
                  excluded_items s = [] /\ restart_votes s = []) /\
       fst (is_creator code creator w') = Ok true /\
       fst (get_active_members code w')
       = Ok (active_members code (db w)
             ++ [mkMember code creator [] false [] false (clock w (ticks w))])) /\
    (r = None \/ r = Some None -> db w' = db w) /\
    (sessions (db w) = [] -> members (db w) = [] -> fuel <> O ->
     exists code, r = Some (Some code)) /\
    (forall j, (j < fuel)%nat ->
       (forall i, (i < j)%nat -> taken w (candidate w i) = true) ->
       taken w (candidate w j) = false ->
       r = (if existsb (member_is (candidate w j) creator) (members (db w))
            then Some None else Some (Some (candidate w j))) /\
       draws w' = (draws w + S j * SESSION_CODE_LENGTH)%nat) /\
    ((forall i, (i < fuel)%nat -> taken w (candidate w i) = true) <-> r = None).
Proof.
  unfold create_session.
  destruct (generate_session_code_outcome fuel w) as (g & k & E & Hg).
  unfold bind at 1. rewrite E.
  pose proof (after_draws_db k w) as Hdb.
  destruct (after_draws_clock k w) as [Hclock Hticks].
  assert (Hfirst : sessions (db w) = [] -> fuel <> O -> exists code, g = Some code).
  { intros Hs Hfuel. destruct fuel as [|fuel]; [congruence|].
    rewrite generate_session_code_step in E. unfold taken in E. rewrite Hs in E.
    cbn [existsb] in E. injection E as <- _. eauto. }
  assert (Hfree : forall j, (j < fuel)%nat ->
            (forall i, (i < j)%nat -> taken w (candidate w i) = true) ->
            taken w (candidate w j) = false ->
            g = Some (candidate w j) /\
            draws (after_draws k w) = (draws w + S j * SESSION_CODE_LENGTH)%nat).
  { intros j Hj Hb Hf.
    rewrite (generate_session_code_first_free j fuel w Hj Hb Hf) in E.
    injection E as <- <-. split; [reflexivity|].
    apply (after_draws_entropy (S j * SESSION_CODE_LENGTH) w). }
  assert (Hnone : (forall i, (i < fuel)%nat -> taken w (candidate w i) = true)
                  <-> g = None).
  { split.
    - intros Hall. rewrite (generate_session_code_all_taken fuel w Hall) in E.
      now injection E as <- _.
    - intros -> i Hi.
      assert (Hex : (exists j, (j <= i)%nat /\ taken w (candidate w j) = false /\
                       forall i', (i' < j)%nat -> taken w (candidate w i') = true) \/
                    (taken w (candidate w i) = true /\
                     forall i', (i' < i)%nat -> taken w (candidate w i') = true)).
      { clear. induction i as [|i IH].
        - destruct (taken w (candidate w 0)) eqn:T.
          + right. split; [reflexivity|]. intros i' Hi'. lia.
          + left. exists O. split; [lia|]. split; [exact T|]. intros i' Hi'. lia.
        - destruct IH as [(j & Hj & Hf & Hb)|[Ht Hb]].
          + left. exists j. split; [lia|]. split; assumption.
          + destruct (taken w (candidate w (S i))) eqn:T.
            * right. split; [reflexivity|]. intros i' Hi'.
              destruct (Nat.eq_dec i' i) as [->|Hne]; [exact Ht|apply Hb; lia].
            * left. exists (S i). split; [lia|]. split; [exact T|].
              intros i' Hi'.
              destruct (Nat.eq_dec i' i) as [->|Hne]; [exact Ht|apply Hb; lia]. }
      destruct Hex as [(j & Hj & Hf & Hb)|[Ht _]]; [|exact Ht].
      destruct (Hfree j ltac:(lia) Hb Hf) as [[=] _]. }
  destruct g as [code|].
  2:{ eexists. eexists. split; [reflexivity|]. split; [intros c [=]|].
      split; [intros _; exact Hdb|]. split; [|split].
      - intros Hs _ Hfuel. destruct (Hfirst Hs Hfuel) as (c & [=]).
      - intros j Hj Hb Hf. destruct (Hfree j Hj Hb Hf) as [[=] _].
      - split; [reflexivity|]. intros _. now apply Hnone. }
  destruct (Hg code eq_refl) as (Hl & Hc & Hfr).
  destruct (db_create_session_cases code creator (after_draws k w))
    as (created & w2 & Ec & Hiff & Hfail & Hok).
  assert (Hdraws : draws w2 = draws (after_draws k w)).
  { rewrite db_create_session_run in Ec.
    destruct (existsb _ _ || existsb _ _); injection Ec as _ <-; reflexivity. }
  assert (Hcreated : created = negb (existsb (member_is code creator) (members (db w)))).
  { rewrite existsb_find. rewrite Hdb in Hiff.
    destruct created.
    - destruct (proj1 Hiff eq_refl) as [_ ->]. reflexivity.
    - destruct (find (member_is code creator) (members (db w))); [reflexivity|].
      assert (Ht : false = true); [|discriminate Ht].
      apply Hiff. split; [exact Hfr|reflexivity]. }
  unfold bind at 1. rewrite Ec. destruct created.
  - eexists. eexists. split; [reflexivity|]. specialize (Hok eq_refl). cbv zeta in Hok.
    destruct Hok as (Hs & Hm & Hgs & _ & Hic). split; [|split; [|split; [|split]]].
    + intros c [= <-]. split; [exact Hl|]. split; [exact Hc|]. split; [exact Hfr|].
      split; [eexists; split; [exact Hgs|repeat split]|]. split; [exact Hic|].
      cbv beta iota delta [get_active_members get_all_members bind get_db ret].
      cbn [fst]. rewrite Hm, Hdb, Hclock, Hticks. f_equal.
      unfold active_members. rewrite List.filter_app. cbn [List.filter].
      replace (in_session code
                 (mkMember code creator [] false [] false (clock w (ticks w))))
        with true by (unfold in_session; cbn; now rewrite String.eqb_refl).
      now rewrite List.filter_app.
    + intros [[=]|[=]].
    + eauto.
    + intros j Hj Hb Hf. destruct (Hfree j Hj Hb Hf) as [[= <-] Hd].
      split; [|now rewrite Hdraws].
      now destruct (existsb (member_is code creator) (members (db w))).
    + split; [|intros [=]]. intros Hall. apply Hnone in Hall. discriminate.
  - eexists. eexists. split; [reflexivity|]. split; [intros c [=]|].
    split; [|split; [|split]].
    + intros _. rewrite (Hfail eq_refl). exact Hdb.
    + intros Hs Hmem _. exfalso.
      assert (Ht : false = true); [|discriminate Ht].
      apply Hiff. rewrite Hdb, Hs, Hmem. split; reflexivity.
    + intros j Hj Hb Hf. destruct (Hfree j Hj Hb Hf) as [[= <-] Hd].
      split; [|now rewrite Hdraws].
      now destruct (existsb (member_is code creator) (members (db w))).
    + split; [|intros [=]]. intros Hall. apply Hnone in Hall. discriminate.
Qed.

Lemma create_session_outcome_witness :
  fst (create_session 2 "alice" collision_world) = Ok (Some (Some "333333"%string)).
Proof.
  destruct (create_session_outcome 2 "alice" collision_world)
    as (r & w' & E & _ & _ & _ & H & _).
  rewrite E. cbn [fst]. f_equal.
  apply (H 1%nat).
  - lia.
  - intros i Hi. assert (i = O) as -> by lia. reflexivity.
  - reflexivity.
Defined.

(** ** The keys of the store *)

Lemma same_keys_unique d d' : same_keys d d' -> keys_unique d -> keys_unique d'.
Proof. intros [E1 E2] [H1 H2]. split; congruence. Qed.

Lemma same_keys_refl d : same_keys d d.
Proof. split; reflexivity. Qed.

Lemma same_keys_trans d1 d2 d3 : same_keys d1 d2 -> same_keys d2 d3 -> same_keys d1 d3.
Proof. intros [A1 A2] [B1 B2]. split; congruence. Qed.

Lemma update_where_keys {R K} (key : R -> K) (cond : R -> bool) (upd : R -> R) rows :
  (forall r, key (upd r) = key r) ->
  map key (update_where cond upd rows) = map key rows.
Proof.
  intros Hk. unfold update_where. rewrite map_map. apply map_ext.
  intros r. destruct (cond r); [apply Hk|reflexivity].
Qed.

Lemma Forall2_keys {R K} (key : R -> K) (P : R -> R -> Prop) l l' :
  (forall x y, P x y -> key y = key x) -> Forall2 P l l' -> map key l' = map key l.
Proof.
  intros Hk H. induction H as [|x y l l' Hxy _ IH]; [reflexivity|].
  cbn [map]. now rewrite IH, (Hk _ _ Hxy).
Qed.

Lemma delete_where_nodup {R K} (key : R -> K) (cond : R -> bool) rows :
  List.NoDup (map key rows) -> List.NoDup (map key (delete_where cond rows)).
Proof.
  unfold delete_where. induction rows as [|r rows IH]; [intros H; exact H|].
  cbn [map List.filter]. intros H. apply List.NoDup_cons_iff in H as [Hr Hrows].
  destruct (negb (cond r)); [|auto]. cbn [map]. constructor; [|auto].
  intros Hin. apply Hr. apply in_map_iff in Hin as (x & E & Hx).
  apply filter_In in Hx as [Hx _]. apply in_map_iff. eauto.
Qed.

Lemma snoc_nodup {K} (l : list K) (k : K) :
  List.NoDup l -> ~ In k l -> List.NoDup (l ++ [k]).
Proof.
  intros Hl Hk. apply List.NoDup_app; [exact Hl|repeat constructor; intros []|].
  intros a Ha [<-|[]]. exact (Hk Ha).
Qed.

Lemma find_none_session_key sid ss :
  find (session_is sid) ss = None -> ~ In sid (map session_id ss).
Proof.
  intros Hf Hin. apply in_map_iff in Hin as (s & E & Hs).
  pose proof (find_none _ _ Hf s Hs) as Hn. unfold session_is in Hn.
  rewrite E, String.eqb_refl in Hn. discriminate Hn.
Qed.

Lemma find_none_member_key sid mid ms :
  find (member_is sid mid) ms = None -> ~ In (sid, mid) (map member_key ms).
Proof.
  intros Hf Hin. apply in_map_iff in Hin as (m & E & Hm).
  pose proof (find_none _ _ Hf m Hm) as Hn. unfold member_is in Hn.
  injection E as E1 E2. rewrite E1, E2, !String.eqb_refl in Hn. discriminate Hn.
Qed.

Lemma after_ready_loop_same_keys sid now ms w w' :
  after_ready_loop sid now ms w w' -> same_keys (db w) (db w').
Proof.
  intros (_ & _ & _ & Hs & Hm). split.
  - apply (Forall2_keys session_id session_touched); [|exact Hs].
    intros x y ->. reflexivity.
  - apply (Forall2_keys member_key (member_after_loop sid now ms)); [|exact Hm].
    intros x y ->. reflexivity.
Qed.

Lemma after_update_items_keys sid mid l w :
  same_keys (db w) (db (after_update_items sid mid l w)).
Proof.
  split; cbn [after_update_items db sessions members];
    apply update_where_keys; reflexivity.
Qed.

Lemma add_item_keys sid mid item w : same_keys (db w) (db (snd (add_item sid mid item w))).
Proof.
  rewrite add_item_run.
  destruct (is_empty (str_strip item)); [apply same_keys_refl|].
  destruct (find (member_is sid mid) (members (db w))) as [m|]; [|apply same_keys_refl].
  destruct (is_observer m); [apply same_keys_refl|].
  destruct (is_ready m); [apply same_keys_refl|].
  destruct (is_duplicate_item (str_strip item) (items m)); [apply same_keys_refl|].
  apply after_update_items_keys.
Qed.

Lemma remove_item_keys sid mid i w :
  same_keys (db w) (db (snd (remove_item sid mid i w))).
Proof.
  rewrite remove_item_run.
  destruct (find (member_is sid mid) (members (db w))) as [m|]; [|apply same_keys_refl].
  destruct (is_ready m); [apply same_keys_refl|].
  destruct ((i <? 0) || (i >=? Z.of_nat (length (items m)))); [apply same_keys_refl|].
  apply after_update_items_keys.
Qed.

Lemma set_ready_keys sid mid r w : same_keys (db w) (db (snd (set_ready sid mid r w))).
Proof.
  rewrite set_ready_run.
  destruct (find (member_is sid mid) (members (db w))) as [m|]; [|apply same_keys_refl].
  destruct (is_observer m); [apply same_keys_refl|].
  split; cbn; apply update_where_keys; reflexivity.
Qed.

Lemma set_accepted_items_keys sid mid l w :
  same_keys (db w) (db (snd (set_accepted_items sid mid l w))).
Proof.
  rewrite set_accepted_items_run.
  destruct (find (member_is sid mid) (members (db w))) as [m|]; [|apply same_keys_refl].
  destruct (is_observer m); [apply same_keys_refl|].
  split; cbn; apply update_where_keys; reflexivity.
Qed.

Lemma after_set_phase_keys sid p w : same_keys (db w) (db (after_set_phase sid p w)).
Proof.
  split; cbn [after_set_phase db sessions members];
    [apply update_where_keys|]; reflexivity.
Qed.

Lemma check_and_advance_phase_keys sid w :
  same_keys (db w) (db (snd (check_and_advance_phase sid w))).
Proof.
  destruct (get_ready_status_run sid w) as (w1 & E & H).
  rewrite (check_and_advance_phase_run _ _ _ _ E).
  pose proof (after_ready_loop_same_keys _ _ _ _ _ H) as H1.
  destruct (find (session_is sid) (sessions (db w))) as [s|]; [|apply same_keys_refl].
  destruct (negb _); [exact H1|].
  destruct (String.eqb (phase s) PHASE_ADDING).
  { eapply same_keys_trans; [exact H1|]. cbn [snd].
    eapply same_keys_trans; [|apply after_set_phase_keys].
    split; cbn [after_reset_ready db sessions members];
      [|apply update_where_keys]; reflexivity. }
  destruct (String.eqb (phase s) PHASE_ACCEPTING); [|exact H1].
  eapply same_keys_trans; [exact H1|apply after_set_phase_keys].
Qed.

Lemma vote_restart_keys sid mid w :
  same_keys (db w) (db (snd (vote_restart sid mid w))).
Proof.
  rewrite vote_restart_run. cbn [snd]. unfold after_vote.
  destruct (negb _); [|apply same_keys_refl].
  split; cbn [db sessions members]; [apply update_where_keys|]; reflexivity.
Qed.

Lemma start_fresh_keys sid w : same_keys (db w) (db (snd (start_fresh sid w))).
Proof.
  rewrite start_fresh_run. split; cbn [snd db sessions members]; rewrite map_map;
    apply map_ext; intros r.
  - destruct (session_is sid r); reflexivity.
  - destruct (in_session sid r); reflexivity.
Qed.

Lemma after_clear_excluded_keys sid w :
  same_keys (db w) (db (after_clear_excluded sid w)).
Proof.
  split; cbn [after_clear_excluded db sessions members];
    [apply update_where_keys|]; reflexivity.
Qed.

Lemma reroll_keys sid w : same_keys (db w) (db (snd (reroll sid w))).
Proof.
  destruct (reroll_cases sid w) as (r & w' & E & _ & [H|H]);
    rewrite E; cbn [snd]; rewrite H;
    [apply same_keys_refl|apply after_clear_excluded_keys].
Qed.

Lemma exclude_current_keys sid item w :
  same_keys (db w) (db (snd (exclude_current sid item w))).
Proof.
  cbv beta iota delta [exclude_current bind get_excluded_items get_db ret].
  destruct (negb _); [|apply same_keys_refl].
  split; cbn; [apply update_where_keys|]; reflexivity.
Qed.

Lemma roll_next_keys sid item w :
  same_keys (db w) (db (snd (roll_next sid item w))).
Proof.
  unfold roll_next, bind.
  pose proof (exclude_current_keys sid item w) as H1.
  destruct (exclude_current sid item w) as [[[]|e] w1] eqn:E; cbn [snd] in *;
    [|exact H1].
  eapply same_keys_trans; [exact H1|]. apply (reroll_keys sid w1).
Qed.

Lemma get_session_state_keys sid mid w :
  same_keys (db w) (db (snd (get_session_state sid mid w))).
Proof.
  destruct (get_session_state_cases sid mid w)
    as (r & w' & rs & w1 & Es & E & [Hdb|Hdb]);
    rewrite Es; cbn [snd]; rewrite Hdb; [apply same_keys_refl|].
  destruct (get_ready_status_run sid w) as (w1' & E' & Hl).
  rewrite E in E'. injection E' as _ <-.
  exact (after_ready_loop_same_keys _ _ _ _ _ Hl).
Qed.

Lemma db_create_session_keys sid creator w :
  keys_unique (db w) -> keys_unique (db (snd (db_create_session sid creator w))).
Proof.
  intros [H1 H2].
  destruct (db_create_session_cases sid creator w)
    as (created & w' & E & Hiff & Hfail & Hok).
  rewrite E. cbn [snd]. destruct created.
  - destruct (proj1 Hiff eq_refl) as [Hs Hm].
    destruct (Hok eq_refl) as (Es & Em & _). split.
    + rewrite Es, map_app. apply snoc_nodup; [exact H1|].
      now apply find_none_session_key.
    + rewrite Em, map_app. apply snoc_nodup; [exact H2|].
      now apply find_none_member_key.
  - rewrite (Hfail eq_refl). now split.
Qed.

Lemma join_session_keys upper code mid w :
  keys_unique (db w) -> keys_unique (db (snd (join_session upper code mid w))).
Proof.
  intros [H1 H2]. rewrite join_session_run.
  destruct (find (session_is (upper code)) (sessions (db w))) as [s|]; [|now split].
  destruct (find (member_is (upper code) mid) (members (db w))) as [m|] eqn:Hm.
  - apply (same_keys_unique (db w)); [|now split].
    split; cbn [snd after_rejoin db sessions members];
      [|apply update_where_keys]; reflexivity.
  - split; cbn [snd after_join db sessions members].
    + rewrite update_where_keys by reflexivity. exact H1.
    + rewrite map_app. apply snoc_nodup; [exact H2|].
      now apply find_none_member_key.
Qed.

(** X18: the store keeps its keys unique.  If no two session rows share
    an id and no two member rows share a (session, member) pair, the same
    holds after [create_session], [join_session], [add_item],
    [remove_item], [set_ready], [set_accepted_items],
    [check_and_advance_phase], [get_session_state], [reroll], [roll_next],
    [vote_restart], [start_fresh], [delete_session] and
    [cleanup_expired_sessions]: only the first two add rows, and only under
    a key that is free. *)
Theorem keys_unique_preserved w :
  keys_unique (db w) ->
  (forall fuel creator, keys_unique (db (snd (create_session fuel creator w)))) /\
  (forall upper code mid, keys_unique (db (snd (join_session upper code mid w)))) /\
  (forall sid mid item, keys_unique (db (snd (add_item sid mid item w)))) /\
  (forall sid mid i, keys_unique (db (snd (remove_item sid mid i w)))) /\
  (forall sid mid r, keys_unique (db (snd (set_ready sid mid r w)))) /\
  (forall sid mid l, keys_unique (db (snd (set_accepted_items sid mid l w)))) /\
  (forall sid, keys_unique (db (snd (check_and_advance_phase sid w)))) /\
  (forall sid mid, keys_unique (db (snd (get_session_state sid mid w)))) /\
  (forall sid, keys_unique (db (snd (reroll sid w)))) /\
  (forall sid item, keys_unique (db (snd (roll_next sid item w)))) /\
  (forall sid mid, keys_unique (db (snd (vote_restart sid mid w)))) /\
  (forall sid, keys_unique (db (snd (start_fresh sid w)))) /\
  (forall sid, keys_unique (db (snd (delete_session sid w)))) /\
  keys_unique (db (snd (cleanup_expired_sessions w))).
Proof.
  intros H.
  assert (Hsame : forall d', same_keys (db w) d' -> keys_unique d')
    by (intros d' Hd; exact (same_keys_unique _ _ Hd H)).
  repeat match goal with |- _ /\ _ => split end; intros.
  - unfold create_session, bind.
    destruct (generate_session_code_outcome fuel w) as (g & k & E & _).
    rewrite E. destruct g as [code|]; cbn [snd ret].
    + pose proof (db_create_session_keys code creator (after_draws k w)) as Hc.
      rewrite after_draws_db in Hc. specialize (Hc H).
      destruct (db_create_session code creator (after_draws k w)) as [[[]|e] w2];
        exact Hc.
    + now rewrite after_draws_db.
  - now apply join_session_keys.
  - apply Hsame, add_item_keys.
  - apply Hsame, remove_item_keys.
  - apply Hsame, set_ready_keys.
  - apply Hsame, set_accepted_items_keys.
  - apply Hsame, check_and_advance_phase_keys.
  - apply Hsame, get_session_state_keys.
  - apply Hsame, reroll_keys.
  - apply Hsame, roll_next_keys.
  - apply Hsame, vote_restart_keys.
  - apply Hsame, start_fresh_keys.
  - destruct H as [H1 H2]. rewrite delete_session_run.
    split; cbn [snd db sessions members]; now apply delete_where_nodup.
  - destruct H as [H1 H2]. rewrite cleanup_expired_sessions_run.
    split; cbn [snd db sessions members]; now apply delete_where_nodup.
Qed.

Lemma keys_unique_preserved_witness :
  keys_unique (db (snd (join_session ascii_upper "s" "B"
                          (demo_world PHASE_ADDING [demo_member "A" [] []])))).
Proof.
  apply keys_unique_preserved.
  split; cbn; repeat constructor; cbn; intuition congruence.
Defined.

(** ** Removing a member, and the creator's presence *)

(** X19: [remove_member] deletes the rows of that member and no other:
    the member is not found afterwards, every other member of any session is
    found as before, and a [join_session] of the removed member in an
    existing session is a first join, not a rejoin, so the items it had are
    gone. *)
Theorem remove_member_forgets sid mid w :
  exists w',
    remove_member sid mid w = (Ok tt, w') /\
    sessions (db w') = sessions (db w) /\
    members (db w') = delete_where (member_is sid mid) (members (db w)) /\
    fst (get_member sid mid w') = Ok None /\
    (forall sid' mid', (sid', mid') <> (sid, mid) ->
       fst (get_member sid' mid' w') = fst (get_member sid' mid' w)) /\
    (forall upper code s,
       upper code = sid -> find (session_is sid) (sessions (db w)) = Some s ->
       exists w2, join_session upper code mid w'
                  = (Ok (Joined false (negb (String.eqb (phase s) PHASE_ADDING))
                           (phase s)), w2) /\
                  fst (get_member sid mid w2)
                  = Ok (Some (mkMember sid mid [] false []
                                (negb (String.eqb (phase s) PHASE_ADDING))
                                (clock w (ticks w))))).
Proof.
  eexists. split; [reflexivity|]. cbn [db sessions members].
  split; [reflexivity|]. split; [reflexivity|].
  assert (Hnone : find (member_is sid mid)
                    (delete_where (member_is sid mid) (members (db w))) = None)
    by apply find_delete_where_self.
  split; [|split].
  - cbv beta iota delta [get_member bind get_db ret]. cbn [fst db members].
    now rewrite Hnone.
  - intros sid' mid' Hne.
    cbv beta iota delta [get_member bind get_db ret]. cbn [fst db members].
    rewrite find_delete_where_other; [reflexivity|].
    intros r Hr. unfold member_is in *. apply andb_true_iff in Hr as [Ha Hb].
    apply String.eqb_eq in Ha, Hb. apply not_true_iff_false. intros Hc.
    apply andb_true_iff in Hc as [Hc Hd]. apply String.eqb_eq in Hc, Hd.
    apply Hne. congruence.
  - intros upper code s Hu Hs. rewrite join_session_run, Hu. cbn [db sessions members].
    rewrite Hs, Hnone. eexists. split; [reflexivity|].
    cbv beta iota delta [get_member bind get_db ret after_join].
    cbn [fst db members clock ticks]. 
    now rewrite find_snoc, Hnone, member_is_refl.
Qed.

(** X20: the creator counts as connected for 30 seconds after a
    heartbeat.  Once the creator has refreshed [last_seen], the check
    [is_creator_connected] answers true exactly when it reads the clock less
    than 30 seconds later, and it writes nothing; without a session row or
    without a row for the creator it answers false. *)
Theorem creator_connected_after_heartbeat sid w :
  match find (session_is sid) (sessions (db w)) with
  | None => is_creator_connected sid w = (Ok false, w)
  | Some s =>
      match find (member_is sid (creator_id s)) (members (db w)) with
      | None => is_creator_connected sid w = (Ok false, w)
      | Some m =>
          let w1 := snd (update_member_last_seen sid (creator_id s) w) in
          exists w2,
            is_creator_connected sid w1
            = (Ok (clock w (S (ticks w)) - clock w (ticks w) <? 30), w2) /\
            db w2 = db w1
      end
  end.
Proof.
  destruct (find (session_is sid) (sessions (db w))) as [s|] eqn:Hs.
  2:{ cbv beta iota delta [is_creator_connected bind get_session get_db ret].
      now rewrite Hs. }
  destruct (find (member_is sid (creator_id s)) (members (db w))) as [m|] eqn:Hm.
  2:{ cbv beta iota delta [is_creator_connected bind get_session get_member get_db ret].
      now rewrite Hs, Hm. }
  cbv zeta.
  change (snd (update_member_last_seen sid (creator_id s) w))
    with (after_rejoin sid (creator_id s) w).
  cbv beta iota delta [is_creator_connected bind get_session get_member get_db ret
                         time_time after_rejoin].
  cbn [db sessions members clock ticks]. rewrite Hs. cbv beta.
  cbn [db sessions members clock ticks].
  erewrite find_some_update; [|reflexivity|exact Hm].
  eexists. split; reflexivity.
Qed.

(** ** The operations as their callers see them *)

(** X1: [database.create_session] succeeds exactly when neither the
    session id nor the (session, creator) pair is in the store; a failure
    leaves the store as it was; after a success the session is in phase
    "adding" with no excluded item and no vote, the creator has a member
    row under it, active, not ready and without items, [is_creator] answers
    true for the creator, and every row that was there is still there. *)
Theorem db_create_session_outcome sid creator w :
  exists created w',
    db_create_session sid creator w = (Ok created, w') /\
    (created = true <->
     find (session_is sid) (sessions (db w)) = None /\
     find (member_is sid creator) (members (db w)) = None) /\
    (created = false -> db w' = db w) /\
    (created = true ->
     let now := clock w (ticks w) in
     sessions (db w') = sessions (db w) ++ [mkSession sid creator "adding" now now [] []] /\
     members (db w') = members (db w) ++ [mkMember sid creator [] false [] false now] /\
     fst (get_session sid w') = Ok (Some (mkSession sid creator "adding" now now [] [])) /\
     fst (get_member sid creator w')
     = Ok (Some (mkMember sid creator [] false [] false now)) /\
     fst (is_creator sid creator w') = Ok true).
Proof.
  rewrite db_create_session_run, !existsb_find.
  destruct (find (session_is sid) (sessions (db w))) as [s|] eqn:Hs;
    [|destruct (find (member_is sid creator) (members (db w))) as [m|] eqn:Hm];
    cbn [orb]; eexists; eexists; (split; [reflexivity|]).
  - split; [intuition congruence|]. split; [reflexivity|intros [=]].
  - split; [intuition congruence|]. split; [reflexivity|intros [=]].
  - split; [tauto|]. split; [intros [=]|]. intros _.
    cbn [db sessions members]. split; [reflexivity|]. split; [reflexivity|].
    cbv beta iota delta [get_session get_member is_creator get_session_creator
                           bind get_db ret].
    cbn [fst db sessions members].
    rewrite !find_snoc, Hs, Hm, session_is_refl, member_is_refl.
    cbn [creator_id]. rewrite String.eqb_refl. repeat split.
Qed.

Lemma db_create_session_outcome_witness :
  fst (is_creator "K7QM2X" "alice"
         (snd (db_create_session "K7QM2X" "alice" (demo_world "adding" []))))
  = Ok true.
Proof.
  destruct (db_create_session_outcome "K7QM2X" "alice" (demo_world "adding" []))
    as (created & w' & E & Hiff & _ & H).
  rewrite E. cbn [snd]. apply H. apply Hiff. split; reflexivity.
Defined.

(** X9: [get_all_items] reads only.  Its list is the list of the first
    occurrences of the items of the active members (observers are left out)
    taken in row order: an item is listed exactly when no item before it is
    equal to it after normalization, and the items listed keep the order of
    the rows.  So no two entries are equal after normalization, each entry
    is the first item with its key (the first spelling wins), and every item
    of an active member is equal after normalization to an entry. *)
Theorem get_all_items_first_seen sid w :
  exists shown,
    get_all_items sid w = (Ok shown, w) /\
    shown = first_occurrences [] (pooled_items (active_members sid (db w))) /\
    first_seen (pooled_items (active_members sid (db w))) shown.
Proof.
  exists (fold_left add_unique (pooled_items (active_members sid (db w))) []).
  split; [|split].
  - cbv beta iota delta [get_all_items get_active_members get_all_members bind
                           get_db ret].
    fold (active_members sid (db w)). now rewrite fold_members_pooled.
  - now rewrite (fold_add_unique_occurrences _ [] []).
  - apply (fold_add_unique_first_seen [] _ []), first_seen_nil.
Qed.

(** X15: [reroll] never raises: the two indices it draws are always in
    range.  It returns no item exactly when the active members have no item
    at all; otherwise it returns an item of an active member.  It never
    writes to the members; of the session it changes nothing, or, when every
    item was excluded, it empties the excluded list and draws from the whole
    pool.  An item drawn without that recycling is not excluded. *)
Theorem reroll_outcome sid w :
  exists r w',
    reroll sid w = (Ok r, w') /\
    members (db w') = members (db w) /\
    (r = None <-> pooled_items (active_members sid (db w)) = []) /\
    (forall it, r = Some it -> In it (pooled_items (active_members sid (db w)))) /\
    (db w' = db w \/
     (db w' = db (after_clear_excluded sid w) /\
      forall x, In x (pooled_items (active_members sid (db w))) ->
                is_excluded (stored_excluded sid (db w)) x = true)) /\
    (forall it, r = Some it -> db w' = db w ->
                is_excluded (stored_excluded sid (db w)) it = false).
Proof.
  unfold reroll. rewrite select_item_run, stored_excluded_cleared.
  set (ms := active_members sid (db w)). set (ex := stored_excluded sid (db w)).
  destruct (group_items_grouped ms ex) as (Hg1 & Hin1 & Hne1 & He1).
  destruct (group_items_grouped ms []) as (Hg2 & Hin2 & Hne2 & He2).
  destruct (is_empty (group_items ms ex)) eqn:E1.
  - assert (Hall : forall x, In x (pooled_items ms) -> is_excluded ex x = true).
    { intros x Hx. destruct (is_excluded ex x) eqn:Hex; [reflexivity|].
      apply is_empty_nil in E1. destruct Hne1; eauto. }
    destruct (is_empty (group_items ms [])) eqn:E2.
    + eexists. eexists. split; [reflexivity|]. split; [reflexivity|].
      split; [|split; [|split]].
      * split; [intros _|reflexivity].
        destruct (pooled_items ms) as [|x l] eqn:Hp; [reflexivity|].
        apply is_empty_nil in E2. destruct Hne2; [|exact E2].
        exists x. split; [now left|reflexivity].
      * intros it [=].
      * right. split; [reflexivity|exact Hall].
      * intros it [=].
    + apply is_empty_false in E2.
      destruct (pick_item_ok _ (after_clear_excluded sid w) E2
                  (fun K L H => proj1 (Hg2 K L H))) as (K & L & it & HKL & Hit & Ep).
      rewrite Ep. eexists. eexists. split; [reflexivity|]. split; [reflexivity|].
      split; [|split; [|split]].
      * split; [intros [=]|]. intros Hp. destruct (E2 (He2 Hp)).
      * intros it' [= <-]. exact (Hin2 K L it HKL Hit).
      * right. split; [reflexivity|exact Hall].
      * intros it' [= <-] Hdb. exfalso.
        pose proof (Hall it (Hin2 K L it HKL Hit)) as Hex.
        cbn [after_draw after_clear_excluded db] in Hdb.
        assert (Hs : stored_excluded sid (db w) = []).
        { rewrite <- Hdb. apply (stored_excluded_cleared sid w). }
        fold ex in Hs. rewrite Hs in Hex. discriminate Hex.
  - apply is_empty_false in E1.
    destruct (pick_item_ok _ w E1 (fun K L H => proj1 (Hg1 K L H)))
      as (K & L & it & HKL & Hit & Ep).
    rewrite Ep. eexists. eexists. split; [reflexivity|]. split; [reflexivity|].
    split; [|split; [|split]].
    + split; [intros [=]|]. intros Hp. destruct (E1 (He1 Hp)).
    + intros it' [= <-]. exact (Hin1 K L it HKL Hit).
    + left. reflexivity.
    + intros it' [= <-] _. destruct (Hg1 K L HKL) as [_ Hall].
      exact (proj1 (Hall it Hit)).
Qed.

(** X14: [get_session_state] answers with an error, changing nothing,
    when the session or the caller's row is missing.  Otherwise it runs the
    readiness check, so polling the state marks the members that timed out,
    and nothing else is written.  The counts reported are those of that
    check, while the caller's own flag, items and accepted items are the
    ones read before it: a caller that has just been marked by the timeout
    still sees its flag as it was stored before.  The list of all items is
    empty unless the phase read is "result", and then it is the list of the
    first occurrences of the active members' items in row order. *)
Theorem get_session_state_outcome sid mid w :
  match find (session_is sid) (sessions (db w)),
        find (member_is sid mid) (members (db w)) with
  | None, _ => get_session_state sid mid w = (Ok (inl "Session not found"%string), w)
  | Some _, None =>
      get_session_state sid mid w = (Ok (inl "Member not found"%string), w)
  | Some s, Some m =>
      exists rs w1 st w',
        get_ready_status sid w = (Ok rs, w1) /\
        get_session_state sid mid w = (Ok (inr st), w') /\
        db w' = db w1 /\
        st_phase st = phase s /\
        st_is_creator st = String.eqb (creator_id s) mid /\
        st_is_ready st = is_ready m /\
        st_my_items st = items m /\
        st_my_accepted_items st = accepted_items m /\
        st_is_observer st = is_observer m /\
        st_ready_count st = ready rs /\
        st_total_members st = total rs /\
        st_all_ready st = all_ready rs /\
        st_restart_votes st = length (restart_votes s) /\
        (if String.eqb (phase s) PHASE_RESULT
         then st_all_items st
              = first_occurrences [] (pooled_items (active_members sid (db w))) /\
              first_seen (pooled_items (active_members sid (db w))) (st_all_items st)
         else st_all_items st = []) /\
        (is_observer m = false -> is_ready m = false ->
         clock w (ticks w) - last_seen m > 120 ->
         st_is_ready st = false /\
         exists m', fst (get_member sid mid w') = Ok (Some m') /\ is_ready m' = true)
  end.
Proof.
  destruct (find (session_is sid) (sessions (db w))) as [s|] eqn:Hs.
  2:{ cbv beta iota delta [get_session_state bind get_session get_db ret].
      now rewrite Hs. }
  destruct (find (member_is sid mid) (members (db w))) as [m|] eqn:Hm.
  2:{ cbv beta iota delta [get_session_state bind get_session get_member get_db ret].
      now rewrite Hs, Hm. }
  destruct (get_ready_status_run sid w) as (w1 & E & H).
  destruct (is_creator_connected_db sid w1) as (b & w2 & Ec & Hdb).
  pose proof (after_ready_loop_pooled _ _ _ _ _ H) as Hpool.
  assert (Hstale : is_observer m = false -> is_ready m = false ->
            clock w (ticks w) - last_seen m > 120 ->
            is_ready m = false /\
            exists m', fst (get_member sid mid w2) = Ok (Some m') /\ is_ready m' = true).
  { intros Ho Hr Ht. split; [exact Hr|].
    pose proof (find_some _ _ Hm) as [Hin Hk].
    unfold member_is in Hk. apply andb_true_iff in Hk as [Hk1 Hk2].
    apply String.eqb_eq in Hk2.
    destruct (auto_readied_stored sid (clock w (ticks w)) w w1 m H) as (m' & Hg & Hr').
    - apply active_members_In. repeat split; assumption.
    - unfold auto_readied. rewrite Hr. cbn [negb andb]. apply Z.gtb_lt.
      change AUTO_READY_TIMEOUT with 120. lia.
    - exists m'. split; [|exact Hr']. rewrite Hk2 in Hg.
      cbv beta iota delta [get_member bind get_db ret] in *. cbn [fst] in *.
      now rewrite Hdb. }
  destruct H as (_ & _ & _ & Hss & _).
  destruct (find_Forall2 session_touched (session_is sid)
              (sessions (db w)) (sessions (db w1)) s) as (s1 & Hs1 & Hst);
    [intros x y ->; reflexivity|exact Hss|exact Hs|].
  remember (get_session_state sid mid w) as R eqn:ER.
  cbv beta iota delta [get_session_state bind get_session get_member get_db ret
                         get_active_members get_all_members] in ER.
  rewrite Hs, Hm, E, is_creator_run, Ec in ER.
  cbv beta iota delta [get_restart_votes bind get_db ret] in ER.
  rewrite Hdb, Hs1 in ER.
  assert (Hc : creator_id s1 = creator_id s /\ restart_votes s1 = restart_votes s)
    by (rewrite Hst; split; reflexivity).
  destruct Hc as [Hc Hv]. rewrite Hc, Hv in ER.
  destruct (String.eqb (phase s) PHASE_RESULT) eqn:Hp.
  - rewrite get_all_items_occurrences, Hdb, Hpool in ER. subst R.
    eexists. exists w1. eexists. eexists. split; [exact E|]. split; [reflexivity|].
    cbn. repeat match goal with |- _ /\ _ => split end;
      try reflexivity; try assumption.
    apply first_occurrences_first_seen.
  - subst R.
    eexists. exists w1. eexists. eexists. split; [exact E|]. split; [reflexivity|].
    cbn. repeat match goal with |- _ /\ _ => split end;
      try reflexivity; try assumption.
Qed.

(** ** The readiness barrier *)

Lemma filter_update_where {R} (f cond : R -> bool) (upd : R -> R) rows :
  (forall r, f (upd r) = f r) ->
  List.filter f (update_where cond upd rows) = update_where cond upd (List.filter f rows).
Proof.
  intros Hf. induction rows as [|r rows IH]; [reflexivity|].
  cbn [update_where map List.filter].
  replace (f (if cond r then upd r else r)) with (f r)
    by (destruct (cond r); [symmetry; apply Hf|reflexivity]).
  destruct (f r); [cbn [map]; f_equal|]; exact IH.
Qed.

Lemma active_members_after_set_ready sid mid r w :
  active_members sid (db (after_set_ready sid mid r w))
  = update_where (member_is sid mid) (with_ready r (clock w (ticks w)))
      (active_members sid (db w)).
Proof.
  unfold active_members. cbn [after_set_ready db members].
  now rewrite !filter_update_where by reflexivity.
Qed.

Lemma set_ready_active sid mid r w m :
  find (member_is sid mid) (members (db w)) = Some m -> is_observer m = false ->
  set_ready sid mid r w = (Ok None, after_set_ready sid mid r w).
Proof. intros Hm Ho. rewrite set_ready_run, Hm, Ho. reflexivity. Qed.

(** X21: the readiness barrier, seen from the member who sets the flag
    and then asks for the phase to advance (the clock is read twice by
    [set_ready], then once by the check).  In a session in phase "adding",
    when every other active member is marked ready, the flag of this member
    completes the barrier: the phase becomes "accepting" and every active
    member's flag is reset.  When some other active member is neither
    marked ready nor unseen for more than 2 minutes at the check, the check
    returns none and the phase stays what it was. *)
Theorem last_ready_opens_barrier sid mid w s m :
  find (session_is sid) (sessions (db w)) = Some s ->
  find (member_is sid mid) (members (db w)) = Some m ->
  is_observer m = false ->
  let w1 := after_set_ready sid mid true w in
  set_ready sid mid true w = (Ok None, w1) /\
  (phase s = PHASE_ADDING ->
   (forall r, In r (active_members sid (db w)) -> member_id r <> mid ->
              is_ready r = true) ->
   exists w2,
     check_and_advance_phase sid w1 = (Ok (Some PHASE_ACCEPTING), w2) /\
     (forall r, In r (active_members sid (db w2)) -> is_ready r = false) /\
     (exists s2, fst (get_session sid w2) = Ok (Some s2) /\
                 phase s2 = PHASE_ACCEPTING)) /\
  (forall r, In r (active_members sid (db w)) -> member_id r <> mid ->
     is_ready r = false ->
     clock w (S (S (ticks w))) - last_seen r <= AUTO_READY_TIMEOUT ->
     exists w2,
       check_and_advance_phase sid w1 = (Ok None, w2) /\
       map phase (sessions (db w2)) = map phase (sessions (db w))).
Proof.
  intros Hs Hm Ho w1. split; [exact (set_ready_active _ _ _ _ _ Hm Ho)|].
  destruct (get_ready_status_run sid w1) as (w2 & E & Hloop).
  pose proof (check_and_advance_phase_run sid w1 _ w2 E) as Hrun.
  assert (Hs1 : find (session_is sid) (sessions (db w1))
                = Some (with_last_activity (clock w (S (ticks w))) s)).
  { subst w1. cbn [after_set_ready db sessions].
    erewrite find_some_update; [reflexivity|reflexivity|exact Hs]. }
  rewrite Hs1 in Hrun. cbn [phase with_last_activity all_ready] in Hrun.
  assert (Hact : active_members sid (db w1)
                 = update_where (member_is sid mid) (with_ready true (clock w (ticks w)))
                     (active_members sid (db w)))
    by apply active_members_after_set_ready.
  assert (Hnow : clock w1 (ticks w1) = clock w (S (S (ticks w)))) by reflexivity.
  assert (Hmin : In m (active_members sid (db w))).
  { apply active_members_In. pose proof (find_some _ _ Hm) as [Hin Hk].
    unfold member_is in Hk. apply andb_true_iff in Hk as [Hk _].
    repeat split; assumption. }
  split.
  - intros Hph Hall.
    assert (Hcount : List.filter (counted_ready (clock w1 (ticks w1)))
                       (active_members sid (db w1)) = active_members sid (db w1)).
    { apply filter_all, forallb_forall. intros r Hr. rewrite Hact in Hr.
      unfold update_where in Hr. apply in_map_iff in Hr as (r0 & <- & Hr0).
      unfold counted_ready. destruct (member_is sid mid r0) eqn:Hk; [reflexivity|].
      rewrite Hall; [reflexivity|exact Hr0|].
      intros Hid. apply active_members_In in Hr0 as (_ & Hs0 & _).
      unfold member_is in Hk. unfold in_session in Hs0.
      rewrite Hs0, Hid, String.eqb_refl in Hk. discriminate Hk. }
    rewrite Hcount, Nat.eqb_refl in Hrun.
    assert (Hpos : (0 <? length (active_members sid (db w1)))%nat = true).
    { apply Nat.ltb_lt. rewrite Hact. unfold update_where. rewrite length_map.
      destruct (active_members sid (db w)); [destruct Hmin|cbn; lia]. }
    rewrite Hpos, Hph, String.eqb_refl in Hrun. cbn [andb negb] in Hrun.
    eexists. split; [exact Hrun|]. split.
    + intros r Hr. apply active_members_In in Hr as (Hr & Hsr & _).
      cbn [after_set_phase after_reset_ready db members] in Hr.
      exact (reset_ready_session _ _ _ Hr Hsr).
    + destruct Hloop as (_ & _ & _ & Hss & _).
      destruct (find_Forall2 session_touched (session_is sid)
                  (sessions (db w1)) (sessions (db w2))
                  (with_last_activity (clock w (S (ticks w))) s))
        as (s2 & Hs2 & _); [intros x y ->; reflexivity|exact Hss|exact Hs1|].
      eexists. split.
      * cbv beta iota delta [get_session bind get_db ret].
        cbn [fst after_set_phase after_reset_ready db sessions].
        erewrite find_some_update; [reflexivity|reflexivity|exact Hs2].
      * reflexivity.
  - intros r Hr Hid Hnr Hseen.
    assert (Hr1 : In r (active_members sid (db w1))).
    { rewrite Hact. unfold update_where. apply in_map_iff. exists r.
      split; [|exact Hr].
      replace (member_is sid mid r) with false; [reflexivity|].
      symmetry. unfold member_is. apply andb_false_iff. right.
      now apply String.eqb_neq. }
    assert (Hnc : counted_ready (clock w1 (ticks w1)) r = false).
    { unfold counted_ready. rewrite Hnr, Hnow. cbn [orb].
      apply not_true_iff_false. intros Hgt. apply Z.gtb_lt in Hgt. lia. }
    assert (Hneq : (length (List.filter (counted_ready (clock w1 (ticks w1)))
                             (active_members sid (db w1)))
                    =? length (active_members sid (db w1)))%nat = false).
    { apply Nat.eqb_neq. intros Heq.
      pose proof (filter_length_all _ _ Heq r Hr1). congruence. }
    rewrite Hneq in Hrun. cbn [andb negb] in Hrun.
    exists w2. split; [exact Hrun|].
    destruct (after_ready_loop_phases _ _ _ _ _ Hloop) as [Hp _]. rewrite Hp.
    subst w1. cbn [after_set_ready db sessions]. unfold update_where.
    rewrite map_map. apply map_ext. intros x. destruct (session_is sid x); reflexivity.
Qed.

Lemma last_ready_opens_barrier_witness :
  exists w2,
    check_and_advance_phase "S"
      (after_set_ready "S" "A" true
         (demo_world PHASE_ADDING
            [demo_member_seen "A" false 990; demo_member_seen "B" true 990]))
    = (Ok (Some PHASE_ACCEPTING), w2) /\
    (forall r, In r (active_members "S" (db w2)) -> is_ready r = false) /\
    (exists s2, fst (get_session "S" w2) = Ok (Some s2) /\ phase s2 = PHASE_ACCEPTING).
Proof.
  destruct (last_ready_opens_barrier "S" "A"
              (demo_world PHASE_ADDING
                 [demo_member_seen "A" false 990; demo_member_seen "B" true 990])
              (demo_session PHASE_ADDING) (demo_member_seen "A" false 990)
              eq_refl eq_refl eq_refl) as (_ & H & _).
  apply H; [reflexivity|].
  intros r [<-|[<-|[]]] Hid; [exfalso; apply Hid; reflexivity|reflexivity].
Defined.

(** ** Rolling on *)

Lemma exclude_current_run sid cur w :
  exclude_current sid cur w = (Ok tt, after_exclude sid cur w).
Proof.
  cbv beta iota delta [exclude_current bind get_excluded_items get_db ret].
  unfold after_exclude, is_excluded, stored_excluded.
  destruct (existsb _ _); reflexivity.
Qed.

Lemma stored_excluded_after_exclude sid cur w s :
  find (session_is sid) (sessions (db w)) = Some s ->
  stored_excluded sid (db (after_exclude sid cur w))
  = if is_excluded (excluded_items s) cur then excluded_items s
    else excluded_items s ++ [cur].
Proof.
  intros Hf. unfold after_exclude.
  assert (Hs : stored_excluded sid (db w) = excluded_items s).
  { unfold stored_excluded. now rewrite Hf. }
  rewrite Hs. destruct (is_excluded (excluded_items s) cur); [exact Hs|].
  unfold stored_excluded. cbn [db sessions].
  rewrite find_update_where by reflexivity. now rewrite Hf.
Qed.

Lemma is_excluded_app ex1 ex2 x :
  is_excluded (ex1 ++ ex2) x = is_excluded ex1 x || is_excluded ex2 x.
Proof. unfold is_excluded. apply existsb_app. Qed.

Lemma is_excluded_own ex cur :
  is_excluded (if is_excluded ex cur then ex else ex ++ [cur]) cur = true.
Proof.
  destruct (is_excluded ex cur) eqn:E; [exact E|].
  rewrite is_excluded_app. unfold is_excluded at 2. cbn [existsb].
  replace (items_equal cur cur) with true by (symmetry; now apply items_equal_eq).
  now rewrite orb_true_r.
Qed.

(** While an item of the pool is not excluded, [select_item] returns
    such an item and writes nothing. *)
Lemma select_item_remaining sid w :
  (exists x, In x (pooled_items (active_members sid (db w))) /\
             is_excluded (stored_excluded sid (db w)) x = false) ->
  exists it,
    select_item sid w = (Ok (Some it), after_draw (after_draw w)) /\
    In it (pooled_items (active_members sid (db w))) /\
    is_excluded (stored_excluded sid (db w)) it = false.
Proof.
  intros Hx. rewrite select_item_run.
  destruct (group_items_grouped (active_members sid (db w)) (stored_excluded sid (db w)))
    as (Hg & Hin & Hne & _).
  specialize (Hne Hx). apply is_empty_false in Hne as Hne'. rewrite Hne'.
  destruct (pick_item_ok _ w Hne (fun K L H => proj1 (Hg K L H)))
    as (K & L & it & HKL & Hit & Ep).
  exists it. split; [exact Ep|]. split; [exact (Hin K L it HKL Hit)|].
  exact (proj1 (proj2 (Hg K L HKL) it Hit)).
Qed.

(** When every item of the pool is excluded, [select_item] empties the
    excluded list and returns an item of the pool. *)
Lemma select_item_recycles sid w :
  pooled_items (active_members sid (db w)) <> [] ->
  (forall x, In x (pooled_items (active_members sid (db w))) ->
             is_excluded (stored_excluded sid (db w)) x = true) ->
  exists it,
    select_item sid w
    = (Ok (Some it), after_draw (after_draw (after_clear_excluded sid w))) /\
    In it (pooled_items (active_members sid (db w))).
Proof.
  intros Hp Hall. rewrite select_item_run, stored_excluded_cleared.
  destruct (group_items_grouped (active_members sid (db w)) (stored_excluded sid (db w)))
    as (Hg & Hin & _ & _).
  destruct (group_items_grouped (active_members sid (db w)) [])
    as (Hg2 & Hin2 & Hne2 & _).
  assert (E1 : group_items (active_members sid (db w)) (stored_excluded sid (db w)) = []).
  { destruct (group_items _ (stored_excluded sid (db w))) as [|[K L] rest] eqn:Eg;
      [reflexivity|].
    destruct (Hg K L (or_introl eq_refl)) as [HL Hex].
    destruct L as [|o L]; [congruence|].
    destruct (Hex o (or_introl eq_refl)) as [Ho _].
    rewrite (Hall o (Hin K (o :: L) o (or_introl eq_refl) (or_introl eq_refl))) in Ho.
    discriminate Ho. }
  rewrite E1. cbn [is_empty].
  assert (Hne : group_items (active_members sid (db w)) [] <> []).
  { apply Hne2. destruct (pooled_items (active_members sid (db w))) as [|x l];
      [congruence|]. exists x. split; [now left|reflexivity]. }
  apply is_empty_false in Hne as Hne'. rewrite Hne'.
  destruct (pick_item_ok _ (after_clear_excluded sid w) Hne
              (fun K L H => proj1 (Hg2 K L H))) as (K & L & it & HKL & Hit & Ep).
  exists it. split; [exact Ep|]. exact (Hin2 K L it HKL Hit).
Qed.

Lemma after_exclude_members sid cur w :
  members (db (after_exclude sid cur w)) = members (db w).
Proof. unfold after_exclude. destruct (is_excluded _ _); reflexivity. Qed.

Lemma active_members_db sid d d' :
  members d' = members d -> active_members sid d' = active_members sid d.
Proof. unfold active_members. now intros ->. Qed.

(** C5: in a session that exists, [roll_next] first stores the current
    item at the end of the excluded list exactly when no entry of the list
    is equal to it after normalization (so excluding it again, under any
    spelling, changes nothing), and then selects.  While an item of the
    active members is not excluded, the selection, and every later one in
    that store, returns an item that is not excluded, hence not the current
    one, and writes nothing.  Only when every item is excluded is the list
    emptied and the whole pool drawn from.  With a pool of two items of
    distinct keys, after [roll_next] on the one every selection returns the
    other. *)
Theorem roll_next_excludes_current sid cur w s :
  find (session_is sid) (sessions (db w)) = Some s ->
  let pool := pooled_items (active_members sid (db w)) in
  let ex' := if is_excluded (excluded_items s) cur then excluded_items s
             else excluded_items s ++ [cur] in
  exists w0,
    exclude_current sid cur w = (Ok tt, w0) /\
    (is_excluded (excluded_items s) cur = true -> w0 = w) /\
    stored_excluded sid (db w0) = ex' /\
    members (db w0) = members (db w) /\
    is_excluded ex' cur = true /\
    (forall cur', items_equal cur' cur = true ->
       exclude_current sid cur' w0 = (Ok tt, w0)) /\
    roll_next sid cur w = select_item sid w0 /\
    (forall w2, db w2 = db w0 ->
       (exists x, In x pool /\ is_excluded ex' x = false) ->
       exists it w3,
         select_item sid w2 = (Ok (Some it), w3) /\ db w3 = db w2 /\
         In it pool /\ is_excluded ex' it = false /\ items_equal it cur = false) /\
    (forall w2, db w2 = db w0 -> pool <> [] ->
       (forall x, In x pool -> is_excluded ex' x = true) ->
       exists it w3,
         select_item sid w2 = (Ok (Some it), w3) /\ In it pool /\
         stored_excluded sid (db w3) = [] /\ members (db w3) = members (db w)) /\
    (forall b, In b pool -> (forall x, In x pool -> x = cur \/ x = b) ->
       normalize_item b <> normalize_item cur ->
       is_excluded (excluded_items s) b = false ->
       (exists w', roll_next sid cur w = (Ok (Some b), w') /\ db w' = db w0) /\
       (forall n w2, db w2 = db w0 ->
          exists w3, select_items sid n w2 = (Ok (repeat (Some b) n), w3) /\
                     db w3 = db w0)).
Proof.
  intros Hf pool ex'. exists (after_exclude sid cur w).
  pose proof (stored_excluded_after_exclude sid cur w s Hf) as Hst. fold ex' in Hst.
  pose proof (after_exclude_members sid cur w) as Hm.
  pose proof (is_excluded_own (excluded_items s) cur) as Hown. fold ex' in Hown.
  assert (Hsel : forall w2, db w2 = db (after_exclude sid cur w) ->
            (exists x, In x pool /\ is_excluded ex' x = false) ->
            exists it w3,
              select_item sid w2 = (Ok (Some it), w3) /\ db w3 = db w2 /\
              In it pool /\ is_excluded ex' it = false /\ items_equal it cur = false).
  { intros w2 Hdb Hx.
    destruct (select_item_remaining sid w2) as (it & E & Hin & Hex).
    { rewrite Hdb, Hst, (active_members_db sid _ _ Hm). exact Hx. }
    rewrite Hdb, Hst in Hex. rewrite Hdb, (active_members_db sid _ _ Hm) in Hin.
    exists it. eexists. split; [exact E|]. split; [reflexivity|].
    split; [exact Hin|]. split; [exact Hex|].
    destruct (items_equal it cur) eqn:Eq; [|reflexivity].
    apply items_equal_eq in Eq.
    rewrite (is_excluded_key ex' it cur Eq), Hown in Hex. discriminate Hex. }
  split; [apply exclude_current_run|]. split.
  { intros He. unfold after_exclude, stored_excluded. rewrite Hf, He. reflexivity. }
  split; [exact Hst|]. split; [exact Hm|]. split; [exact Hown|]. split.
  { intros cur' Eq. rewrite exclude_current_run. f_equal.
    unfold after_exclude at 1. rewrite Hst.
    apply items_equal_eq in Eq. now rewrite (is_excluded_key ex' cur' cur Eq), Hown. }
  split.
  { unfold roll_next, bind. now rewrite exclude_current_run. }
  split; [exact Hsel|]. split.
  { intros w2 Hdb Hp Hall.
    destruct (select_item_recycles sid w2) as (it & E & Hin).
    - now rewrite Hdb, (active_members_db sid _ _ Hm).
    - rewrite Hdb, Hst, (active_members_db sid _ _ Hm). exact Hall.
    - rewrite Hdb, (active_members_db sid _ _ Hm) in Hin.
      exists it. eexists. split; [exact E|]. split; [exact Hin|]. split.
      + apply (stored_excluded_cleared sid w2).
      + cbn [after_draw after_clear_excluded db members]. now rewrite Hdb. }
  intros b Hb Htwo Hkey Hnb.
  assert (Hrem : exists x, In x pool /\ is_excluded ex' x = false).
  { exists b. split; [exact Hb|]. unfold ex'.
    destruct (is_excluded (excluded_items s) cur); [exact Hnb|].
    rewrite is_excluded_app, Hnb. unfold is_excluded. cbn [existsb orb].
    rewrite orb_false_r. destruct (items_equal b cur) eqn:Eq; [|reflexivity].
    apply items_equal_eq in Eq. contradiction. }
  assert (Hb' : forall w2, db w2 = db (after_exclude sid cur w) ->
            exists w3, select_item sid w2 = (Ok (Some b), w3) /\ db w3 = db w2).
  { intros w2 Hdb. destruct (Hsel w2 Hdb Hrem) as (it & w3 & E & Hdb3 & Hin & _ & Hne).
    destruct (Htwo it Hin) as [->| ->].
    - replace (items_equal cur cur) with true in Hne
        by (symmetry; now apply items_equal_eq).
      discriminate Hne.
    - exists w3. split; assumption. }
  split.
  - destruct (Hb' _ eq_refl) as (w3 & E & Hdb3). exists w3.
    split; [|exact Hdb3]. unfold roll_next, bind. now rewrite exclude_current_run.
  - induction n as [|n IH]; intros w2 Hdb.
    + exists w2. split; [reflexivity|exact Hdb].
    + destruct (Hb' w2 Hdb) as (w3 & E & Hdb3).
      destruct (IH w3 ltac:(congruence)) as (w4 & E4 & Hdb4).
      exists w4. split; [|exact Hdb4].
      cbn [select_items repeat]. unfold bind at 1. rewrite E.
      unfold bind at 1. rewrite E4. reflexivity.
Qed.

Lemma roll_next_excludes_current_witness :
  exists w', roll_next "S" (py "Tea") tea_and_coffee = (Ok (Some (py "Coffee")), w') /\
             stored_excluded "S" (db w') = [py "Tea"].
Proof.
  destruct (roll_next_excludes_current "S" (py "Tea") tea_and_coffee
              (demo_session PHASE_RESULT) eq_refl)
    as (w0 & _ & _ & Hst & _ & _ & _ & _ & _ & _ & H).
  destruct (H (py "Coffee")) as [(w' & E & Hdb) _].
  - right. left. reflexivity.
  - intros x [<-|[<-|[]]]; [now left|now right].
  - discriminate.
  - reflexivity.
  - exists w'. split; [exact E|]. rewrite Hdb. exact Hst.
Defined.

(** ** Acceptances and the order of the rows *)

(** C1, at the failing input: with B's row read before A's, B's
    acceptance of "Tea" is dropped, since "tea" is no key of the dictionary
    yet when B's accepted items are gone through, and "Tea" is grouped under
    {A}, not under {A, B}.  With A's row first the same rows give {A, B}.
    Played through the operations (B creates the session, A joins, each
    accepts the item of the other), "Coffee" ends under {A, B} and "Tea"
    under {A} alone. *)
Theorem group_items_by_acceptance_row_order :
  fst (group_items_by_acceptance "S" (demo_world PHASE_RESULT b_then_a))
  = Ok [({["B"]}, [py "Coffee"]); ({["A"]}, [py "Tea"])]%string /\
  fst (group_items_by_acceptance "S" (demo_world PHASE_RESULT a_then_b))
  = Ok [({["A"; "B"]}, [py "Tea"]); ({["B"]}, [py "Coffee"])]%string /\
  fst (mutual_acceptance empty_world)
  = Ok [({["A"; "B"]}, [py "Coffee"]); ({["A"]}, [py "Tea"])]%string /\
  option_map phase (find (session_is "K7QM2X") (sessions (db (snd (mutual_acceptance empty_world)))))
  = Some PHASE_RESULT.
Proof.
  split; [vm_compute; reflexivity|]. split; [vm_compute; reflexivity|].
  split; vm_compute; reflexivity.
Qed.
